(** * Duplicate-File-Handler: a shallow embedding of [handler.py]

    The Python class [DuplicateFileHandler] is embedded as a state-and-exception
    monad over one record that holds the instance variables of the handler
    together with the part of the outside world the program touches: the files
    on disk, the lines waiting on standard input, what has been printed, and a
    log of the files whose content has been read.

    Python dictionaries keep their insertion order and the program iterates
    over them, so they are association lists here; the file system, which is
    only looked up and deleted from, is a [gmap]. *)

From Stdlib Require Import ZArith String Ascii List Lia DecimalString.
From stdpp Require Import base option list strings gmap sorting.

Local Open Scope string_scope.
Local Open Scope list_scope.
Local Open Scope Z_scope.

(** ** Text *)

Module Text.

(** The line feed, which a Rocq string literal cannot hold. *)
Definition nl : string := String (ascii_of_nat 10) EmptyString.

(** [str(n)] for a Python integer. *)
Definition str_of_int (n : Z) : string := NilZero.string_of_int (Z.to_int n).

(** [s.endswith(suffix)]: some tail of [s] is [suffix]. *)
Fixpoint endswith (s suffix : string) : bool :=
  String.eqb s suffix ||
  match s with
  | EmptyString => false
  | String _ s' => endswith s' suffix
  end.

(** [s.startswith(prefix)]. *)
Definition startswith (s pre : string) : bool := String.prefix pre s.

(** [os.path.join(a, b)] of [posixpath] for two components. *)
Definition os_path_join (a b : string) : string :=
  if startswith b "/" then b
  else if String.eqb a "" || endswith a "/" then String.append a b
  else String.append a (String.append "/" b).

(** A character is its code point, which is below 256 here.  Among these
    code points [\s] and [str.split] treat the ASCII controls 9 to 13 and
    28 to 31, the space, U+0085 and U+00A0 as white space, and [\d] and [int]
    take the ASCII digits, and nothing else, as decimal digits.  The three
    functions below are [re.fullmatch], [str.split] and [int] on such
    text: they are the library of the examples, which need one to run; the
    program itself is modelled over any library, see [Py.t]. *)
Definition is_space (c : ascii) : bool :=
  let n := nat_of_ascii c in
  ((9 <=? n) && (n <=? 13) || (28 <=? n) && (n <=? 32) ||
   (n =? 133) || (n =? 160))%nat.

Definition is_digit (c : ascii) : bool :=
  let n := nat_of_ascii c in ((48 <=? n) && (n <=? 57))%nat.

(** [re.fullmatch(r'[\s\d]+', s)] as a truth value. *)
Definition fullmatch_space_digit (s : string) : bool :=
  match list_ascii_of_string s with
  | [] => false
  | cs => forallb (fun c => is_space c || is_digit c) cs
  end.

(** [s.split()]: the maximal runs of characters that are not white space.
    [cur] is the run being read, most recent character first. *)
Fixpoint split_from (cs : list ascii) (cur : list ascii) : list string :=
  let flush rest :=
    match cur with
    | [] => rest
    | _ => string_of_list_ascii (rev cur) :: rest
    end in
  match cs with
  | [] => flush []
  | c :: cs' =>
      if is_space c then flush (split_from cs' [])
      else split_from cs' (c :: cur)
  end.

Definition split (s : string) : list string :=
  split_from (list_ascii_of_string s) [].

(** [sys.int_info.default_max_str_digits]: the longest run of digits that
    [int] converts when the interpreter is started without other settings. *)
Definition int_max_str_digits : nat := 4300.

(** [int(tok)] on a token made of decimal digits; [None] stands for the
    [ValueError] raised on a token of more than [int_max_str_digits]
    digits. *)
Definition int (tok : string) : option Z :=
  let cs := list_ascii_of_string tok in
  if (int_max_str_digits <? length cs)%nat then None
  else Some (fold_left
               (fun acc c => 10 * acc + (Z.of_nat (nat_of_ascii c) - 48)) cs 0).

End Text.

(** ** Dictionaries in insertion order *)

Module Dict.
Section Dict.
Context {K V : Type} `{EqDecision K}.

Definition t : Type := list (K * V).

(** [d[k]] for a plain [dict]; [None] stands for [KeyError]. *)
Fixpoint getitem (k : K) (d : t) : option V :=
  match d with
  | [] => None
  | (k', v) :: d' => if decide (k = k') then Some v else getitem k d'
  end.

(** [d[k] = v]: an existing key keeps its place, a new one goes last. *)
Fixpoint setitem (k : K) (v : V) (d : t) : t :=
  match d with
  | [] => [(k, v)]
  | (k', v') :: d' =>
      if decide (k = k') then (k, v) :: d' else (k', v') :: setitem k v d'
  end.

Definition keys (d : t) : list K := map fst d.
Definition values (d : t) : list V := map snd d.
Definition items (d : t) : list (K * V) := d.

(** What a Python [dict] guarantees and an association list does not. *)
Definition wf (d : t) : Prop := NoDup (keys d).
End Dict.

Arguments t : clear implicits.

(** [d[k].append(x)] on a [defaultdict(list)]: a missing key is first given
    the empty list. *)
Definition append_at {K V} `{EqDecision K} (k : K) (x : V)
    (d : t K (list V)) : t K (list V) :=
  setitem k (default [] (getitem k d) ++ [x]) d.
End Dict.

(** [l[i]] on a Python list: a negative index counts from the end, and an
    index out of range on either side is [None], standing for [IndexError]. *)
Definition list_getitem {A} (l : list A) (i : Z) : option A :=
  if 0 <=? i then l !! Z.to_nat i
  else if 0 <=? Z.of_nat (length l) + i then l !! Z.to_nat (Z.of_nat (length l) + i)
  else None.

(** ** Sorting

    [sorted(xs, reverse=reverse)] is used on the integer keys of a dictionary
    and on its [(key, value)] items.  Tuples compare by their first component
    first, and the keys of a dictionary are pairwise different, so the second
    component is never looked at: both uses sort by an integer key. *)

Definition ascending {A} (key : A -> Z) (a b : A) : Prop := key a <= key b.
Definition descending {A} (key : A -> Z) (a b : A) : Prop := key b <= key a.

#[global] Instance ascending_dec {A} (key : A -> Z) :
  RelDecision (ascending key).
Proof. intros a b. unfold ascending. apply _. Defined.

#[global] Instance descending_dec {A} (key : A -> Z) :
  RelDecision (descending key).
Proof. intros a b. unfold descending. apply _. Defined.

Definition sorted {A} (key : A -> Z) (reverse : bool) (l : list A) : list A :=
  if reverse then merge_sort (descending key) l
  else merge_sort (ascending key) l.

(** ** The handler and its world *)

(** What the program writes to standard output, one constructor per [print]
    or [input] prompt of the source; [render] gives the text. *)
Inductive output : Type :=
  | Prompt (message : string)
  | WrongOption
  | WrongFormat
  | SizeHeader (size : Z)
  | FileLines (paths : list string)
  | BlankLine
  | HashLine (hash_value : string)
  | NumberedLine (index : Z) (file : string)
  | TotalLine (total_size : Z)
  | NoDirectory.

Definition render (o : output) : string :=
  let cat := String.append in
  let nl := Text.nl in
  match o with
  | Prompt message => message
  | WrongOption => cat nl (cat "Wrong option" (cat nl nl))
  | WrongFormat => cat nl (cat "Wrong format" (cat nl nl))
  | SizeHeader size => cat nl (cat (Text.str_of_int size) (cat " bytes" nl))
  | FileLines paths => cat (String.concat nl paths) nl
  | BlankLine => nl
  | HashLine hash_value => cat "Hash: " (cat hash_value nl)
  | NumberedLine index file =>
      cat (Text.str_of_int index) (cat ". " (cat file nl))
  | TotalLine total_size =>
      cat nl (cat "Total freed up space: "
                  (cat (Text.str_of_int total_size) (cat " bytes" nl)))
  | NoDirectory => cat "Directory is not specified" nl
  end.

(** The exceptions of the program and of the calls it makes.  Of the
    [OSError]s only [FileNotFoundError] is here: the others need permissions
    and kinds of files, which a disk of regular files does not have. *)
Inductive exn : Type :=
  | IndexError
  | KeyError
  | EOFError
  | FileNotFoundError (path : string)
  | RecursionError
  | ValueError.

Inductive result (A : Type) : Type :=
  | Ok (a : A)
  | Raise (e : exn).
Arguments Ok {A} a.
Arguments Raise {A} e.

(** The five instance variables of [DuplicateFileHandler], then the world:
    [fs] maps the path of each regular file to its content, [stdin] holds the
    lines not read yet, [stdout] what was printed, oldest first, and [opened]
    the paths whose content was read, oldest first. *)
Record State : Type := mkState {
  root_path : string;
  files : Dict.t Z (list string);
  files_by_hash_value : Dict.t Z (Dict.t string (list string));
  duplicate_files_dict : Dict.t Z (Dict.t string (list string));
  duplicate_files : list string;
  fs : gmap string string;
  stdin : list string;
  stdout : list output;
  opened : list string
}.

Definition set_files (v : Dict.t Z (list string)) (s : State) : State :=
  mkState (root_path s) v (files_by_hash_value s) (duplicate_files_dict s)
          (duplicate_files s) (fs s) (stdin s) (stdout s) (opened s).
Definition set_files_by_hash_value
    (v : Dict.t Z (Dict.t string (list string))) (s : State) : State :=
  mkState (root_path s) (files s) v (duplicate_files_dict s)
          (duplicate_files s) (fs s) (stdin s) (stdout s) (opened s).
Definition set_duplicate_files_dict
    (v : Dict.t Z (Dict.t string (list string))) (s : State) : State :=
  mkState (root_path s) (files s) (files_by_hash_value s) v
          (duplicate_files s) (fs s) (stdin s) (stdout s) (opened s).
Definition set_duplicate_files (v : list string) (s : State) : State :=
  mkState (root_path s) (files s) (files_by_hash_value s)
          (duplicate_files_dict s) v (fs s) (stdin s) (stdout s) (opened s).
Definition set_fs (v : gmap string string) (s : State) : State :=
  mkState (root_path s) (files s) (files_by_hash_value s)
          (duplicate_files_dict s) (duplicate_files s) v (stdin s) (stdout s)
          (opened s).
Definition set_stdin (v : list string) (s : State) : State :=
  mkState (root_path s) (files s) (files_by_hash_value s)
          (duplicate_files_dict s) (duplicate_files s) (fs s) v (stdout s)
          (opened s).
Definition set_stdout (v : list output) (s : State) : State :=
  mkState (root_path s) (files s) (files_by_hash_value s)
          (duplicate_files_dict s) (duplicate_files s) (fs s) (stdin s) v
          (opened s).
Definition set_opened (v : list string) (s : State) : State :=
  mkState (root_path s) (files s) (files_by_hash_value s)
          (duplicate_files_dict s) (duplicate_files s) (fs s) (stdin s)
          (stdout s) v.

(** [DuplicateFileHandler.__init__(self, path)]. *)
Definition init (path : string) (s : State) : State :=
  mkState path [] [] [] [] (fs s) (stdin s) (stdout s) (opened s).

(** ** The monad: state, and exceptions that keep the state reached *)

Definition M (A : Type) : Type := State -> result A * State.

#[global] Instance M_ret : MRet M := fun A a s => (Ok a, s).

#[global] Instance M_bind : MBind M := fun A B f m s =>
  match m s with
  | (Ok a, s') => f a s'
  | (Raise e, s') => (Raise e, s')
  end.

Definition raise {A} (e : exn) : M A := fun s => (Raise e, s).
Definition get : M State := fun s => (Ok s, s).
Definition modify (f : State -> State) : M unit := fun s => (Ok tt, f s).

(** A [for] loop whose body updates local variables, gathered in [acc]. *)
Fixpoint for_fold {A B} (xs : list A) (acc : B) (body : B -> A -> M B) : M B :=
  match xs with
  | [] => mret acc
  | x :: xs' => acc' ← body acc x; for_fold xs' acc' body
  end.

Definition for_each {A} (xs : list A) (body : A -> M unit) : M unit :=
  for_fold xs tt (fun _ x => body x).

(** *** Built-in and library calls *)

Definition print (o : output) : M unit :=
  modify (fun s => set_stdout (stdout s ++ [o]) s).

(** [input(message)]: the prompt is written, then a line is read. *)
Definition input (message : string) : M string :=
  print (Prompt message);;
  s ← get;
  match stdin s with
  | [] => raise EOFError
  | line :: rest => modify (set_stdin rest);; mret line
  end.

Definition os_path_getsize (path : string) : M Z :=
  s ← get;
  match fs s !! path with
  | Some content => mret (Z.of_nat (String.length content))
  | None => raise (FileNotFoundError path)
  end.

Definition os_remove (path : string) : M unit :=
  s ← get;
  match fs s !! path with
  | Some _ => modify (set_fs (delete path (fs s)))
  | None => raise (FileNotFoundError path)
  end.

(** [with open(file, 'rb') as f: content = f.read()]. *)
Definition read_bytes (file : string) : M string :=
  s ← get;
  match fs s !! file with
  | Some content =>
      modify (fun s => set_opened (opened s ++ [file]) s);; mret content
  | None => raise (FileNotFoundError file)
  end.

(** *** The interpreter and the text library

    What a run takes from Python besides the program.  [recursion_depth] is
    the number of times [prompt_user] can call itself before the interpreter
    refuses the next call with [RecursionError]: [sys.getrecursionlimit()]
    less the frames in use when [prompt_user] is entered, which depends on
    the interpreter and on how the program is started.
    [fullmatch_space_digit line] tells whether
    [re.fullmatch(r'[\s\d]+', line)] finds a match, [split line] is
    [line.split()], and [int tok] is [int(tok)], [None] standing for the
    [ValueError] it raises on a token it does not convert. *)
Module Py.
Record t : Type := mk {
  recursion_depth : nat;
  fullmatch_space_digit : string -> bool;
  split : string -> list string;
  int : string -> option Z
}.
End Py.

(** ** The methods of [DuplicateFileHandler] *)

Section Handler.

(** [hashlib.md5(content).hexdigest()], and [os.walk(top, topdown=False)]
    as the list of the [(root, dirs, files)] triples it yields for a given
    file system.  Both belong to the library, not to the program. *)
Variable md5 : string -> string.
Variable os_walk :
  gmap string string -> string -> list (string * list string * list string).
Variable py : Py.t.

(** [prompt_user(message, option_1, option_2)].  The source calls itself
    until the answer is one of the two options; [depth] is the number of
    such calls the interpreter still allows, and the call after the last of
    them raises [RecursionError].  [input] raises [EOFError] when no line is
    left. *)
Fixpoint prompt_user_rec (depth : nat) (message option_1 option_2 : string)
    : M bool :=
  answer ← input message;
  match Dict.getitem answer
          (Dict.setitem option_2 false (Dict.setitem option_1 true []))
  with
  | Some b => mret b
  | None =>
      print WrongOption;;
      match depth with
      | O => raise RecursionError
      | S depth' => prompt_user_rec depth' message option_1 option_2
      end
  end.

Definition prompt_user (message option_1 option_2 : string) : M bool :=
  prompt_user_rec (Py.recursion_depth py) message option_1 option_2.

(** A loop variable named [files] in the source is [files'] below, where the
    name is taken by the instance variable. *)
Definition add_files (file_format : string) : M unit :=
  s ← get;
  for_each (os_walk (fs s) (root_path s)) (fun '(root, dirs, files') =>
    for_each files' (fun file =>
      if Text.endswith file file_format then
        let file_path := Text.os_path_join root file in
        file_size ← os_path_getsize file_path;
        modify (fun s =>
          set_files (Dict.append_at file_size file_path (files s)) s)
      else mret tt)).

Definition add_files_by_hash_value : M unit :=
  s ← get;
  for_each (Dict.items (files s)) (fun '(size, files') =>
    hash_dict ← for_fold files' [] (fun hash_dict file =>
      content ← read_bytes file;
      let hash_value := md5 content in
      mret (Dict.append_at hash_value file hash_dict));
    modify (fun s =>
      set_files_by_hash_value
        (Dict.setitem size hash_dict (files_by_hash_value s)) s)).

(** The lists stored into [duplicate_files_dict] are the very objects held in
    [files_by_hash_value]; nothing appends to them once they are shared, so
    the sharing cannot be observed and values stand for them here. *)
Definition add_duplicate_files : M unit :=
  s ← get;
  for_each (Dict.items (files_by_hash_value s)) (fun '(size, hash_dict) =>
    let duplicate_hash_dict :=
      fold_left (fun d '(hash_value, files') =>
                   if (1 <? length files')%nat
                   then Dict.setitem hash_value files' d else d)
                (Dict.items hash_dict) [] in
    match duplicate_hash_dict with
    | [] => mret tt
    | _ =>
        modify (fun s =>
          set_duplicate_files_dict
            (Dict.setitem size duplicate_hash_dict (duplicate_files_dict s))
            s)
    end).

Definition output_files (reverse : bool) : M unit :=
  s ← get;
  for_each (sorted id reverse (Dict.keys (files s))) (fun size =>
    let files' := default [] (Dict.getitem size (files s)) in
    print (SizeHeader size);;
    print (FileLines files');;
    print BlankLine).

Definition output_duplicates (reverse : bool) : M unit :=
  s ← get;
  for_fold (sorted fst reverse (Dict.items (duplicate_files_dict s))) 1
    (fun index '(size, hash_dict) =>
      print (SizeHeader size);;
      for_fold (Dict.items hash_dict) index
        (fun index '(hash_value, files') =>
          print (HashLine hash_value);;
          index ← for_fold files' index (fun index file =>
            print (NumberedLine index file);;
            modify (fun s =>
              set_duplicate_files (duplicate_files s ++ [file]) s);;
            mret (index + 1));
          print BlankLine;;
          mret index));;
  mret tt.

Definition delete_files (file_numbers : list Z) : M unit :=
  total_size ← for_fold file_numbers 0 (fun total_size num =>
    s ← get;
    match list_getitem (duplicate_files s) (num - 1) with
    | None => mret total_size
    | Some file =>
        size ← os_path_getsize file;
        os_remove file;;
        mret (total_size + size)
    end);
  print (TotalLine total_size).

Definition format_message : string :=
  String.append "Enter file format:" Text.nl.
Definition sorting_message : string :=
  String.concat Text.nl
    [""; "Size sorting options:"; "1. Descending"; "2. Ascending"; "";
     "Enter a sorting option:"; ""].
Definition check_message : string :=
  String.concat Text.nl [""; "Check for duplicates?"; ""].
Definition numbers_message : string :=
  String.append "Enter file numbers to delete:" Text.nl.

(** The [while True] loop that asks for the file numbers.  Every round reads
    one line, so the number of lines left on standard input bounds the
    rounds: [input] raises [EOFError] before they are used up. *)
Fixpoint read_file_numbers (rounds : nat) : M string :=
  file_numbers ← input numbers_message;
  if Py.fullmatch_space_digit py file_numbers then mret file_numbers
  else
    print WrongFormat;;
    match rounds with
    | O => raise EOFError
    | S rounds' => read_file_numbers rounds'
    end.

(** [list(map(int, file_numbers.split()))] converts the tokens in their
    order and has no effect but the [ValueError] of the first token that
    [int] turns down: [mapM] in the option monad. *)
Definition start_file_handler : M unit :=
  file_format ← input format_message;
  add_files file_format;;
  add_files_by_hash_value;;
  add_duplicate_files;;
  sorting ← prompt_user sorting_message "1" "2";
  output_files sorting;;
  delete ← prompt_user check_message "yes" "no";
  output_duplicates sorting;;
  if delete : bool then
    s ← get;
    file_numbers ← read_file_numbers (length (stdin s));
    match mapM (Py.int py) (Py.split py file_numbers) with
    | Some file_numbers => delete_files file_numbers
    | None => raise ValueError
    end
  else mret tt.

(** [main()], with [sys.argv] as its argument. *)
Definition main (argv : list string) : M unit :=
  match list_getitem argv 1 with
  | None => print NoDirectory
  | Some directory =>
      modify (init directory);;
      start_file_handler
  end.

End Handler.

(** * The vocabulary of the statements

    Nothing below changes the model: these definitions name what the theorems
    talk about. *)

(** ** States and what was printed *)

(** [emit out fl s]: the state [s] after [out] has been printed and [fl] has
    been appended to [duplicate_files]. *)
Definition emit (out : list output) (fl : list string) (s : State) : State :=
  set_stdout (stdout s ++ out) (set_duplicate_files (duplicate_files s ++ fl) s).

Definition size_headers (out : list output) : list Z :=
  omap (fun o => match o with SizeHeader size => Some size | _ => None end) out.

Definition numbered_lines (out : list output) : list (Z * string) :=
  omap (fun o => match o with
                 | NumberedLine index file => Some (index, file)
                 | _ => None
                 end) out.

(** ** The listings *)

(** The files of one size in the order of the listing, and those of a
    sequence of [(size, hash_dict)] items. *)
Definition group_files (hash_dict : Dict.t string (list string)) : list string :=
  concat (Dict.values hash_dict).

Definition listed_files (its : list (Z * Dict.t string (list string)))
    : list string :=
  concat (map (fun it => group_files it.2) its).

Fixpoint numbered (index : Z) (fl : list string) : list output :=
  match fl with
  | [] => []
  | file :: fl' => NumberedLine index file :: numbered (index + 1) fl'
  end.

Fixpoint groups_lines (index : Z) (hash_dict : Dict.t string (list string))
    : list output :=
  match hash_dict with
  | [] => []
  | (hash_value, fl) :: hash_dict' =>
      HashLine hash_value :: numbered index fl ++
      BlankLine :: groups_lines (index + Z.of_nat (length fl)) hash_dict'
  end.

Fixpoint listing (index : Z) (its : list (Z * Dict.t string (list string)))
    : list output :=
  match its with
  | [] => []
  | (size, hash_dict) :: its' =>
      SizeHeader size :: groups_lines index hash_dict ++
      listing (index + Z.of_nat (length (group_files hash_dict))) its'
  end.

Definition plain_listing (d : Dict.t Z (list string)) (sizes : list Z)
    : list output :=
  concat (map (fun size =>
                 [SizeHeader size; FileLines (default [] (Dict.getitem size d));
                  BlankLine]) sizes).

(** The order a listing follows: descending when [reverse] is set. *)
Definition size_order (reverse : bool) : relation Z :=
  if reverse then fun a b => b <= a else fun a b => a <= b.

(** ** Indexing *)

(** The bucket of a size: the list under the key, empty when the key is
    missing. *)
Definition bucket (d : Dict.t Z (list string)) (size : Z) : list string :=
  default [] (Dict.getitem size d).

(** [path] was put into the bucket of [size] for a good reason: it is a file
    of the walk, its name ends with the filter, and it has [size] bytes. *)
Definition placed (walked : list (string * list string * list string))
    (file_format : string) (disk : gmap string string) (size : Z)
    (path : string) : Prop :=
  exists root dirs fnames file,
    (root, dirs, fnames) ∈ walked /\ file ∈ fnames /\
    path = Text.os_path_join root file /\
    Text.endswith file file_format = true /\
    exists content,
      disk !! path = Some content /\ Z.of_nat (String.length content) = size.

Definition indexed (walked : list (string * list string * list string))
    (file_format : string) (s0 s : State) : Prop :=
  fs s = fs s0 /\
  forall size : Z, exists added,
    bucket (files s) size = bucket (files s0) size ++ added /\
    Forall (placed walked file_format (fs s0) size) added.

(** ** Hashing *)

(** The hash dictionary the inner loop of [add_files_by_hash_value] grows from
    [hash_dict] over the files [fl], read from [disk]. *)
Definition hash_groups (md5 : string -> string) (disk : gmap string string)
    (fl : list string) (hash_dict : Dict.t string (list string))
    : Dict.t string (list string) :=
  fold_left (fun hash_dict file =>
               Dict.append_at (md5 (default "" (disk !! file))) file hash_dict)
            fl hash_dict.

Definition hash_bucket (md5 : string -> string) (disk : gmap string string)
    (found : Dict.t Z (Dict.t string (list string))) (it : Z * list string)
    : Dict.t Z (Dict.t string (list string)) :=
  Dict.setitem it.1 (hash_groups md5 disk it.2 []) found.

(** What hashing changes: the hash buckets and the log of files read. *)
Definition hashed (found : Dict.t Z (Dict.t string (list string)))
    (fl : list string) (s : State) : State :=
  set_files_by_hash_value found (set_opened (opened s ++ fl) s).

(** ** The duplicate sets *)

(** The inner loop of [add_duplicate_files]: the digest groups of one size
    that hold more than one file. *)
Definition duplicate_groups (hash_dict : Dict.t string (list string))
    : Dict.t string (list string) :=
  fold_left (fun d '(hash_value, files') =>
               if (1 <? length files')%nat
               then Dict.setitem hash_value files' d else d)
            (Dict.items hash_dict) [].

Definition keep_duplicates
    (found : Dict.t Z (Dict.t string (list string)))
    (it : Z * Dict.t string (list string))
    : Dict.t Z (Dict.t string (list string)) :=
  match duplicate_groups it.2 with
  | [] => found
  | groups => Dict.setitem it.1 groups found
  end.

(** ** Deletion *)

(** The files a batch of ordinals refers to, in the order of the batch: the
    ordinals for which the lookup [duplicate_files[num - 1]] succeeds. *)
Definition targets (flat : list string) (file_numbers : list Z) : list string :=
  omap (fun num => list_getitem flat (num - 1)) file_numbers.

Definition file_size (disk : gmap string string) (file : string) : Z :=
  from_option (fun content => Z.of_nat (String.length content)) 0 (disk !! file).

(** The bytes freed by deleting [fl] one file after the other, each file
    being measured on the disk as it is just before the file is deleted. *)
Fixpoint freed_bytes (disk : gmap string string) (fl : list string) : Z :=
  match fl with
  | [] => 0
  | file :: fl' => file_size disk file + freed_bytes (delete file disk) fl'
  end.

Definition remove_all (fl : list string) (disk : gmap string string)
    : gmap string string :=
  fold_left (fun disk file => delete file disk) fl disk.

(** Following the spec: the files of the ordinals that are in the range from
    1 to the length of the flattened list, in the order of the batch.  These
    are the ordinals the spec calls valid, and the comment in [delete_files]
    in range. *)
Definition targets_in_range (flat : list string) (file_numbers : list Z)
    : list string :=
  omap (fun num =>
          if (1 <=? num) && (num <=? Z.of_nat (length flat))
          then flat !! Z.to_nat (num - 1) else None)
       file_numbers.

(** The body of the loop of [delete_files]. *)
Definition delete_step (total_size num : Z) : M Z :=
  s ← get;
  match list_getitem (duplicate_files s) (num - 1) with
  | None => mret total_size
  | Some file =>
      size ← os_path_getsize file;
      os_remove file;;
      mret (total_size + size)
  end.

(** What a run of the deletion loop can do to the state, whether it returns
    or raises: the flattened list and the output are as before, and no file
    that was missing is back. *)
Definition only_deletes (s s' : State) : Prop :=
  duplicate_files s' = duplicate_files s /\
  stdout s' = stdout s /\
  forall path : string, fs s !! path = None -> fs s' !! path = None.

(** ** The session *)

(** [start_file_handler] up to the point where the question
    [Check for duplicates?] is put, and the part run when the answer was
    [yes]. *)
Definition scan_and_list (md5 : string -> string)
    (os_walk : gmap string string -> string ->
               list (string * list string * list string))
    (py : Py.t) : M bool :=
  file_format ← input format_message;
  add_files os_walk file_format;;
  add_files_by_hash_value md5;;
  add_duplicate_files;;
  sorting ← prompt_user py sorting_message "1" "2";
  output_files sorting;;
  mret sorting.

Definition deletion_phase (py : Py.t) : M unit :=
  s ← get;
  file_numbers ← read_file_numbers py (length (stdin s));
  match mapM (Py.int py) (Py.split py file_numbers) with
  | Some file_numbers => delete_files file_numbers
  | None => raise ValueError
  end.

(** ** A directory to run the program on

    [r/A] and [r/B] hold the same ten bytes, [r/C] ten other bytes, and
    [r/sub/D] and [r/sub/E] the same twenty bytes; [r/notes.txt] is alone in
    its size.  The digest of the examples is the content itself, which is
    enough to tell contents apart. *)

Module Example.

Definition digest (content : string) : string := content.

Definition tree (_ : gmap string string) (top : string)
    : list (string * list string * list string) :=
  [(String.append top "/sub", [], ["D"; "E"]);
   (top, ["sub"], ["A"; "B"; "C"; "notes.txt"])].

Definition disk : gmap string string :=
  list_to_map
    [("r/A", "xxxxxxxxxx"); ("r/B", "xxxxxxxxxx"); ("r/C", "yyyyyyyyyy");
     ("r/sub/D", "zzzzzzzzzzzzzzzzzzzz"); ("r/sub/E", "zzzzzzzzzzzzzzzzzzzz");
     ("r/notes.txt", "hello")].

(** An interpreter that allows [prompt_user] 990 calls of itself, with the
    text library of [Text]; the lines of the examples are ASCII. *)
Definition python : Py.t :=
  Py.mk 990 Text.fullmatch_space_digit Text.split Text.int.


(** A handler just built on [r], with [lines] waiting on standard input. *)
Definition fresh (lines : list string) : State :=
  init "r" (mkState "" [] [] [] [] disk lines [] []).

(** The state after the three scanning steps, run in the order of
    [start_file_handler]. *)
Definition scanned : State :=
  (add_duplicate_files
     (add_files_by_hash_value digest
        (add_files tree "" (fresh [])).2).2).2.

End Example.

(** The handler after the scan and one ascending duplicate listing: the
    flattened list is [r/A; r/B; r/sub/D; r/sub/E]. *)
Definition listed : State := (output_duplicates false Example.scanned).2.

(** The session of the example directory in which the user lists all files,
    ascending, asks for the duplicates and then enters the ordinal 0. *)
Definition session_with_zero : result unit * State :=
  main Example.digest Example.tree Example.python ["handler.py"; "r"]
       (mkState "" [] [] [] [] Example.disk [""; "2"; "yes"; "0"] [] []).

(** The session of the example directory in which the user lists all files,
    ascending, and answers [no]. *)
Definition session_no : State :=
  init "r" (mkState "" [] [] [] [] Example.disk [""; "2"; "no"] [] []).

(** ** Two readings that the code does not follow *)

(** The reading of the hash-grouping step under which a file alone in its
    size bucket is not read. *)
Definition skips_singletons (md5 : string -> string) (s : State) : Prop :=
  forall (size : Z) (file : string),
    Dict.getitem size (files s) = Some [file] ->
    file ∉ drop (length (opened s)) (opened (add_files_by_hash_value md5 s).2).

(** The reading of the numbering under which an ordinal [k] indexes the
    flattened list at [k - 1] after any run of the listing. *)
Definition ordinal_indexes_list (reverse : bool) (s : State) : Prop :=
  let s' := (output_duplicates reverse s).2 in
  let printed := drop (length (stdout s)) (stdout s') in
  forall (k : Z) (file : string),
    (k, file) ∈ numbered_lines printed ->
    list_getitem (duplicate_files s') (k - 1) = Some file.

(** ** The two prompts *)

(** What a prompt has printed when it asks once more after the answers
    [wrong], each of which it met with [complaint]. *)
Definition reprompts (message : string) (complaint : output)
    (wrong : list string) : list output :=
  concat (map (fun _ => [Prompt message; complaint]) wrong) ++ [Prompt message].

(** ** The files a scan handles *)

(** The paths [add_files] asks the size of, in the order it does: for every
    triple of the walk, the names that end with the filter, joined to the
    directory. *)
Definition matching_paths (walked : list (string * list string * list string))
    (file_format : string) : list string :=
  flat_map (fun '(root, _, fnames) =>
              map (Text.os_path_join root)
                  (List.filter (fun file => Text.endswith file file_format)
                               fnames))
           walked.

Definition on_disk (disk : gmap string string) (path : string) : bool :=
  bool_decide (is_Some (disk !! path)).

(** The first of [paths] that is not on disk, and the paths before it. *)
Definition first_missing (disk : gmap string string) (paths : list string)
    : option string :=
  List.find (fun path => negb (on_disk disk path)) paths.

Fixpoint present_prefix (disk : gmap string string) (paths : list string)
    : list string :=
  match paths with
  | [] => []
  | path :: paths' =>
      if on_disk disk path then path :: present_prefix disk paths' else []
  end.

(** What [add_files] does with one path. *)
Definition index_step (file_path : string) : M unit :=
  file_size ← os_path_getsize file_path;
  modify (fun s => set_files (Dict.append_at file_size file_path (files s)) s).

(** The size buckets after [paths] have been filed under their sizes. *)
Definition index_paths (disk : gmap string string) (paths : list string)
    (d : Dict.t Z (list string)) : Dict.t Z (list string) :=
  fold_left (fun d path => Dict.append_at (file_size disk path) path d) paths d.

(** The size buckets, from the first on, whose files are all on disk: those
    [add_files_by_hash_value] gets through. *)
Fixpoint hashed_buckets (disk : gmap string string)
    (its : list (Z * list string)) : list (Z * list string) :=
  match its with
  | [] => []
  | it :: its' =>
      if forallb (on_disk disk) it.2 then it :: hashed_buckets disk its'
      else []
  end.

(** The digest of the content of a file on [disk], and the files of [fl]
    that have the digest [hash_value], in the order of [fl]. *)
Definition digest_of (md5 : string -> string) (disk : gmap string string)
    (file : string) : string :=
  md5 (default "" (disk !! file)).

Definition same_digest (md5 : string -> string) (disk : gmap string string)
    (hash_value : string) (fl : list string) : list string :=
  List.filter (fun file => String.eqb (digest_of md5 disk file) hash_value) fl.

(** The digest groups of a hash bucket that hold two files or more, and the
    duplicate sets of a collection of hash buckets: for every size that has
    such groups, the size with them. *)
Definition large_groups (hash_dict : Dict.t string (list string))
    : Dict.t string (list string) :=
  List.filter (fun group => (1 <? length group.2)%nat) hash_dict.

Definition duplicate_sets
    (found : Dict.t Z (Dict.t string (list string)))
    : Dict.t Z (Dict.t string (list string)) :=
  omap (fun it => match large_groups it.2 with
                  | [] => None
                  | groups => Some (it.1, groups)
                  end) found.

(** ** What a session may do to the disk *)

(** From [s] to [s'] something was printed, the paths printed with an ordinal
    were appended to the flattened list, and every path is on disk as before
    unless its file is gone and the path is in the flattened list. *)
Definition deleted_only_listed (s s' : State) : Prop :=
  (exists out : list output,
     stdout s' = stdout s ++ out /\
     duplicate_files s' = duplicate_files s ++ map snd (numbered_lines out)) /\
  (forall path : string,
     fs s' !! path = fs s !! path \/
     (fs s' !! path = None /\ path ∈ duplicate_files s')).

Definition same_disk (s s' : State) : Prop := fs s' = fs s.

(** ** The scan as a whole *)

(** The three scanning steps in the order of [start_file_handler]. *)
Definition scan (md5 : string -> string)
    (os_walk : gmap string string -> string ->
               list (string * list string * list string))
    (file_format : string) : M unit :=
  add_files os_walk file_format;;
  add_files_by_hash_value md5;;
  add_duplicate_files.

(** The entries of [paths] that have the size and the digest of [path]. *)
Definition twins (md5 : string -> string) (disk : gmap string string)
    (paths : list string) (path : string) : list string :=
  same_digest md5 disk (digest_of md5 disk path)
    (List.filter (fun other => file_size disk other =? file_size disk path)
                 paths).

(** ** The plain listing *)

(** The paths on the file lines of an output, in the order printed. *)
Definition file_lines (out : list output) : list string :=
  concat (omap (fun o => match o with
                         | FileLines paths => Some paths
                         | _ => None
                         end) out).

(** ** Whole sessions *)

(** The handler and its world when a session has listed the duplicates. *)
Definition session_listed (md5 : string -> string) (directory : string)
    (paths : list string) (reverse : bool) (lines : list string)
    (out : list output) (s : State) : State :=
  let found := index_paths (fs s) paths [] in
  let hashes :=
    map (fun it => (it.1, hash_groups md5 (fs s) it.2 [])) found in
  let sets := duplicate_sets hashes in
  mkState directory found hashes sets
          (listed_files (sorted fst reverse sets)) (fs s) lines
          (stdout s ++ out) (opened s ++ concat (Dict.values found)).

(** What a session prints up to and with the duplicate listing. *)
Definition session_output (md5 : string -> string)
    (disk : gmap string string) (paths : list string) (reverse : bool)
    (wrong1 wrong2 : list string) : list output :=
  let found := index_paths disk paths [] in
  let sets :=
    duplicate_sets
      (map (fun it => (it.1, hash_groups md5 disk it.2 [])) found) in
  Prompt format_message ::
  reprompts sorting_message WrongOption wrong1 ++
  plain_listing found (sorted id reverse (Dict.keys found)) ++
  reprompts check_message WrongOption wrong2 ++
  listing 1 (sorted fst reverse sets).

(** The example directory before a session in which the user answers [3] and
    then [2] to the first question and [maybe] and then [no] to the second. *)
Definition before_no : State :=
  mkState "" [] [] [] [] Example.disk [""; "3"; "2"; "maybe"; "no"; "x"] [] [].

(** The same, when the user answers [yes], then [1, 2], which is turned
    down, and then [1 3]. *)
Definition before_yes : State :=
  mkState "" [] [] [] [] Example.disk [""; "2"; "yes"; "1, 2"; "1 3"; "x"]
          [] [].

(** ** The exceptions that leave the program *)

(** What an [EOFError] and a [FileNotFoundError] say of the state in which
    they are raised: standard input is used up, and the path is not on
    disk.  Of the other outcomes nothing is asked here. *)
Definition explained {A} (outcome : result A * State) : Prop :=
  match outcome.1 with
  | Raise EOFError => stdin outcome.2 = []
  | Raise (FileNotFoundError path) => fs outcome.2 !! path = None
  | _ => True
  end.

Definition honest {A} (m : M A) : Prop := forall s : State, explained (m s).

(** The session of the example directory in which the user lists all files,
    ascending, asks for the duplicates and enters the ordinal 1 twice. *)
Definition session_twice : result unit * State :=
  main Example.digest Example.tree Example.python ["handler.py"; "r"]
       (mkState "" [] [] [] [] Example.disk [""; "2"; "yes"; "1 1"] [] []).

(** * Verification *)

(** ** Running monadic code *)

Lemma bind_run {A B} (m : M A) (f : A -> M B) (s : State) :
  (m ≫= f) s =
  match m s with
  | (Ok a, s') => f a s'
  | (Raise e, s') => (Raise e, s')
  end.
Proof. reflexivity. Qed.

Lemma mret_run {A} (a : A) (s : State) : (mret a : M A) s = (Ok a, s).
Proof. reflexivity. Qed.

Lemma modify_run (f : State -> State) (s : State) : modify f s = (Ok tt, f s).
Proof. reflexivity. Qed.

Lemma get_run (s : State) : get s = (Ok s, s).
Proof. reflexivity. Qed.

Lemma raise_run {A} (e : exn) (s : State) : @raise A e s = (Raise e, s).
Proof. reflexivity. Qed.

(** One step at a time: expose the next bind, run a primitive, reduce. *)
Ltac mstep :=
  repeat (first [ rewrite bind_run | rewrite mret_run | rewrite modify_run
                | rewrite get_run | rewrite raise_run ];
          cbv beta iota).

(** Two outcomes that agree up to arithmetic on the returned counter. *)
Ltac same_but_index :=
  match goal with
  | |- (Ok ?a, _) = (Ok ?b, _) =>
      replace a with b by (simpl; rewrite ?length_app; lia); reflexivity
  end.

Lemma for_fold_app {A B} (xs ys : list A) (acc : B) (body : B -> A -> M B)
    (s : State) :
  for_fold (xs ++ ys) acc body s =
  (acc' ← for_fold xs acc body; for_fold ys acc' body) s.
Proof.
  revert acc s. induction xs as [|x xs IH]; intros acc s; [reflexivity|].
  simpl. rewrite !bind_run. destruct (body acc x s) as [[acc'|e] s'].
  - rewrite IH. reflexivity.
  - reflexivity.
Qed.

(** A property of the state that every round of a loop keeps, whether the
    round returns or raises, holds when the loop is left. *)
Lemma for_fold_invariant {A B} (I : State -> Prop) (xs : list A) (acc : B)
    (body : B -> A -> M B) (s : State) :
  (forall acc x s, x ∈ xs -> I s -> I (body acc x s).2) ->
  I s -> I (for_fold xs acc body s).2.
Proof.
  revert acc s. induction xs as [|x xs IH]; intros acc s Hbody Hs; [done|].
  cbn [for_fold]. rewrite bind_run.
  pose proof (Hbody acc x s (list_elem_of_here _ _) Hs) as Hstep.
  destruct (body acc x s) as [[acc'|e] s1]; cbn [snd] in Hstep; [|done].
  apply IH; [|done]. intros acc0 x0 s0 Hx0. apply Hbody. by right.
Qed.

Lemma emit_nil (s : State) : emit [] [] s = s.
Proof. destruct s. unfold emit. simpl. by rewrite !app_nil_r. Qed.

Lemma emit_emit out1 fl1 out2 fl2 (s : State) :
  emit out2 fl2 (emit out1 fl1 s) = emit (out1 ++ out2) (fl1 ++ fl2) s.
Proof. destruct s. unfold emit. simpl. by rewrite !app_assoc. Qed.

Lemma print_emit (o : output) (s : State) : print o s = (Ok tt, emit [o] [] s).
Proof. destruct s. unfold print, modify, emit. simpl. by rewrite app_nil_r. Qed.

Lemma input_run (message : string) (s : State) :
  input message s =
  match stdin s with
  | [] => (Raise EOFError, emit [Prompt message] [] s)
  | line :: rest => (Ok line, set_stdin rest (emit [Prompt message] [] s))
  end.
Proof.
  unfold input. rewrite bind_run, print_emit. cbv beta iota.
  rewrite bind_run, get_run. cbv beta iota.
  replace (stdin (emit [Prompt message] [] s)) with (stdin s)
    by (by destruct s).
  destruct (stdin s) as [|line rest]; [done|]. by mstep.
Qed.

Lemma set_fs_set_fs (d1 d2 : gmap string string) (s : State) :
  set_fs d2 (set_fs d1 s) = set_fs d2 s.
Proof. reflexivity. Qed.

Lemma set_fs_same (s : State) : set_fs (fs s) s = s.
Proof. by destruct s. Qed.

Lemma os_path_getsize_run (path : string) (s : State) :
  os_path_getsize path s =
  match fs s !! path with
  | Some content => (Ok (Z.of_nat (String.length content)), s)
  | None => (Raise (FileNotFoundError path), s)
  end.
Proof. unfold os_path_getsize. mstep. by destruct (fs s !! path). Qed.

Lemma os_remove_run (path : string) (s : State) :
  os_remove path s =
  match fs s !! path with
  | Some _ => (Ok tt, set_fs (delete path (fs s)) s)
  | None => (Raise (FileNotFoundError path), s)
  end.
Proof. unfold os_remove. mstep. by destruct (fs s !! path). Qed.

Lemma read_bytes_run (file : string) (s : State) :
  read_bytes file s =
  match fs s !! file with
  | Some content => (Ok content, set_opened (opened s ++ [file]) s)
  | None => (Raise (FileNotFoundError file), s)
  end.
Proof. unfold read_bytes. mstep. destruct (fs s !! file); by mstep. Qed.

(** ** Dictionary facts *)

Section DictFacts.
Context {K V : Type} `{EqDecision K}.
Implicit Types (k : K) (v : V) (d : Dict.t K V).

Lemma getitem_setitem_eq k v d : Dict.getitem k (Dict.setitem k v d) = Some v.
Proof.
  induction d as [|[k' v'] d IH]; simpl.
  - by rewrite decide_True.
  - destruct (decide (k = k')) as [->|Hne]; simpl.
    + by rewrite decide_True.
    + by rewrite decide_False.
Qed.

Lemma getitem_setitem_ne k k' v d :
  k <> k' -> Dict.getitem k' (Dict.setitem k v d) = Dict.getitem k' d.
Proof.
  intros Hne. induction d as [|[k0 v0] d IH]; simpl.
  - by rewrite decide_False by done.
  - destruct (decide (k = k0)) as [->|Hne0]; simpl.
    + by rewrite !decide_False by done.
    + destruct (decide (k' = k0)); [done|]. apply IH.
Qed.

Lemma elem_of_setitem k v k' v' d :
  (k', v') ∈ Dict.setitem k v d -> (k', v') = (k, v) \/ (k', v') ∈ d.
Proof.
  induction d as [|[k0 v0] d IH]; simpl.
  - intros ->%list_elem_of_singleton. by left.
  - destruct (decide (k = k0)) as [->|Hne].
    + intros [->|Hin]%elem_of_cons; [by left|]. right. by right.
    + intros [->|Hin]%elem_of_cons; [right; by left|].
      destruct (IH Hin) as [->|Hd]; [by left|]. right. by right.
Qed.

Lemma keys_setitem k v k' d :
  k' ∈ Dict.keys (Dict.setitem k v d) -> k' = k \/ k' ∈ Dict.keys d.
Proof.
  unfold Dict.keys. intros [[k0 v0] [-> Hin]]%list_elem_of_fmap.
  destruct (elem_of_setitem _ _ _ _ _ Hin) as [[= -> ->]|Hd]; [by left|].
  right. apply list_elem_of_fmap. by exists (k0, v0).
Qed.

Lemma getitem_None k d : k ∉ Dict.keys d -> Dict.getitem k d = None.
Proof.
  induction d as [|[k0 v0] d IH]; [done|]. unfold Dict.keys. cbn.
  intros [Hne Hnotin]%not_elem_of_cons. by rewrite decide_False; [apply IH|].
Qed.

Lemma getitem_Some_elem_of k v d : Dict.getitem k d = Some v -> (k, v) ∈ d.
Proof.
  induction d as [|[k0 v0] d IH]; [done|]. cbn.
  destruct (decide (k = k0)) as [->|Hne].
  - intros [= ->]. by left.
  - intros Hget. right. by apply IH.
Qed.
End DictFacts.

Lemma append_at_keeps {K} `{EqDecision K} (k k' : K) (x y : string)
    (d : Dict.t K (list string)) :
  x ∈ default [] (Dict.getitem k d) ->
  x ∈ default [] (Dict.getitem k (Dict.append_at k' y d)).
Proof.
  intros Hx. unfold Dict.append_at. destruct (decide (k' = k)) as [->|Hne].
  - rewrite getitem_setitem_eq. cbn. apply elem_of_app. by left.
  - by rewrite getitem_setitem_ne.
Qed.

Lemma append_at_adds {K} `{EqDecision K} (k : K) (x : string)
    (d : Dict.t K (list string)) :
  x ∈ default [] (Dict.getitem k (Dict.append_at k x d)).
Proof.
  unfold Dict.append_at. rewrite getitem_setitem_eq. cbn.
  apply elem_of_app. right. by left.
Qed.

Lemma bucket_append_at (d : Dict.t Z (list string)) (size size' : Z)
    (path : string) :
  bucket (Dict.append_at size path d) size' =
  bucket d size' ++ (if decide (size = size') then [path] else []).
Proof.
  unfold bucket, Dict.append_at. destruct (decide (size = size')) as [->|Hne].
  - by rewrite getitem_setitem_eq.
  - by rewrite getitem_setitem_ne, app_nil_r.
Qed.

(** ** Sorting by size *)

#[global] Instance ascending_total {A} (key : A -> Z) : Total (ascending key).
Proof. intros a b. unfold ascending. lia. Qed.
#[global] Instance ascending_trans {A} (key : A -> Z) :
  Transitive (ascending key).
Proof. intros a b c. unfold ascending. lia. Qed.
#[global] Instance descending_total {A} (key : A -> Z) :
  Total (descending key).
Proof. intros a b. unfold descending. lia. Qed.
#[global] Instance descending_trans {A} (key : A -> Z) :
  Transitive (descending key).
Proof. intros a b c. unfold descending. lia. Qed.

Lemma sorted_Permutation {A} (key : A -> Z) (reverse : bool) (l : list A) :
  sorted key reverse l ≡ₚ l.
Proof. unfold sorted. destruct reverse; apply merge_sort_Permutation. Qed.

Lemma sorted_StronglySorted {A} (key : A -> Z) (reverse : bool) (l : list A) :
  StronglySorted (size_order reverse) (map key (sorted key reverse l)).
Proof.
  unfold sorted, size_order. destruct reverse.
  - apply (StronglySorted_fmap _ (descending key)); [done|].
    apply StronglySorted_merge_sort; apply _.
  - apply (StronglySorted_fmap _ (ascending key)); [done|].
    apply StronglySorted_merge_sort; apply _.
Qed.

(** ** Indexing: [add_files] *)

Lemma endswith_suffix (s suffix : string) :
  Text.endswith s suffix = true <-> exists pre, s = String.append pre suffix.
Proof.
  induction s as [|c s IH]; cbn [Text.endswith].
  - rewrite orb_false_r, String.eqb_eq. split.
    + intros <-. by exists "".
    + intros [[|c pre] Hpre]; [done | discriminate Hpre].
  - rewrite orb_true_iff, String.eqb_eq, IH. split.
    + intros [<-|[pre ->]]; [by exists "" | by exists (String c pre)].
    + intros [[|c' pre] Hpre]; [by left|].
      injection Hpre as <- ->. right. by exists pre.
Qed.

Lemma endswith_empty (s : string) : Text.endswith s "" = true.
Proof.
  induction s as [|c s IH]; [done|]. cbn [Text.endswith].
  rewrite IH. apply orb_true_r.
Qed.

Lemma indexed_refl walked file_format (s : State) :
  indexed walked file_format s s.
Proof. split; [done|]. intros size. exists []. by rewrite app_nil_r. Qed.

Lemma indexed_step walked file_format (s0 s : State) root dirs fnames file :
  (root, dirs, fnames) ∈ walked -> file ∈ fnames ->
  indexed walked file_format s0 s ->
  indexed walked file_format s0
    ((if Text.endswith file file_format then
        let file_path := Text.os_path_join root file in
        file_size ← os_path_getsize file_path;
        modify (fun s =>
          set_files (Dict.append_at file_size file_path (files s)) s)
      else mret tt) s).2.
Proof.
  intros Hwalked Hfile [Hfs Hbuckets].
  destruct (Text.endswith file file_format) eqn:Hends; [|done].
  cbv zeta. rewrite bind_run, os_path_getsize_run.
  destruct (fs s !! Text.os_path_join root file) as [content|] eqn:Hpath;
    [|done].
  rewrite modify_run. cbn [snd]. split; [done|]. intros size.
  destruct (Hbuckets size) as (added & Hadded & Hplaced).
  cbn [files set_files]. rewrite bucket_append_at, Hadded, <- app_assoc.
  eexists. split; [done|]. apply Forall_app. split; [done|].
  destruct (decide (Z.of_nat (String.length content) = size)) as [<-|_];
    [|done].
  apply Forall_singleton. exists root, dirs, fnames, file.
  split_and!; try done. exists content. by rewrite <- Hfs.
Qed.

Lemma add_files_indexed os_walk (file_format : string) (s : State) :
  indexed (os_walk (fs s) (root_path s)) file_format s
          (add_files os_walk file_format s).2.
Proof.
  unfold add_files. rewrite bind_run, get_run. cbv beta iota.
  unfold for_each. apply for_fold_invariant; [|apply indexed_refl].
  intros [] [[root dirs] fnames] s1 Hwalked Hs1.
  apply for_fold_invariant; [|done].
  intros [] file s2 Hfile Hs2. by apply (indexed_step _ _ _ _ root dirs fnames).
Qed.

(** The example directory indexed with the filter [txt], and with none. *)
Lemma add_files_example :
  files (add_files Example.tree "txt" (Example.fresh [])).2 =
    [(5, ["r/notes.txt"])] /\
  files (add_files Example.tree "" (Example.fresh [])).2 =
    [(20, ["r/sub/D"; "r/sub/E"]); (10, ["r/A"; "r/B"; "r/C"]);
     (5, ["r/notes.txt"])].
Proof. split; vm_compute; reflexivity. Qed.

(** ** Hashing: [add_files_by_hash_value] *)

Lemma hash_groups_run (md5 : string -> string) (fl : list string)
    (hash_dict : Dict.t string (list string)) (s : State) :
  Forall (fun file => is_Some (fs s !! file)) fl ->
  for_fold fl hash_dict (fun hash_dict file =>
    content ← read_bytes file;
    let hash_value := md5 content in
    mret (Dict.append_at hash_value file hash_dict)) s
  = (Ok (hash_groups md5 (fs s) fl hash_dict), set_opened (opened s ++ fl) s).
Proof.
  revert hash_dict s. induction fl as [|file fl IH]; intros hash_dict s Hon.
  - cbn. rewrite mret_run. destruct s. cbn. by rewrite app_nil_r.
  - apply Forall_cons in Hon as [[content Hfile] Hon].
    cbn [for_fold]. rewrite bind_run, bind_run, read_bytes_run, Hfile.
    cbv beta iota zeta. rewrite mret_run. cbv beta iota.
    rewrite IH by done. cbn [hash_groups fold_left fs set_opened].
    rewrite Hfile. cbn [default from_option]. f_equal.
    destruct s. cbn. by rewrite <- app_assoc.
Qed.

Lemma add_files_by_hash_value_loop (md5 : string -> string)
    (its : list (Z * list string)) (s : State) :
  Forall (fun it => Forall (fun file => is_Some (fs s !! file)) it.2) its ->
  for_each its (fun '(size, files') =>
    hash_dict ← for_fold files' [] (fun hash_dict file =>
      content ← read_bytes file;
      let hash_value := md5 content in
      mret (Dict.append_at hash_value file hash_dict));
    modify (fun s =>
      set_files_by_hash_value
        (Dict.setitem size hash_dict (files_by_hash_value s)) s)) s
  = (Ok tt,
     hashed (fold_left (hash_bucket md5 (fs s)) its (files_by_hash_value s))
            (concat (map snd its)) s).
Proof.
  revert s. induction its as [|[size fl] its IH]; intros s Hon.
  - cbn. destruct s. unfold hashed. cbn. by rewrite app_nil_r.
  - apply Forall_cons in Hon as [Hfl Hon]. cbn [snd] in Hfl.
    unfold for_each in *. cbn [for_fold].
    rewrite bind_run, bind_run, hash_groups_run by done. cbv beta iota.
    rewrite modify_run. cbv beta iota. rewrite IH by done.
    f_equal. destruct s. unfold hashed. cbn. by rewrite <- app_assoc.
Qed.

Lemma add_files_by_hash_value_run (md5 : string -> string) (s : State) :
  Forall (fun it => Forall (fun file => is_Some (fs s !! file)) it.2)
         (Dict.items (files s)) ->
  add_files_by_hash_value md5 s =
  (Ok tt,
   hashed (fold_left (hash_bucket md5 (fs s)) (Dict.items (files s))
                     (files_by_hash_value s))
          (concat (Dict.values (files s))) s).
Proof.
  intros Hon. unfold add_files_by_hash_value.
  rewrite bind_run, get_run. cbv beta iota.
  by apply add_files_by_hash_value_loop.
Qed.

Lemma hash_groups_keeps md5 disk fl hash_dict k (x : string) :
  x ∈ default [] (Dict.getitem k hash_dict) ->
  x ∈ default [] (Dict.getitem k (hash_groups md5 disk fl hash_dict)).
Proof.
  revert hash_dict. induction fl as [|file fl IH]; intros hash_dict Hx; [done|].
  cbn [hash_groups fold_left]. apply IH. by apply append_at_keeps.
Qed.

Lemma hash_groups_files md5 disk fl hash_dict (file content : string) :
  file ∈ fl -> disk !! file = Some content ->
  file ∈ default [] (Dict.getitem (md5 content)
                       (hash_groups md5 disk fl hash_dict)).
Proof.
  revert hash_dict. induction fl as [|f fl IH]; intros hash_dict Hin Hfile.
  - by apply not_elem_of_nil in Hin.
  - cbn [hash_groups fold_left].
    apply elem_of_cons in Hin as [->|Hin]; [|by apply IH].
    apply hash_groups_keeps. rewrite Hfile. cbn. apply append_at_adds.
Qed.

Lemma hash_bucket_other md5 disk its found (size : Z) :
  size ∉ map fst its ->
  Dict.getitem size (fold_left (hash_bucket md5 disk) its found)
  = Dict.getitem size found.
Proof.
  revert found. induction its as [|[size0 fl0] its IH]; intros found Hnotin;
    [done|].
  cbn in Hnotin. apply not_elem_of_cons in Hnotin as [Hne Hnotin].
  cbn [fold_left]. rewrite IH by done. unfold hash_bucket. cbn [fst snd].
  by apply getitem_setitem_ne.
Qed.

Lemma hash_bucket_lookup md5 disk its found (size : Z) (fl : list string) :
  NoDup (map fst its) -> (size, fl) ∈ its ->
  Dict.getitem size (fold_left (hash_bucket md5 disk) its found)
  = Some (hash_groups md5 disk fl []).
Proof.
  revert found. induction its as [|[size0 fl0] its IH]; intros found Hnd Hin.
  - by apply not_elem_of_nil in Hin.
  - cbn in Hnd. apply NoDup_cons in Hnd as [Hnotin Hnd]. cbn [fold_left].
    apply elem_of_cons in Hin as [[= -> ->]|Hin]; [|by apply IH].
    rewrite hash_bucket_other by done. unfold hash_bucket. cbn [fst snd].
    apply getitem_setitem_eq.
Qed.

(** C1, counterexample.  In the example directory [r/notes.txt] is the only
    file of 5 bytes, and the hash-grouping step reads it all the same. *)
Lemma singleton_bucket_is_hashed :
  ~ skips_singletons Example.digest (add_files Example.tree "" (Example.fresh [])).2.
Proof.
  intros Hclaim. apply (Hclaim 5 "r/notes.txt").
  - vm_compute. reflexivity.
  - vm_compute. do 5 right. left.
Qed.

(** C1, as amended.  When the size buckets form a dictionary, that is, have
    pairwise different keys, and every indexed file is still on disk, the
    hash-grouping step returns normally after it has read every file of every
    size bucket, bucket after bucket and in the order of each bucket, whether
    the bucket holds one file or more; each file is then found, in the hash
    bucket of its size, in the group of the digest of its content. *)
Theorem hash_grouping_reads_every_file (md5 : string -> string) (s : State) :
  Dict.wf (files s) ->
  Forall (fun it => Forall (fun file => is_Some (fs s !! file)) it.2)
         (Dict.items (files s)) ->
  let s' := (add_files_by_hash_value md5 s).2 in
  (add_files_by_hash_value md5 s).1 = Ok tt /\
  opened s' = opened s ++ concat (Dict.values (files s)) /\
  (forall (size : Z) (fl : list string) (file content : string),
     (size, fl) ∈ Dict.items (files s) ->
     file ∈ fl ->
     fs s !! file = Some content ->
     file ∈ drop (length (opened s)) (opened s') /\
     exists hash_dict group,
       Dict.getitem size (files_by_hash_value s') = Some hash_dict /\
       Dict.getitem (md5 content) hash_dict = Some group /\
       file ∈ group).
Proof.
  intros Hwf Hon s'. subst s'. rewrite add_files_by_hash_value_run by done.
  cbn [fst snd]. unfold hashed.
  cbn [opened files_by_hash_value set_files_by_hash_value set_opened].
  split; [done|]. split; [done|].
  intros size fl file content Hbucket Hfile Hcontent.
  rewrite drop_app_length. split.
  - apply list_elem_of_In, in_concat. exists fl.
    split; [|by apply list_elem_of_In].
    unfold Dict.values. apply list_elem_of_In, list_elem_of_fmap.
    by exists (size, fl).
  - rewrite (hash_bucket_lookup _ _ _ _ size fl) by done.
    pose proof (hash_groups_files md5 (fs s) fl [] file content Hfile Hcontent)
      as Hgroup.
    destruct (Dict.getitem (md5 content) (hash_groups md5 (fs s) fl []))
      as [group|] eqn:Hget; [|by apply not_elem_of_nil in Hgroup].
    by exists (hash_groups md5 (fs s) fl []), group.
Qed.

Lemma hash_grouping_reads_every_file_witness :
  Dict.wf (files (add_files Example.tree "" (Example.fresh [])).2) /\
  Forall (fun it =>
            Forall (fun file =>
                      is_Some (fs (add_files Example.tree ""
                                     (Example.fresh [])).2 !! file)) it.2)
         (Dict.items (files (add_files Example.tree "" (Example.fresh [])).2)) /\
  opened (add_files_by_hash_value Example.digest
            (add_files Example.tree "" (Example.fresh [])).2).2
  = ["r/sub/D"; "r/sub/E"; "r/A"; "r/B"; "r/C"; "r/notes.txt"].
Proof.
  assert (Hwf : Dict.wf (files (add_files Example.tree "" (Example.fresh [])).2)).
  { unfold Dict.wf. compute_done. }
  assert (Hon : Forall (fun it =>
            Forall (fun file =>
                      is_Some (fs (add_files Example.tree ""
                                     (Example.fresh [])).2 !! file)) it.2)
         (Dict.items (files (add_files Example.tree "" (Example.fresh [])).2))).
  { compute_done. }
  split; [exact Hwf|]. split; [exact Hon|].
  destruct (hash_grouping_reads_every_file Example.digest _ Hwf Hon)
    as (_ & Hopened & _).
  rewrite Hopened. vm_compute. reflexivity.
Defined.

(** ** The duplicate sets: [add_duplicate_files] *)

Lemma add_duplicate_files_loop (its : list (Z * Dict.t string (list string)))
    (s : State) :
  for_each its (fun '(size, hash_dict) =>
    let duplicate_hash_dict :=
      fold_left (fun d '(hash_value, files') =>
                   if (1 <? length files')%nat
                   then Dict.setitem hash_value files' d else d)
                (Dict.items hash_dict) [] in
    match duplicate_hash_dict with
    | [] => mret tt
    | _ =>
        modify (fun s =>
          set_duplicate_files_dict
            (Dict.setitem size duplicate_hash_dict (duplicate_files_dict s)) s)
    end) s
  = (Ok tt,
     set_duplicate_files_dict
       (fold_left keep_duplicates its (duplicate_files_dict s)) s).
Proof.
  revert s. induction its as [|[size hd] its IH]; intros s.
  - cbn. by destruct s.
  - unfold for_each in *. cbn [for_fold]. rewrite bind_run. cbv zeta.
    fold (duplicate_groups hd). cbn [fold_left].
    unfold keep_duplicates at 2. cbn [fst snd].
    destruct (duplicate_groups hd) as [|g gs] eqn:Hgroups.
    + rewrite mret_run. cbv beta iota. rewrite IH. reflexivity.
    + rewrite modify_run. cbv beta iota. rewrite IH. reflexivity.
Qed.

Lemma add_duplicate_files_run (s : State) :
  add_duplicate_files s =
  (Ok tt,
   set_duplicate_files_dict
     (fold_left keep_duplicates (Dict.items (files_by_hash_value s))
                (duplicate_files_dict s)) s).
Proof.
  unfold add_duplicate_files. rewrite bind_run, get_run. cbv beta iota.
  apply add_duplicate_files_loop.
Qed.

Lemma duplicate_groups_sound (hash_dict : Dict.t string (list string))
    (hash_value : string) (fl : list string) :
  (hash_value, fl) ∈ duplicate_groups hash_dict ->
  (2 <= length fl)%nat /\ (hash_value, fl) ∈ hash_dict.
Proof.
  unfold duplicate_groups, Dict.items.
  assert (Hgen : forall acc,
    (hash_value, fl) ∈
      fold_left (fun d '(hash_value, files') =>
                   if (1 <? length files')%nat
                   then Dict.setitem hash_value files' d else d)
                hash_dict acc ->
    (hash_value, fl) ∈ acc \/
    ((2 <= length fl)%nat /\ (hash_value, fl) ∈ hash_dict)).
  { induction hash_dict as [|[hv0 fl0] hd IH]; intros acc Hin; [by left|].
    cbn [fold_left] in Hin. apply IH in Hin as [Hin|[Hlen Hin]].
    - destruct (1 <? length fl0)%nat eqn:Hlt; [|by left].
      apply elem_of_setitem in Hin as [[= -> ->]|Hin]; [|by left].
      right. split; [apply Nat.ltb_lt in Hlt; lia | by left].
    - right. split; [done | by right]. }
  intros Hin. apply Hgen in Hin as [Hin|Hin]; [|done].
  by apply not_elem_of_nil in Hin.
Qed.

Lemma duplicate_groups_nil (hash_dict : Dict.t string (list string)) :
  (forall hash_value fl,
     (hash_value, fl) ∈ hash_dict -> (length fl < 2)%nat) ->
  duplicate_groups hash_dict = [].
Proof.
  intros Hsmall. destruct (duplicate_groups hash_dict) as [|[hv fl] gs] eqn:Hg;
    [done|].
  assert (Hin : (hv, fl) ∈ duplicate_groups hash_dict) by (rewrite Hg; by left).
  apply duplicate_groups_sound in Hin as [Hlen Hin].
  apply Hsmall in Hin. lia.
Qed.

(** C4.  On a handler whose duplicate-set collection is still empty, as
    [__init__] leaves it, [add_duplicate_files] returns normally, and in the
    collection it builds every size is mapped to a non-empty inner dictionary
    whose digest groups each hold two files or more and are digest groups of
    that size in [files_by_hash_value]; a size whose digest groups all hold
    fewer than two files is not a key of the collection. *)
Theorem add_duplicate_files_only_duplicates (s : State) :
  duplicate_files_dict s = [] ->
  let s' := (add_duplicate_files s).2 in
  (add_duplicate_files s).1 = Ok tt /\
  (forall (size : Z) (inner : Dict.t string (list string)),
     (size, inner) ∈ Dict.items (duplicate_files_dict s') ->
     inner <> [] /\
     forall (hash_value : string) (fl : list string),
       (hash_value, fl) ∈ Dict.items inner ->
       (2 <= length fl)%nat /\
       exists hash_dict,
         (size, hash_dict) ∈ Dict.items (files_by_hash_value s) /\
         (hash_value, fl) ∈ Dict.items hash_dict) /\
  (forall size : Z,
     (forall hash_dict hash_value fl,
        (size, hash_dict) ∈ Dict.items (files_by_hash_value s) ->
        (hash_value, fl) ∈ Dict.items hash_dict ->
        (length fl < 2)%nat) ->
     size ∉ Dict.keys (duplicate_files_dict s')).
Proof.
  intros Hfresh s'. subst s'. rewrite add_duplicate_files_run, Hfresh.
  cbn [fst snd duplicate_files_dict set_duplicate_files_dict].
  unfold Dict.items. split; [done|].
  set (source := files_by_hash_value s).
  assert (Hgen : forall its found size inner,
    (size, inner) ∈ fold_left keep_duplicates its found ->
    (size, inner) ∈ found \/
    (inner <> [] /\ exists hash_dict,
       (size, hash_dict) ∈ its /\ inner = duplicate_groups hash_dict)).
  { induction its as [|[size0 hd0] its IH]; intros found size inner Hin;
      [by left|].
    cbn [fold_left] in Hin. apply IH in Hin as [Hin|(Hne & hd & Hin & ->)].
    - unfold keep_duplicates in Hin. cbn [fst snd] in Hin.
      destruct (duplicate_groups hd0) as [|g gs] eqn:Hg; [by left|].
      apply elem_of_setitem in Hin as [[= -> ->]|Hin]; [|by left].
      right. split; [done|]. exists hd0. split; [by left | done].
    - right. split; [done|]. exists hd. split; [by right | done]. }
  split.
  - intros size inner Hin.
    apply Hgen in Hin as [Hin|(Hne & hd & Hin & ->)];
      [by apply not_elem_of_nil in Hin|].
    split; [done|]. intros hash_value fl Hgroup.
    apply duplicate_groups_sound in Hgroup as [Hlen Hgroup].
    split; [done|]. by exists hd.
  - intros size Hsmall [[size0 inner] [Heq Hin]]%list_elem_of_fmap.
    cbn in Heq. subst size0.
    apply Hgen in Hin as [Hin|(Hne & hd & Hin & ->)];
      [by apply not_elem_of_nil in Hin|].
    apply Hne, duplicate_groups_nil. intros hash_value fl Hgroup.
    by apply (Hsmall hd hash_value fl).
Qed.

Lemma add_duplicate_files_only_duplicates_witness :
  duplicate_files_dict
    (add_files_by_hash_value Example.digest
       (add_files Example.tree "" (Example.fresh [])).2).2 = [] /\
  Dict.keys (duplicate_files_dict Example.scanned) = [20; 10] /\
  5 ∉ Dict.keys (duplicate_files_dict Example.scanned).
Proof.
  split; [vm_compute; reflexivity|]. split; [vm_compute; reflexivity|].
  apply (add_duplicate_files_only_duplicates
           (add_files_by_hash_value Example.digest
              (add_files Example.tree "" (Example.fresh [])).2).2).
  - vm_compute. reflexivity.
  - intros hash_dict hash_value fl Hsize%list_elem_of_In Hgroup%list_elem_of_In.
    vm_compute in Hsize. destruct Hsize as [[=]|[[=]|[[= <-]|[]]]].
    vm_compute in Hgroup. destruct Hgroup as [[= _ <-]|[]]. simpl. lia.
Defined.

(** ** The listings: [output_files] and [output_duplicates] *)

Lemma numbered_run (fl : list string) (index : Z) (s : State) :
  for_fold fl index (fun index file =>
    print (NumberedLine index file);;
    modify (fun s => set_duplicate_files (duplicate_files s ++ [file]) s);;
    mret (index + 1)) s
  = (Ok (index + Z.of_nat (length fl)), emit (numbered index fl) fl s).
Proof.
  revert index s. induction fl as [|file fl IH]; intros index s.
  - simpl. rewrite emit_nil. unfold mret, M_ret. do 2 f_equal. lia.
  - cbn [for_fold]. rewrite bind_run, bind_run, print_emit. mstep. rewrite IH.
    f_equal; [f_equal; cbn [length]; lia|].
    destruct s. unfold emit. simpl. by rewrite <- !app_assoc.
Qed.

Lemma groups_run (hash_dict : Dict.t string (list string)) (index : Z)
    (s : State) :
  for_fold (Dict.items hash_dict) index (fun index '(hash_value, files') =>
    print (HashLine hash_value);;
    index ← for_fold files' index (fun index file =>
      print (NumberedLine index file);;
      modify (fun s => set_duplicate_files (duplicate_files s ++ [file]) s);;
      mret (index + 1));
    print BlankLine;;
    mret index) s
  = (Ok (index + Z.of_nat (length (group_files hash_dict))),
     emit (groups_lines index hash_dict) (group_files hash_dict) s).
Proof.
  revert index s. induction hash_dict as [|[hash_value fl] hd IH];
    intros index s.
  - simpl. rewrite emit_nil. unfold mret, M_ret. do 2 f_equal. lia.
  - unfold Dict.items in *. cbn [for_fold].
    rewrite bind_run, bind_run, print_emit. cbv beta iota.
    rewrite bind_run, numbered_run. cbv beta iota.
    rewrite bind_run, print_emit. mstep.
    rewrite IH, !emit_emit. unfold group_files, Dict.values.
    same_but_index.
Qed.

Lemma listing_run (its : list (Z * Dict.t string (list string))) (index : Z)
    (s : State) :
  for_fold its index (fun index '(size, hash_dict) =>
    print (SizeHeader size);;
    for_fold (Dict.items hash_dict) index (fun index '(hash_value, files') =>
      print (HashLine hash_value);;
      index ← for_fold files' index (fun index file =>
        print (NumberedLine index file);;
        modify (fun s => set_duplicate_files (duplicate_files s ++ [file]) s);;
        mret (index + 1));
      print BlankLine;;
      mret index)) s
  = (Ok (index + Z.of_nat (length (listed_files its))),
     emit (listing index its) (listed_files its) s).
Proof.
  revert index s. induction its as [|[size hd] its IH]; intros index s.
  - simpl. rewrite emit_nil. unfold mret, M_ret. do 2 f_equal. lia.
  - cbn [for_fold]. rewrite bind_run, bind_run, print_emit. cbv beta iota.
    rewrite groups_run, IH, !emit_emit. unfold listed_files.
    same_but_index.
Qed.

Lemma output_duplicates_run (reverse : bool) (s : State) :
  let its := sorted fst reverse (Dict.items (duplicate_files_dict s)) in
  output_duplicates reverse s = (Ok tt, emit (listing 1 its) (listed_files its) s).
Proof.
  intros its. unfold output_duplicates. rewrite bind_run, get_run.
  cbv beta iota. rewrite bind_run. fold its. rewrite listing_run. reflexivity.
Qed.

Lemma output_files_loop (d : Dict.t Z (list string)) (sizes : list Z)
    (s : State) :
  for_each sizes (fun size =>
    let files' := default [] (Dict.getitem size d) in
    print (SizeHeader size);;
    print (FileLines files');;
    print BlankLine) s
  = (Ok tt, emit (plain_listing d sizes) [] s).
Proof.
  revert s. induction sizes as [|size sizes IH]; intros s.
  - simpl. by rewrite emit_nil.
  - unfold for_each in *. cbn [for_fold]. cbv zeta.
    rewrite bind_run, bind_run, print_emit. cbv beta iota.
    rewrite bind_run, print_emit. cbv beta iota. rewrite print_emit.
    rewrite IH, !emit_emit. reflexivity.
Qed.

Lemma output_files_run (reverse : bool) (s : State) :
  output_files reverse s
  = (Ok tt, emit (plain_listing (files s)
                    (sorted id reverse (Dict.keys (files s)))) [] s).
Proof.
  unfold output_files. rewrite bind_run, get_run. cbv beta iota.
  apply output_files_loop.
Qed.

Lemma numbered_lines_app (out1 out2 : list output) :
  numbered_lines (out1 ++ out2) = numbered_lines out1 ++ numbered_lines out2.
Proof. apply omap_app. Qed.

Lemma size_headers_app (out1 out2 : list output) :
  size_headers (out1 ++ out2) = size_headers out1 ++ size_headers out2.
Proof. apply omap_app. Qed.

Lemma numbered_lines_numbered (fl : list string) (index : Z) :
  numbered_lines (numbered index fl) = zip (seqZ index (Z.of_nat (length fl))) fl.
Proof.
  revert index. induction fl as [|file fl IH]; intros index; [done|].
  cbn [numbered length]. rewrite seqZ_cons by lia.
  replace (Z.pred (Z.of_nat (S (length fl)))) with (Z.of_nat (length fl)) by lia.
  cbn. f_equal. apply IH.
Qed.

Lemma size_headers_numbered (fl : list string) (index : Z) :
  size_headers (numbered index fl) = [].
Proof. revert index. induction fl; intros; [done|]. cbn. auto. Qed.

Lemma zip_seqZ_app (m : Z) (fl1 fl2 : list string) :
  zip (seqZ m (Z.of_nat (length (fl1 ++ fl2)))) (fl1 ++ fl2) =
  zip (seqZ m (Z.of_nat (length fl1))) fl1 ++
  zip (seqZ (m + Z.of_nat (length fl1)) (Z.of_nat (length fl2))) fl2.
Proof.
  rewrite length_app, Nat2Z.inj_add, seqZ_app by lia.
  apply zip_with_app. rewrite length_seqZ. lia.
Qed.

Lemma numbered_lines_groups (hash_dict : Dict.t string (list string))
    (index : Z) :
  numbered_lines (groups_lines index hash_dict) =
  zip (seqZ index (Z.of_nat (length (group_files hash_dict))))
      (group_files hash_dict).
Proof.
  revert index. induction hash_dict as [|[hash_value fl] hd IH]; intros index.
  - done.
  - unfold group_files, Dict.values in *. cbn [groups_lines map concat snd].
    rewrite zip_seqZ_app, <- IH, <- numbered_lines_numbered.
    change (HashLine hash_value :: ?l) with ([HashLine hash_value] ++ l).
    change (BlankLine :: ?l) with ([BlankLine] ++ l).
    by rewrite !numbered_lines_app.
Qed.

Lemma size_headers_groups (hash_dict : Dict.t string (list string))
    (index : Z) :
  size_headers (groups_lines index hash_dict) = [].
Proof.
  revert index. induction hash_dict as [|[hash_value fl] hd IH]; intros index.
  - done.
  - cbn [groups_lines].
    change (HashLine hash_value :: ?l) with ([HashLine hash_value] ++ l).
    change (BlankLine :: ?l) with ([BlankLine] ++ l).
    by rewrite !size_headers_app, size_headers_numbered, IH.
Qed.

Lemma numbered_lines_listing (its : list (Z * Dict.t string (list string)))
    (index : Z) :
  numbered_lines (listing index its) =
  zip (seqZ index (Z.of_nat (length (listed_files its)))) (listed_files its).
Proof.
  revert index. induction its as [|[size hd] its IH]; intros index.
  - done.
  - unfold listed_files in *. cbn [listing map concat snd].
    rewrite zip_seqZ_app, <- IH, <- numbered_lines_groups.
    change (SizeHeader size :: ?l) with ([SizeHeader size] ++ l).
    by rewrite !numbered_lines_app.
Qed.

Lemma size_headers_listing (its : list (Z * Dict.t string (list string)))
    (index : Z) :
  size_headers (listing index its) = map fst its.
Proof.
  revert index. induction its as [|[size hd] its IH]; intros index.
  - done.
  - cbn [listing map fst].
    change (SizeHeader size :: ?l) with ([SizeHeader size] ++ l).
    by rewrite !size_headers_app, size_headers_groups, IH.
Qed.

Lemma size_headers_plain (d : Dict.t Z (list string)) (sizes : list Z) :
  size_headers (plain_listing d sizes) = sizes.
Proof.
  induction sizes as [|size sizes IH]; [done|].
  unfold plain_listing in *. cbn [map concat].
  rewrite size_headers_app, IH. done.
Qed.

Lemma listed_files_Permutation (its its' : list (Z * Dict.t string (list string))) :
  its ≡ₚ its' -> listed_files its ≡ₚ listed_files its'.
Proof.
  intros Hp. unfold listed_files.
  induction Hp as [|it l l' _ IH|it1 it2 l|l1 l2 l3 _ IH1 _ IH2]; simpl.
  - done.
  - by rewrite IH.
  - rewrite !app_assoc. f_equiv. apply Permutation_app_comm.
  - by rewrite IH1.
Qed.

(** C3, counterexample.  After the scan of the example directory the listing
    is run twice on the same handler, ascending and then descending.  The
    second run prints ordinal 1 next to [r/sub/D], while the flattened list,
    which still starts with the files of the first run, holds [r/A] at
    position 0. *)
Lemma second_listing_breaks_position :
  ~ ordinal_indexes_list true (output_duplicates false Example.scanned).2.
Proof.
  intros Hclaim. specialize (Hclaim 1 "r/sub/D").
  assert (Hprinted : list_getitem
            (duplicate_files
               (output_duplicates true
                  (output_duplicates false Example.scanned).2).2) (1 - 1)
          = Some "r/A") by (vm_compute; reflexivity).
  rewrite Hprinted in Hclaim.
  assert (Some "r/A" = Some "r/sub/D") as Habs; [|discriminate Habs].
  apply Hclaim. vm_compute. apply list_elem_of_here.
Qed.

(** C3, as amended.  Every run of the duplicate listing succeeds, prints the
    ordinals 1, 2, ..., N in this order, where N is the number of files in the
    duplicate sets, and appends the paths it prints, in the order it prints
    them, to the flattened list: the path printed with ordinal [k] is the
    entry at position [k - 1] counted from the length the list had before the
    run, which is position [k - 1] itself when the list was empty. *)
Theorem output_duplicates_numbering (reverse : bool) (s : State) :
  let s' := (output_duplicates reverse s).2 in
  let printed := drop (length (stdout s)) (stdout s') in
  let N := length (listed_files (Dict.items (duplicate_files_dict s))) in
  (output_duplicates reverse s).1 = Ok tt /\
  stdout s' = stdout s ++ printed /\
  map fst (numbered_lines printed) = seqZ 1 (Z.of_nat N) /\
  duplicate_files s' = duplicate_files s ++ map snd (numbered_lines printed) /\
  (forall (k : Z) (file : string),
     (k, file) ∈ numbered_lines printed ->
     list_getitem (duplicate_files s')
       (Z.of_nat (length (duplicate_files s)) + k - 1) = Some file) /\
  (duplicate_files s = [] ->
   forall (k : Z) (file : string),
     (k, file) ∈ numbered_lines printed ->
     list_getitem (duplicate_files s') (k - 1) = Some file).
Proof.
  intros s' printed N. subst s' printed.
  rewrite output_duplicates_run. cbn [fst snd].
  set (its := sorted fst reverse (Dict.items (duplicate_files_dict s))).
  assert (HN : length (listed_files its) = N).
  { apply Permutation_length, listed_files_Permutation, sorted_Permutation. }
  assert (Hout : stdout (emit (listing 1 its) (listed_files its) s)
                 = stdout s ++ listing 1 its) by (by destruct s).
  assert (Hdup : duplicate_files (emit (listing 1 its) (listed_files its) s)
                 = duplicate_files s ++ listed_files its) by (by destruct s).
  rewrite Hout, Hdup, drop_app_length, numbered_lines_listing, HN.
  assert (Hlen : length (seqZ 1 (Z.of_nat N)) = length (listed_files its)).
  { rewrite length_seqZ. lia. }
  assert (Hpos : forall (k : Z) (file : string),
            (k, file) ∈ zip (seqZ 1 (Z.of_nat N)) (listed_files its) ->
            listed_files its !! Z.to_nat (k - 1) = Some file /\ 1 <= k).
  { intros k file [i Hi]%list_elem_of_lookup.
    apply lookup_zip_with_Some in Hi as (k' & file' & [= <- <-] & Hk & Hf).
    apply lookup_seqZ in Hk as [-> _].
    replace (Z.to_nat (1 + Z.of_nat i - 1)) with i by lia. split; [done|lia]. }
  split_and!; try done.
  - apply fst_zip. lia.
  - f_equal. symmetry. apply snd_zip. lia.
  - intros k file [Hk Hle]%Hpos. unfold list_getitem.
    rewrite (proj2 (Z.leb_le _ _)) by lia.
    rewrite lookup_app_r by lia.
    rewrite <- Hk. f_equal. lia.
  - intros Hnil k file [Hk Hle]%Hpos. rewrite Hnil. unfold list_getitem.
    rewrite (proj2 (Z.leb_le _ _)) by lia. done.
Qed.

(** C7.  Whatever the size buckets and the flag, the plain listing prints one
    header per key of [files], each followed by the paths of its bucket, and
    the duplicate listing one header per key of [duplicate_files_dict]; both
    print the sizes in sorted order, ascending when [reverse] is unset and
    descending when it is set.  The duplicate listing sorts the items of the
    dictionary on every call. *)
Theorem listings_sorted_by_size (reverse : bool) (s : State) :
  let plain := drop (length (stdout s)) (stdout (output_files reverse s).2) in
  let dups :=
    drop (length (stdout s)) (stdout (output_duplicates reverse s).2) in
  size_headers plain ≡ₚ Dict.keys (files s) /\
  StronglySorted (size_order reverse) (size_headers plain) /\
  plain = plain_listing (files s) (size_headers plain) /\
  size_headers dups ≡ₚ Dict.keys (duplicate_files_dict s) /\
  StronglySorted (size_order reverse) (size_headers dups) /\
  size_order false 1 2 /\ size_order true 2 1.
Proof.
  intros plain dups. subst plain dups.
  rewrite output_files_run, output_duplicates_run. cbn [snd].
  assert (Hout : forall out fl, stdout (emit out fl s) = stdout s ++ out)
    by (intros; by destruct s).
  rewrite !Hout, !drop_app_length, size_headers_plain, size_headers_listing.
  split_and!.
  - apply sorted_Permutation.
  - rewrite <- (map_id (sorted id reverse _)). apply sorted_StronglySorted.
  - reflexivity.
  - unfold Dict.keys, Dict.items. by rewrite sorted_Permutation.
  - apply sorted_StronglySorted.
  - simpl. lia.
  - simpl. lia.
Qed.

(** ** Deletion: [delete_files] *)

Lemma remove_all_lookup_notin (fl : list string) (disk : gmap string string)
    (file : string) :
  file ∉ fl -> remove_all fl disk !! file = disk !! file.
Proof.
  revert disk. induction fl as [|f fl IH]; intros disk Hnotin; [done|].
  apply not_elem_of_cons in Hnotin as [Hne Hnotin]. cbn [remove_all fold_left].
  fold (remove_all fl (delete f disk)). rewrite IH by done.
  by apply lookup_delete_ne.
Qed.

Lemma remove_all_lookup_in (fl : list string) (disk : gmap string string)
    (file : string) :
  file ∈ fl -> remove_all fl disk !! file = None.
Proof.
  revert disk. induction fl as [|f fl IH]; intros disk Hin.
  - by apply not_elem_of_nil in Hin.
  - cbn [remove_all fold_left]. fold (remove_all fl (delete f disk)).
    destruct (decide (file ∈ fl)) as [Hfl|Hfl]; [by apply IH|].
    apply elem_of_cons in Hin as [->|Hin]; [|done].
    rewrite remove_all_lookup_notin by done. apply lookup_delete_eq.
Qed.

Lemma delete_files_unfold (file_numbers : list Z) :
  delete_files file_numbers =
  (total_size ← for_fold file_numbers 0 delete_step;
   print (TotalLine total_size)).
Proof. reflexivity. Qed.

(** The loop runs to its end when the files it is to delete are pairwise
    different and all on disk. *)
Lemma delete_loop_ok (file_numbers : list Z) (total_size : Z) (s : State) :
  NoDup (targets (duplicate_files s) file_numbers) ->
  Forall (fun file => is_Some (fs s !! file))
         (targets (duplicate_files s) file_numbers) ->
  for_fold file_numbers total_size delete_step s =
  (Ok (total_size + freed_bytes (fs s) (targets (duplicate_files s) file_numbers)),
   set_fs (remove_all (targets (duplicate_files s) file_numbers) (fs s)) s).
Proof.
  revert total_size s.
  induction file_numbers as [|num nums IH]; intros total_size s Hnd Hon.
  - cbn. rewrite set_fs_same, mret_run. do 2 f_equal. lia.
  - cbn [for_fold]. rewrite bind_run. unfold delete_step at 1.
    rewrite bind_run, get_run. cbv beta iota.
    unfold targets in *. cbn [omap list_omap] in *.
    destruct (list_getitem (duplicate_files s) (num - 1)) as [file|] eqn:Hnum.
    + apply NoDup_cons in Hnd as [Hnotin Hnd].
      apply Forall_cons in Hon as [[content Hfile] Hon].
      rewrite bind_run, os_path_getsize_run, Hfile. cbv beta iota.
      rewrite bind_run, os_remove_run, Hfile. mstep.
      rewrite (IH _ (set_fs (delete file (fs s)) s)); cbn [duplicate_files fs set_fs].
      * rewrite set_fs_set_fs. cbn [freed_bytes remove_all fold_left].
        unfold file_size. rewrite Hfile. cbn [from_option].
        f_equal. f_equal. lia.
      * done.
      * rewrite Forall_forall in Hon |- *. intros f Hin.
        rewrite lookup_delete_ne; [by apply Hon|]. intros ->. done.
    + rewrite mret_run. cbv beta iota. by apply IH.
Qed.

(** The loop returns only when the files it is to delete are pairwise
    different and all on disk. *)
Lemma delete_loop_ok_inv (file_numbers : list Z) (total_size : Z) (s : State)
    (total : Z) :
  (for_fold file_numbers total_size delete_step s).1 = Ok total ->
  NoDup (targets (duplicate_files s) file_numbers) /\
  Forall (fun file => is_Some (fs s !! file))
         (targets (duplicate_files s) file_numbers).
Proof.
  revert total_size s.
  induction file_numbers as [|num nums IH]; intros total_size s Hok.
  - split; [apply NoDup_nil_2 | apply Forall_nil_2].
  - revert Hok. cbn [for_fold]. rewrite bind_run. unfold delete_step at 1.
    rewrite bind_run, get_run. cbv beta iota.
    unfold targets in *. cbn [omap list_omap].
    destruct (list_getitem (duplicate_files s) (num - 1)) as [file|] eqn:Hnum.
    + rewrite bind_run, os_path_getsize_run.
      destruct (fs s !! file) as [content|] eqn:Hfile; [|done].
      cbv beta iota. rewrite bind_run, os_remove_run, Hfile. mstep.
      intros [Hnd Hon]%IH. cbn [duplicate_files fs set_fs] in Hnd, Hon.
      rewrite Forall_forall in Hon. split.
      * apply NoDup_cons. split; [|done]. intros [c Hc]%Hon.
        by rewrite lookup_delete_eq in Hc.
      * apply Forall_cons. split; [by exists content|].
        apply Forall_forall. intros f [c Hc]%Hon.
        apply lookup_delete_Some in Hc as [_ Hc]. by exists c.
    + rewrite mret_run. cbv beta iota. apply IH.
Qed.

Lemma targets_app (flat : list string) (nums1 nums2 : list Z) :
  targets flat (nums1 ++ nums2) = targets flat nums1 ++ targets flat nums2.
Proof. apply omap_app. Qed.

Lemma list_getitem_ordinal {A} (l : list A) (num : Z) :
  1 <= num ->
  list_getitem l (num - 1) = l !! Z.to_nat (num - 1) /\
  (is_Some (list_getitem l (num - 1)) <-> num <= Z.of_nat (length l)).
Proof.
  intros Hnum. unfold list_getitem. rewrite (proj2 (Z.leb_le _ _)) by lia.
  split; [done|]. rewrite lookup_lt_is_Some. lia.
Qed.

(** [l[-1]] is the last element: this is where ordinal 0 ends up. *)
Lemma list_getitem_minus_one {A} (l : list A) :
  list_getitem l (0 - 1) = last l.
Proof.
  unfold list_getitem. change (0 <=? 0 - 1) with false. cbv iota.
  destruct (decide (l = [])) as [->|Hne]; [done|].
  assert (0 < length l)%nat by (destruct l; [done|simpl; lia]).
  rewrite (proj2 (Z.leb_le _ _)) by lia.
  rewrite last_lookup. f_equal. lia.
Qed.

Lemma file_size_delete_ne (disk : gmap string string) (f g : string) :
  f <> g -> file_size (delete f disk) g = file_size disk g.
Proof. intros Hne. unfold file_size. by rewrite lookup_delete_ne. Qed.

Lemma freed_bytes_NoDup (fl : list string) (disk : gmap string string) :
  NoDup fl -> freed_bytes disk fl = foldr Z.add 0 (map (file_size disk) fl).
Proof.
  revert disk. induction fl as [|f fl IH]; intros disk Hnd; [done|].
  apply NoDup_cons in Hnd as [Hnotin Hnd]. cbn. f_equal.
  rewrite IH by done. f_equal. apply map_ext_in. intros g Hin.
  apply file_size_delete_ne. intros ->. by apply list_elem_of_In in Hin.
Qed.

Lemma only_deletes_refl (s : State) : only_deletes s s.
Proof. done. Qed.

Lemma only_deletes_trans (s1 s2 s3 : State) :
  only_deletes s1 s2 -> only_deletes s2 s3 -> only_deletes s1 s3.
Proof.
  intros (Hd1 & Ho1 & Hf1) (Hd2 & Ho2 & Hf2). split_and!.
  - by rewrite Hd2.
  - by rewrite Ho2.
  - intros path Hpath. by apply Hf2, Hf1.
Qed.

(** One round of the loop: it only deletes; if it raises, the exception is
    [FileNotFoundError]; if it returns, the file of its ordinal is gone. *)
Lemma delete_step_effect (total_size num : Z) (s : State) :
  only_deletes s (delete_step total_size num s).2 /\
  (forall e, (delete_step total_size num s).1 = Raise e ->
             exists path, e = FileNotFoundError path) /\
  (forall total file,
     (delete_step total_size num s).1 = Ok total ->
     list_getitem (duplicate_files s) (num - 1) = Some file ->
     fs (delete_step total_size num s).2 !! file = None).
Proof.
  unfold delete_step. rewrite bind_run, get_run. cbv beta iota.
  destruct (list_getitem (duplicate_files s) (num - 1)) as [file|] eqn:Hnum.
  - rewrite bind_run, os_path_getsize_run.
    destruct (fs s !! file) as [content|] eqn:Hfile.
    + rewrite bind_run, os_remove_run, Hfile. cbv beta iota.
      rewrite mret_run. cbn [fst snd]. split_and!.
      * split_and!; try done. intros path Hpath. cbn [fs set_fs].
        destruct (decide (file = path)) as [->|Hne];
          [apply lookup_delete_eq | by rewrite lookup_delete_ne].
      * intros e [=].
      * intros total f _ [= <-]. apply lookup_delete_eq.
    + cbn [fst snd]. split_and!; [done| |done].
      intros e [= <-]. by exists file.
  - rewrite mret_run. cbn [fst snd]. split_and!; [done|done|done].
Qed.

Lemma delete_loop_effect (file_numbers : list Z) (total_size : Z) (s : State) :
  only_deletes s (for_fold file_numbers total_size delete_step s).2 /\
  (forall e, (for_fold file_numbers total_size delete_step s).1 = Raise e ->
             exists path, e = FileNotFoundError path).
Proof.
  revert total_size s.
  induction file_numbers as [|num nums IH]; intros total_size s.
  - cbn. split; [done|]. intros e [=].
  - cbn [for_fold]. rewrite bind_run.
    destruct (delete_step_effect total_size num s) as (Hstep & Hexn & _).
    destruct (delete_step total_size num s) as [[total|e] s1];
      cbn [fst snd] in *.
    + destruct (IH total s1) as [Hloop Hexn']. split; [|done].
      by apply (only_deletes_trans _ s1).
    + split; [done|]. intros e' [= <-]. by apply Hexn.
Qed.

(** Once the file of an ordinal is gone, a loop that meets the ordinal
    raises. *)
Lemma delete_loop_raises (file_numbers : list Z) (total_size n : Z)
    (file : string) (s : State) :
  n ∈ file_numbers ->
  list_getitem (duplicate_files s) (n - 1) = Some file ->
  fs s !! file = None ->
  exists e, (for_fold file_numbers total_size delete_step s).1 = Raise e.
Proof.
  revert total_size s.
  induction file_numbers as [|num nums IH]; intros total_size s Hin Hn Hgone.
  - by apply not_elem_of_nil in Hin.
  - cbn [for_fold]. rewrite bind_run.
    destruct (delete_step_effect total_size num s) as ((Hd & _ & Hf) & _ & _).
    destruct (delete_step total_size num s) as [[total|e] s1] eqn:Hstep;
      cbn [fst snd] in *; [|by exists e].
    apply elem_of_cons in Hin as [<-|Hin].
    + exfalso. revert Hstep. unfold delete_step.
      rewrite bind_run, get_run. cbv beta iota. rewrite Hn.
      by rewrite bind_run, os_path_getsize_run, Hgone.
    + apply IH; [done| |by apply Hf]. by rewrite Hd.
Qed.

Lemma targets_from_one (flat : list string) (file_numbers : list Z) :
  Forall (fun num => 1 <= num) file_numbers ->
  targets flat file_numbers = targets_in_range flat file_numbers.
Proof.
  induction 1 as [|num nums Hnum _ IH]; [done|].
  unfold targets, targets_in_range in *. cbn [omap list_omap]. rewrite IH.
  destruct (list_getitem_ordinal flat num Hnum) as [-> _].
  rewrite (proj2 (Z.leb_le 1 num)) by done. cbn [andb].
  destruct (num <=? Z.of_nat (length flat)) eqn:Hle; [done|].
  apply Z.leb_gt in Hle. by rewrite lookup_ge_None_2 by lia.
Qed.

(** X22.  [delete_files] returns exactly when the files the batch refers to
    are pairwise different and on disk.  It has then deleted them and printed
    the total as its last line, the total being the sum of the sizes the
    files had just before each was deleted.  The files a batch refers to are
    those of the ordinals that the lookup [duplicate_files[num - 1]]
    resolves; an ordinal from 1 upwards refers to a file exactly when it is
    at most the length of the flattened list, so for a batch of ordinals from
    1 upwards they are the files of the ordinals in range.  When the batch
    refers to no file at all the total is still printed, as 0.  A batch that
    does not return has printed nothing. *)
Theorem delete_files_total (file_numbers : list Z) (s : State) :
  let fl := targets (duplicate_files s) file_numbers in
  ((delete_files file_numbers s).1 = Ok tt <->
   NoDup fl /\ Forall (fun file => is_Some (fs s !! file)) fl) /\
  (NoDup fl ->
   Forall (fun file => is_Some (fs s !! file)) fl ->
   delete_files file_numbers s =
     (Ok tt,
      set_stdout (stdout s ++ [TotalLine (freed_bytes (fs s) fl)])
                 (set_fs (remove_all fl (fs s)) s)) /\
   freed_bytes (fs s) fl = foldr Z.add 0 (map (file_size (fs s)) fl)) /\
  (forall num : Z, 1 <= num ->
     is_Some (list_getitem (duplicate_files s) (num - 1)) <->
     num <= Z.of_nat (length (duplicate_files s))) /\
  (fl = [] ->
   delete_files file_numbers s =
     (Ok tt, set_stdout (stdout s ++ [TotalLine 0]) s)) /\
  (forall e : exn,
     (delete_files file_numbers s).1 = Raise e ->
     stdout (delete_files file_numbers s).2 = stdout s) /\
  (Forall (fun num => 1 <= num) file_numbers ->
   fl = targets_in_range (duplicate_files s) file_numbers).
Proof.
  intros fl.
  assert (Hrun : NoDup fl ->
    Forall (fun file => is_Some (fs s !! file)) fl ->
    delete_files file_numbers s =
    (Ok tt,
     set_stdout (stdout s ++ [TotalLine (freed_bytes (fs s) fl)])
                (set_fs (remove_all fl (fs s)) s))).
  { intros Hnd Hon. rewrite delete_files_unfold, bind_run, delete_loop_ok by done.
    cbv beta iota. fold fl. rewrite Z.add_0_l. reflexivity. }
  split_and!.
  - split.
    + rewrite delete_files_unfold, bind_run.
      destruct (for_fold file_numbers 0 delete_step s) as [[total|e] s1] eqn:Hloop;
        [|done].
      intros _. apply (delete_loop_ok_inv file_numbers 0 s total).
      by rewrite Hloop.
    + intros [Hnd Hon]. by rewrite Hrun.
  - intros Hnd Hon. split; [by apply Hrun | by apply freed_bytes_NoDup].
  - intros num Hnum. by apply list_getitem_ordinal.
  - intros Hnil. rewrite Hrun; rewrite Hnil;
      [|apply NoDup_nil_2|apply Forall_nil_2].
    cbn [freed_bytes remove_all fold_left]. by rewrite set_fs_same.
  - intros e. rewrite delete_files_unfold, bind_run.
    destruct (delete_loop_effect file_numbers 0 s) as [(_ & Hout & _) _].
    destruct (for_fold file_numbers 0 delete_step s) as [[total|e'] s1];
      cbn [fst snd] in *; [|done].
    rewrite print_emit. intros [=].
  - apply targets_from_one.
Qed.

Lemma delete_files_total_witness :
  NoDup (targets (duplicate_files listed) [1; 9; 3]) /\
  Forall (fun file => is_Some (fs listed !! file))
         (targets (duplicate_files listed) [1; 9; 3]) /\
  targets (duplicate_files listed) [1; 9; 3] = ["r/A"; "r/sub/D"] /\
  delete_files [1; 9; 3] listed =
    (Ok tt,
     set_stdout (stdout listed ++ [TotalLine 30])
                (set_fs (delete "r/sub/D" (delete "r/A" (fs listed))) listed)).
Proof.
  assert (Hnd : NoDup (targets (duplicate_files listed) [1; 9; 3])).
  { compute_done. }
  assert (Hon : Forall (fun file => is_Some (fs listed !! file))
                  (targets (duplicate_files listed) [1; 9; 3])).
  { compute_done. }
  split; [exact Hnd|]. split; [exact Hon|]. split; [vm_compute; reflexivity|].
  destruct (delete_files_total [1; 9; 3] listed) as (_ & Hrun & _).
  destruct (Hrun Hnd Hon) as [-> _]. vm_compute. reflexivity.
Defined.

(** C6, the code at the failing input.  Four duplicates are listed with the
    ordinals 1 to 4.  In the batch [0] no ordinal is in the range from 1 to
    4, so the total of the claim is 0; the code looks the ordinal up at
    index [-1], deletes [r/sub/E] and reports its twenty bytes.  In the batch
    [1; 0] the only ordinal in range is 1, for the ten bytes of [r/A]; the
    code reports thirty. *)
Lemma ordinal_zero_is_counted :
  targets_in_range (duplicate_files listed) [0] = [] /\
  freed_bytes (fs listed) (targets_in_range (duplicate_files listed) [0]) = 0 /\
  delete_files [0] listed =
    (Ok tt,
     set_stdout (stdout listed ++ [TotalLine 20])
                (set_fs (delete "r/sub/E" (fs listed)) listed)) /\
  targets_in_range (duplicate_files listed) [1; 0] = ["r/A"] /\
  freed_bytes (fs listed) (targets_in_range (duplicate_files listed) [1; 0])
    = 10 /\
  delete_files [1; 0] listed =
    (Ok tt,
     set_stdout (stdout listed ++ [TotalLine 30])
                (set_fs (delete "r/sub/E" (delete "r/A" (fs listed))) listed)).
Proof. vm_compute. repeat split. Qed.

(** C2, the code at the failing input.  Four duplicates are listed with the
    ordinals 1 to 4; the ordinal 0 is looked up at index [-1], which is the
    last entry, so [r/sub/E] is deleted and its twenty bytes are counted. *)
Lemma ordinal_zero_deletes_last_listed :
  session_with_zero.1 = Ok tt /\
  numbered_lines (stdout session_with_zero.2) =
    [(1, "r/A"); (2, "r/B"); (3, "r/sub/D"); (4, "r/sub/E")] /\
  Example.disk !! "r/sub/E" = Some "zzzzzzzzzzzzzzzzzzzz" /\
  fs session_with_zero.2 = delete "r/sub/E" Example.disk /\
  last (stdout session_with_zero.2) = Some (TotalLine 20) /\
  delete_files [5] listed = (Ok tt, set_stdout (stdout listed ++ [TotalLine 0]) listed).
Proof. vm_compute. repeat split. Qed.

(** C10.  A batch in which a valid ordinal [n] comes a second time.  Whatever
    else the batch holds, [delete_files] ends with an uncaught
    [FileNotFoundError]: no total is printed and no deleted file is back.
    When, further, the files referred to up to the second occurrence are
    pairwise different and on disk, the first occurrence deletes the file of
    [n], the second finds the same path, and it is its size lookup that
    raises; every file deleted until then stays deleted. *)
Theorem delete_files_repeated_ordinal (pre mid post : list Z) (n : Z)
    (s : State) :
  1 <= n <= Z.of_nat (length (duplicate_files s)) ->
  let batch := pre ++ n :: mid ++ n :: post in
  let gone := targets (duplicate_files s) (pre ++ n :: mid) in
  exists file : string,
    list_getitem (duplicate_files s) (n - 1) = Some file /\
    (exists path, (delete_files batch s).1 = Raise (FileNotFoundError path)) /\
    stdout (delete_files batch s).2 = stdout s /\
    (forall path : string,
       fs s !! path = None -> fs (delete_files batch s).2 !! path = None) /\
    (NoDup gone ->
     Forall (fun file => is_Some (fs s !! file)) gone ->
     is_Some (fs s !! file) /\
     (for_fold (pre ++ [n]) 0 delete_step s).1 =
       Ok (freed_bytes (fs s) (targets (duplicate_files s) (pre ++ [n]))) /\
     fs (for_fold (pre ++ [n]) 0 delete_step s).2 !! file = None /\
     delete_files batch s =
       (Raise (FileNotFoundError file), set_fs (remove_all gone (fs s)) s) /\
     (forall f : string, f ∈ gone -> fs (delete_files batch s).2 !! f = None)).
Proof.
  intros Hn batch gone.
  destruct (list_getitem_ordinal (duplicate_files s) n) as [Hget Hsome]; [lia|].
  assert (is_Some (list_getitem (duplicate_files s) (n - 1)))
    as [file Hfile] by (apply Hsome; lia).
  exists file. split; [done|].
  (* every such batch is aborted *)
  assert (Hany :
    (exists path, (delete_files batch s).1 = Raise (FileNotFoundError path)) /\
    only_deletes s (delete_files batch s).2).
  { subst batch. rewrite delete_files_unfold, bind_run.
    destruct (delete_loop_effect (pre ++ n :: mid ++ n :: post) 0 s)
      as [Heff Hexn].
    assert (exists e,
      (for_fold (pre ++ n :: mid ++ n :: post) 0 delete_step s).1 = Raise e)
      as [e He].
    { rewrite for_fold_app, bind_run.
      destruct (delete_loop_effect pre 0 s) as [(Hd & _ & Hf) _].
      destruct (for_fold pre 0 delete_step s) as [[total|e] s1];
        cbn [fst snd] in *; [|by exists e].
      cbn [for_fold]. rewrite bind_run.
      destruct (delete_step_effect total n s1) as ((Hd1 & _ & Hf1) & _ & Hdel).
      destruct (delete_step total n s1) as [[total1|e] s2];
        cbn [fst snd] in *; [|by exists e].
      apply (delete_loop_raises _ _ n file).
      - apply elem_of_app. right. by left.
      - by rewrite Hd1, Hd.
      - apply (Hdel total1); [done | by rewrite Hd]. }
    destruct (for_fold (pre ++ n :: mid ++ n :: post) 0 delete_step s)
      as [[total|e'] s'] eqn:Hloop; cbn [fst snd] in *; [done|].
    injection He as ->. split; [|done].
    destruct (Hexn e eq_refl) as [path ->]. by exists path. }
  destruct Hany as (Hraise & _ & Hout & Hfs).
  split; [done|]. split; [done|]. split; [done|].
  (* nothing fails before the second occurrence *)
  intros Hnd Hon.
  assert (Hgone : gone =
            targets (duplicate_files s) (pre ++ [n]) ++
            targets (duplicate_files s) mid).
  { unfold gone. change (n :: mid) with ([n] ++ mid).
    by rewrite app_assoc, targets_app. }
  assert (Hfirst : targets (duplicate_files s) (pre ++ [n]) =
            targets (duplicate_files s) pre ++ [file]).
  { rewrite targets_app. unfold targets at 2. cbn. by rewrite Hfile. }
  assert (Hin : file ∈ gone).
  { rewrite Hgone, Hfirst, !elem_of_app, list_elem_of_singleton. auto. }
  assert (Hrun : delete_files batch s =
            (Raise (FileNotFoundError file),
             set_fs (remove_all gone (fs s)) s)).
  { subst batch. replace (pre ++ n :: mid ++ n :: post)
      with ((pre ++ n :: mid) ++ n :: post) by (by rewrite <- app_assoc).
    rewrite delete_files_unfold, bind_run, for_fold_app, bind_run.
    rewrite delete_loop_ok by done. fold gone. cbv beta iota.
    cbn [for_fold]. rewrite bind_run. unfold delete_step at 1.
    rewrite bind_run, get_run. cbv beta iota.
    cbn [duplicate_files set_fs]. rewrite Hfile.
    rewrite bind_run, os_path_getsize_run. cbn [fs set_fs].
    by rewrite remove_all_lookup_in. }
  rewrite Hrun. cbn [fst snd fs stdout set_fs].
  assert (Hnd1 : NoDup (targets (duplicate_files s) (pre ++ [n]))).
  { rewrite Hgone in Hnd. by apply NoDup_app in Hnd as (? & _ & _). }
  assert (Hon1 : Forall (fun file => is_Some (fs s !! file))
                   (targets (duplicate_files s) (pre ++ [n]))).
  { rewrite Hgone in Hon. by apply Forall_app in Hon as [? _]. }
  rewrite delete_loop_ok by done. cbn [fst snd fs set_fs].
  split_and!; try done.
  - rewrite Forall_forall in Hon. by apply Hon.
  - apply remove_all_lookup_in.
    rewrite Hfirst, elem_of_app, list_elem_of_singleton. auto.
  - intros f Hf. by apply remove_all_lookup_in.
Qed.

Lemma delete_files_repeated_ordinal_witness :
  1 <= 1 <= Z.of_nat (length (duplicate_files listed)) /\
  NoDup (targets (duplicate_files listed) ([2] ++ 1 :: [7])) /\
  Forall (fun file => is_Some (fs listed !! file))
         (targets (duplicate_files listed) ([2] ++ 1 :: [7])) /\
  delete_files [2; 1; 7; 1; 3] listed =
    (Raise (FileNotFoundError "r/A"),
     set_fs (delete "r/A" (delete "r/B" (fs listed))) listed).
Proof.
  assert (Hn : 1 <= 1 <= Z.of_nat (length (duplicate_files listed))).
  { vm_compute. split; discriminate. }
  assert (Hnd : NoDup (targets (duplicate_files listed) ([2] ++ 1 :: [7]))).
  { compute_done. }
  assert (Hon : Forall (fun file => is_Some (fs listed !! file))
                  (targets (duplicate_files listed) ([2] ++ 1 :: [7]))).
  { compute_done. }
  split; [exact Hn|]. split; [exact Hnd|]. split; [exact Hon|].
  destruct (delete_files_repeated_ordinal [2] [7] [3] 1 listed Hn)
    as (file & Hfile & _ & _ & _ & Hexact).
  destruct (Hexact Hnd Hon) as (_ & _ & _ & Hrun & _).
  assert (file = "r/A") as -> by (vm_compute in Hfile; congruence).
  cbn [app] in Hrun. rewrite Hrun. vm_compute. reflexivity.
Defined.

(** ** The session: [main] and [start_file_handler] *)

(** C8.  Without the directory argument [main] prints the usage message and
    returns: nothing else is printed, no line is read, no file is read or
    deleted, and the handler is not even created. *)
Theorem main_without_directory (md5 : string -> string)
    (os_walk : gmap string string -> string ->
               list (string * list string * list string))
    (py : Py.t) (argv : list string) (s : State) :
  (length argv <= 1)%nat ->
  main md5 os_walk py argv s = (Ok tt, set_stdout (stdout s ++ [NoDirectory]) s) /\
  render NoDirectory = String.append "Directory is not specified" Text.nl.
Proof.
  intros Hargv. split; [|reflexivity].
  unfold main, list_getitem. cbn [Z.leb Z.compare].
  by rewrite lookup_ge_None_2 by (simpl; lia).
Qed.

Lemma main_without_directory_witness :
  (length ["handler.py"] <= 1)%nat /\
  main Example.digest Example.tree Example.python ["handler.py"]
       (Example.fresh ["txt"]) =
    (Ok tt, set_stdout [NoDirectory] (Example.fresh ["txt"])).
Proof.
  split; [simpl; lia|].
  apply (main_without_directory Example.digest Example.tree Example.python
           ["handler.py"] (Example.fresh ["txt"])).
  simpl. lia.
Defined.

Lemma start_file_handler_split md5 os_walk py (s : State) :
  start_file_handler md5 os_walk py s =
  (sorting ← scan_and_list md5 os_walk py;
   delete ← prompt_user py check_message "yes" "no";
   output_duplicates sorting;;
   if delete : bool then deletion_phase py else mret tt) s.
Proof.
  unfold start_file_handler, scan_and_list. rewrite !bind_run.
  destruct (input format_message s) as [[file_format|e] s1]; [|done].
  rewrite !bind_run.
  destruct (add_files os_walk file_format s1) as [[[]|e] s2]; [|done].
  rewrite !bind_run.
  destruct (add_files_by_hash_value md5 s2) as [[[]|e] s3]; [|done].
  rewrite !bind_run.
  destruct (add_duplicate_files s3) as [[[]|e] s4]; [|done].
  rewrite !bind_run.
  destruct (prompt_user py sorting_message "1" "2" s4) as [[sorting|e] s5];
    [|done].
  rewrite !bind_run.
  destruct (output_files sorting s5) as [[[]|e] s6]; [|done].
  rewrite mret_run. reflexivity.
Qed.

Lemma prompt_user_answer py (message option_1 option_2 answer : string)
    (b : bool) (rest : list string) (s : State) :
  stdin s = answer :: rest ->
  Dict.getitem answer
    (Dict.setitem option_2 false (Dict.setitem option_1 true [])) = Some b ->
  prompt_user py message option_1 option_2 s =
  (Ok b, set_stdin rest (emit [Prompt message] [] s)).
Proof.
  intros Hstdin Hanswer. unfold prompt_user.
  destruct (Py.recursion_depth py); cbn [prompt_user_rec];
    rewrite bind_run, input_run, Hstdin; cbv beta iota; by rewrite Hanswer.
Qed.

(** C9.  In a session that has reached the question [Check for duplicates?]
    and got an answer to it, the duplicate listing is run next whatever the
    answer: it prints the numbered paths and appends them to the flattened
    list.  Only then is the answer looked at: after [no] the session is over,
    after [yes] it goes on with the deletion phase, from the same state. *)
Theorem duplicates_listed_whatever_the_answer (md5 : string -> string)
    (os_walk : gmap string string -> string ->
               list (string * list string * list string))
    (py : Py.t) (s s1 s2 : State) (sorting delete : bool) :
  scan_and_list md5 os_walk py s = (Ok sorting, s1) ->
  prompt_user py check_message "yes" "no" s1 = (Ok delete, s2) ->
  let its := sorted fst sorting (Dict.items (duplicate_files_dict s2)) in
  let s3 := (output_duplicates sorting s2).2 in
  (output_duplicates sorting s2).1 = Ok tt /\
  numbered_lines (drop (length (stdout s2)) (stdout s3)) =
    zip (seqZ 1 (Z.of_nat (length (listed_files its)))) (listed_files its) /\
  duplicate_files s3 = duplicate_files s2 ++ listed_files its /\
  start_file_handler md5 os_walk py s =
    (if delete then deletion_phase py else mret tt) s3 /\
  (delete = false -> start_file_handler md5 os_walk py s = (Ok tt, s3)) /\
  (forall (s : State) (rest : list string),
     stdin s = "yes" :: rest ->
     (prompt_user py check_message "yes" "no" s).1 = Ok true) /\
  (forall (s : State) (rest : list string),
     stdin s = "no" :: rest ->
     (prompt_user py check_message "yes" "no" s).1 = Ok false).
Proof.
  intros Hscan Hanswer its s3.
  assert (Hrun : start_file_handler md5 os_walk py s =
            (if delete then deletion_phase py else mret tt) s3).
  { rewrite start_file_handler_split, bind_run, Hscan. cbv beta iota.
    rewrite bind_run, Hanswer. cbv beta iota. rewrite bind_run.
    subst s3. rewrite output_duplicates_run. reflexivity. }
  subst s3. rewrite output_duplicates_run in *. fold its in Hrun |- *.
  cbn [fst snd] in *.
  replace (stdout (emit (listing 1 its) (listed_files its) s2))
    with (stdout s2 ++ listing 1 its) by (by destruct s2).
  replace (duplicate_files (emit (listing 1 its) (listed_files its) s2))
    with (duplicate_files s2 ++ listed_files its) by (by destruct s2).
  rewrite drop_app_length, numbered_lines_listing.
  split_and!; try done.
  - intros ->. exact Hrun.
  - intros s0 rest Hstdin.
    by rewrite (prompt_user_answer py _ _ _ "yes" true rest).
  - intros s0 rest Hstdin.
    by rewrite (prompt_user_answer py _ _ _ "no" false rest).
Qed.

Lemma duplicates_listed_whatever_the_answer_witness :
  let asked :=
    (scan_and_list Example.digest Example.tree Example.python session_no).2 in
  let answered :=
    (prompt_user Example.python check_message "yes" "no" asked).2 in
  scan_and_list Example.digest Example.tree Example.python session_no =
    (Ok false, asked) /\
  prompt_user Example.python check_message "yes" "no" asked =
    (Ok false, answered) /\
  (start_file_handler Example.digest Example.tree Example.python
     session_no).1 = Ok tt /\
  duplicate_files
    (start_file_handler Example.digest Example.tree Example.python
       session_no).2 =
    ["r/A"; "r/B"; "r/sub/D"; "r/sub/E"].
Proof.
  intros asked answered.
  assert (Hscan : scan_and_list Example.digest Example.tree Example.python
                    session_no = (Ok false, asked))
    by (vm_compute; reflexivity).
  assert (Hanswer : prompt_user Example.python check_message "yes" "no" asked =
                    (Ok false, answered)) by (vm_compute; reflexivity).
  split; [exact Hscan|]. split; [exact Hanswer|].
  destruct (duplicates_listed_whatever_the_answer Example.digest Example.tree
              Example.python
              session_no asked answered false false Hscan Hanswer)
    as (_ & _ & _ & _ & Hno & _).
  rewrite (Hno eq_refl). split; vm_compute; reflexivity.
Defined.


(** * Further properties of the code *)

(** ** The two prompts: [prompt_user] and the loop for the file numbers *)

Lemma option_dict_lookup (option_1 option_2 answer : string) :
  Dict.getitem answer
    (Dict.setitem option_2 false (Dict.setitem option_1 true [])) =
  if decide (answer = option_1 \/ answer = option_2)
  then Some (bool_decide (answer = option_1 /\ option_1 <> option_2))
  else None.
Proof.
  cbn. destruct (decide (option_2 = option_1)) as [->|Hne]; cbn.
  - destruct (decide (answer = option_1)) as [->|Hne'].
    + rewrite decide_True by auto. by rewrite bool_decide_false by tauto.
    + by rewrite decide_False by tauto.
  - destruct (decide (answer = option_1)) as [->|Hne1].
    + rewrite decide_True by auto. by rewrite bool_decide_true by auto.
    + destruct (decide (answer = option_2)) as [->|Hne2].
      * rewrite decide_True by auto. by rewrite bool_decide_false by tauto.
      * by rewrite decide_False by tauto.
Qed.

Lemma prompt_user_rec_wrong (message option_1 option_2 : string)
    (wrong next : list string) (calls : nat) (s : State) :
  Forall (fun w => w <> option_1 /\ w <> option_2) wrong ->
  stdin s = wrong ++ next ->
  prompt_user_rec (length wrong + calls) message option_1 option_2 s =
  prompt_user_rec calls message option_1 option_2
    (set_stdin next
       (emit (concat (map (fun _ => [Prompt message; WrongOption]) wrong)) [] s)).
Proof.
  revert s. induction wrong as [|w ws IH]; intros s Hwrong Hstdin.
  - cbn in *. f_equal. rewrite emit_nil. destruct s. cbn in *. by subst.
  - apply Forall_cons in Hwrong as [[Hw1 Hw2] Hwrong].
    cbn [length Nat.add prompt_user_rec].
    rewrite bind_run, input_run, Hstdin. cbn [app]. cbv beta iota.
    rewrite option_dict_lookup, decide_False by tauto.
    rewrite bind_run, print_emit. cbv beta iota.
    rewrite IH; [|done|by destruct s].
    f_equal. destruct s. unfold emit. cbn. by rewrite <- !app_assoc.
Qed.

Lemma prompt_user_run py (message option_1 option_2 answer : string)
    (wrong rest : list string) (s : State) :
  stdin s = wrong ++ answer :: rest ->
  Forall (fun w => w <> option_1 /\ w <> option_2) wrong ->
  answer = option_1 \/ answer = option_2 ->
  (length wrong <= Py.recursion_depth py)%nat ->
  prompt_user py message option_1 option_2 s =
  (Ok (bool_decide (answer = option_1 /\ option_1 <> option_2)),
   set_stdin rest (emit (reprompts message WrongOption wrong) [] s)).
Proof.
  intros Hstdin Hwrong Hanswer Hdepth. unfold prompt_user.
  replace (Py.recursion_depth py)
    with (length wrong + (Py.recursion_depth py - length wrong))%nat by lia.
  rewrite (prompt_user_rec_wrong _ _ _ wrong (answer :: rest)) by done.
  assert (Hlast : forall depth s1, stdin s1 = answer :: rest ->
    prompt_user_rec depth message option_1 option_2 s1 =
    (Ok (bool_decide (answer = option_1 /\ option_1 <> option_2)),
     set_stdin rest (emit [Prompt message] [] s1))).
  { intros depth s1 Hs1.
    destruct depth; cbn [prompt_user_rec];
      rewrite bind_run, input_run, Hs1; cbv beta iota;
      by rewrite option_dict_lookup, decide_True by done. }
  rewrite Hlast by (by destruct s). f_equal. unfold reprompts.
  destruct s. unfold emit. cbn. by rewrite <- !app_assoc.
Qed.

(** X1.  [prompt_user] asks again after every answer that is neither option,
    printing the complaint each time, and returns on the first answer that is
    one: [True] for the first option, [False] for the second, and [False] too
    when the two options are the same text.  It has then read exactly the
    answers up to that one.  This holds as long as the wrong answers are no
    more than the calls of itself that the interpreter allows. *)
Theorem prompt_user_reprompts (py : Py.t)
    (message option_1 option_2 answer : string)
    (wrong rest : list string) (s : State) :
  stdin s = wrong ++ answer :: rest ->
  Forall (fun w => w <> option_1 /\ w <> option_2) wrong ->
  answer = option_1 \/ answer = option_2 ->
  (length wrong <= Py.recursion_depth py)%nat ->
  prompt_user py message option_1 option_2 s =
  (Ok (bool_decide (answer = option_1 /\ option_1 <> option_2)),
   set_stdin rest (emit (reprompts message WrongOption wrong) [] s)).
Proof. apply prompt_user_run. Qed.

Lemma prompt_user_reprompts_witness :
  stdin (Example.fresh ["maybe"; "y"; "no"; "1 2"]) =
    ["maybe"; "y"] ++ "no" :: ["1 2"] /\
  Forall (fun w => w <> "yes" /\ w <> "no") ["maybe"; "y"] /\
  (length ["maybe"; "y"] <= Py.recursion_depth Example.python)%nat /\
  prompt_user Example.python check_message "yes" "no"
    (Example.fresh ["maybe"; "y"; "no"; "1 2"]) =
  (Ok false,
   set_stdin ["1 2"]
     (set_stdout [Prompt check_message; WrongOption; Prompt check_message;
                  WrongOption; Prompt check_message]
        (Example.fresh []))).
Proof.
  assert (Hwrong : Forall (fun w => w <> "yes" /\ w <> "no") ["maybe"; "y"]).
  { repeat constructor; discriminate. }
  assert (Hdepth : (length ["maybe"; "y"] <=
                    Py.recursion_depth Example.python)%nat)
    by (cbn; lia).
  split; [reflexivity|]. split; [exact Hwrong|]. split; [exact Hdepth|].
  rewrite (prompt_user_reprompts Example.python check_message "yes" "no" "no"
             ["maybe"; "y"] ["1 2"]
             (Example.fresh ["maybe"; "y"; "no"; "1 2"])
             eq_refl Hwrong (or_intror eq_refl) Hdepth).
  reflexivity.
Defined.

(** X2.  When standard input runs out before an answer is one of the two
    options, and the answers read are no more than the calls of itself that
    the interpreter allows, [prompt_user] ends with an uncaught [EOFError],
    after it has complained about every answer and asked one last time. *)
Theorem prompt_user_end_of_input (py : Py.t)
    (message option_1 option_2 : string) (s : State) :
  Forall (fun w => w <> option_1 /\ w <> option_2) (stdin s) ->
  (length (stdin s) <= Py.recursion_depth py)%nat ->
  prompt_user py message option_1 option_2 s =
  (Raise EOFError,
   set_stdin [] (emit (reprompts message WrongOption (stdin s)) [] s)).
Proof.
  intros Hwrong Hdepth. unfold prompt_user.
  replace (Py.recursion_depth py)
    with (length (stdin s) + (Py.recursion_depth py - length (stdin s)))%nat
    by lia.
  rewrite (prompt_user_rec_wrong _ _ _ (stdin s) []) by (by rewrite ?app_nil_r).
  assert (Hlast : forall depth s1, stdin s1 = [] ->
    prompt_user_rec depth message option_1 option_2 s1 =
    (Raise EOFError, emit [Prompt message] [] s1)).
  { intros depth s1 Hs1.
    destruct depth; cbn [prompt_user_rec];
      by rewrite bind_run, input_run, Hs1. }
  rewrite Hlast by (by destruct s). f_equal. unfold reprompts.
  destruct s. unfold emit. cbn. by rewrite <- !app_assoc.
Qed.

Lemma prompt_user_end_of_input_witness :
  Forall (fun w => w <> "1" /\ w <> "2") (stdin (Example.fresh ["3"; "up"])) /\
  (length (stdin (Example.fresh ["3"; "up"])) <=
   Py.recursion_depth Example.python)%nat /\
  prompt_user Example.python sorting_message "1" "2"
    (Example.fresh ["3"; "up"]) =
  (Raise EOFError,
   set_stdout [Prompt sorting_message; WrongOption; Prompt sorting_message;
               WrongOption; Prompt sorting_message]
     (Example.fresh [])).
Proof.
  assert (Hwrong : Forall (fun w => w <> "1" /\ w <> "2")
                     (stdin (Example.fresh ["3"; "up"]))).
  { repeat constructor; discriminate. }
  assert (Hdepth : (length (stdin (Example.fresh ["3"; "up"])) <=
                    Py.recursion_depth Example.python)%nat)
    by (cbn; lia).
  split; [exact Hwrong|]. split; [exact Hdepth|].
  rewrite (prompt_user_end_of_input Example.python sorting_message "1" "2" _
             Hwrong Hdepth).
  reflexivity.
Defined.



Lemma read_file_numbers_wrong py (wrong next : list string) (rounds : nat)
    (s : State) :
  Forall (fun w => Py.fullmatch_space_digit py w = false) wrong ->
  stdin s = wrong ++ next ->
  read_file_numbers py (length wrong + rounds) s =
  read_file_numbers py rounds
    (set_stdin next
       (emit (concat (map (fun _ => [Prompt numbers_message; WrongFormat]) wrong))
             [] s)).
Proof.
  revert s. induction wrong as [|w ws IH]; intros s Hwrong Hstdin.
  - cbn in *. f_equal. rewrite emit_nil. destruct s. cbn in *. by subst.
  - apply Forall_cons in Hwrong as [Hw Hwrong].
    cbn [length Nat.add read_file_numbers].
    rewrite bind_run, input_run, Hstdin. cbn [app]. cbv beta iota.
    rewrite Hw. rewrite bind_run, print_emit. cbv beta iota.
    rewrite IH; [|done|by destruct s].
    f_equal. destruct s. unfold emit. cbn. by rewrite <- !app_assoc.
Qed.

Lemma deletion_phase_run py (wrong rest : list string) (line : string)
    (s : State) :
  stdin s = wrong ++ line :: rest ->
  Forall (fun w => Py.fullmatch_space_digit py w = false) wrong ->
  Py.fullmatch_space_digit py line = true ->
  deletion_phase py s =
    match mapM (Py.int py) (Py.split py line) with
    | Some file_numbers => delete_files file_numbers
    | None => raise ValueError
    end
      (set_stdin rest (emit (reprompts numbers_message WrongFormat wrong) [] s)).
Proof.
  intros Hstdin Hwrong Hline.
  unfold deletion_phase. rewrite bind_run, get_run. cbv beta iota.
  rewrite Hstdin, length_app. cbn [length].
  rewrite bind_run.
  rewrite (read_file_numbers_wrong py wrong (line :: rest)) by done.
  cbn [read_file_numbers]. rewrite bind_run, input_run.
  cbn [stdin set_stdin]. cbv beta iota. rewrite Hline, mret_run.
  cbv beta iota. f_equal. unfold reprompts.
  destruct s. unfold emit. cbn. by rewrite <- !app_assoc.
Qed.

(** X3.  Once the user has asked for the deletion, the lines read are turned
    down, with the complaint about the format, until one matches the pattern
    of white space and digits.  That line is split and its tokens are
    converted in their order: when [int] converts them all, [delete_files] is
    called with the numbers; when it turns one down, the [ValueError] leaves
    the program and no file has been deleted. *)
Theorem deletion_phase_reads_numbers (py : Py.t) (wrong rest : list string)
    (line : string) (s : State) :
  stdin s = wrong ++ line :: rest ->
  Forall (fun w => Py.fullmatch_space_digit py w = false) wrong ->
  Py.fullmatch_space_digit py line = true ->
  let asked :=
    set_stdin rest (emit (reprompts numbers_message WrongFormat wrong) [] s) in
  (forall file_numbers : list Z,
     Forall2 (fun tok num => Py.int py tok = Some num)
             (Py.split py line) file_numbers ->
     deletion_phase py s = delete_files file_numbers asked) /\
  (forall tok : string,
     tok ∈ Py.split py line -> Py.int py tok = None ->
     deletion_phase py s = (Raise ValueError, asked) /\ fs asked = fs s).
Proof.
  intros Hstdin Hwrong Hline asked.
  rewrite (deletion_phase_run py wrong rest line s) by done. fold asked.
  split.
  - intros file_numbers Hnums.
    by rewrite (proj2 (mapM_Some _ _ _) Hnums).
  - intros tok Hin Hnone.
    destruct (mapM (Py.int py) (Py.split py line)) as [nums|] eqn:Hmap.
    + apply mapM_Some in Hmap.
      apply list_elem_of_lookup in Hin as [i Hi].
      destruct (Forall2_lookup_l _ _ _ _ _ Hmap Hi) as (num & _ & Hnum).
      congruence.
    + split; [done|]. by destruct s.
Qed.

Lemma deletion_phase_reads_numbers_witness :
  stdin (set_stdin ["1, 2"; " 3  1 "; "x"] listed) =
    ["1, 2"] ++ " 3  1 " :: ["x"] /\
  Forall (fun w => Py.fullmatch_space_digit Example.python w = false)
         ["1, 2"] /\
  Py.fullmatch_space_digit Example.python " 3  1 " = true /\
  Forall2 (fun tok num => Py.int Example.python tok = Some num)
          (Py.split Example.python " 3  1 ") [3; 1] /\
  (deletion_phase Example.python
     (set_stdin ["1, 2"; " 3  1 "; "x"] listed)).1 = Ok tt /\
  stdin (deletion_phase Example.python
           (set_stdin ["1, 2"; " 3  1 "; "x"] listed)).2 = ["x"].
Proof.
  assert (Hwrong : Forall
            (fun w => Py.fullmatch_space_digit Example.python w = false)
            ["1, 2"]) by (by repeat constructor).
  assert (Hnums : Forall2 (fun tok num => Py.int Example.python tok = Some num)
                    (Py.split Example.python " 3  1 ") [3; 1])
    by (by repeat constructor).
  split; [reflexivity|]. split; [exact Hwrong|]. split; [reflexivity|].
  split; [exact Hnums|].
  destruct (deletion_phase_reads_numbers Example.python ["1, 2"] ["x"]
              " 3  1 " (set_stdin ["1, 2"; " 3  1 "; "x"] listed)
              eq_refl Hwrong eq_refl) as [Hrun _].
  rewrite (Hrun [3; 1] Hnums). split; vm_compute; reflexivity.
Defined.

(** ** More on deletion *)

Lemma emit_out (out : list output) (s : State) :
  emit out [] s = set_stdout (stdout s ++ out) s.
Proof. destruct s. unfold emit. cbn. by rewrite app_nil_r. Qed.

Lemma list_getitem_is_Some {A} (l : list A) (i : Z) :
  is_Some (list_getitem l i) <->
  - Z.of_nat (length l) <= i < Z.of_nat (length l).
Proof.
  unfold list_getitem. destruct (0 <=? i) eqn:Hi.
  - apply Z.leb_le in Hi. rewrite lookup_lt_is_Some. lia.
  - apply Z.leb_gt in Hi.
    destruct (0 <=? Z.of_nat (length l) + i) eqn:Hw.
    + apply Z.leb_le in Hw. rewrite lookup_lt_is_Some. lia.
    + apply Z.leb_gt in Hw. split; [by intros [? ?]|lia].
Qed.

Lemma list_getitem_elem_of {A} (l : list A) (i : Z) (x : A) :
  list_getitem l i = Some x -> x ∈ l.
Proof.
  unfold list_getitem. destruct (0 <=? i); [apply list_elem_of_lookup_2|].
  destruct (0 <=? Z.of_nat (length l) + i); [apply list_elem_of_lookup_2|done].
Qed.

Lemma targets_nil (flat : list string) (file_numbers : list Z) :
  Forall (fun num => list_getitem flat (num - 1) = None) file_numbers ->
  targets flat file_numbers = [].
Proof.
  induction 1 as [|num nums Hnum _ IH]; [done|].
  unfold targets in *. cbn. by rewrite Hnum.
Qed.

(** X4.  An ordinal refers to an entry of the flattened list of length N
    exactly when it lies above -N and is at most N; an ordinal that is not
    positive counts from the end of the list, 0 being the last entry.  A batch
    made of the other ordinals only - above N, or -N and below - deletes
    nothing and reports a total of 0. *)
Theorem delete_files_out_of_range (file_numbers : list Z) (s : State) :
  let N := Z.of_nat (length (duplicate_files s)) in
  Forall (fun num => N < num \/ num <= - N) file_numbers ->
  delete_files file_numbers s =
    (Ok tt, set_stdout (stdout s ++ [TotalLine 0]) s) /\
  (forall num : Z,
     is_Some (list_getitem (duplicate_files s) (num - 1)) <-> - N < num <= N) /\
  (forall num : Z, - N < num <= 0 ->
     list_getitem (duplicate_files s) (num - 1) =
     duplicate_files s !! Z.to_nat (N + num - 1)).
Proof.
  intros N Hskip.
  assert (Hsome : forall num : Z,
            is_Some (list_getitem (duplicate_files s) (num - 1)) <->
            - N < num <= N).
  { intros num. rewrite list_getitem_is_Some. subst N. lia. }
  split_and!; [|done|].
  - assert (Hnil : targets (duplicate_files s) file_numbers = []).
    { apply targets_nil. eapply Forall_impl; [exact Hskip|].
      intros num Hnum. cbn in Hnum.
      destruct (list_getitem (duplicate_files s) (num - 1)) eqn:Hget; [|done].
      assert (- N < num <= N) by (apply Hsome; by rewrite Hget). lia. }
    rewrite delete_files_unfold, bind_run, delete_loop_ok;
      rewrite Hnil; [|apply NoDup_nil_2|apply Forall_nil_2].
    cbv beta iota. cbn [freed_bytes remove_all fold_left].
    by rewrite set_fs_same, print_emit, emit_out.
  - intros num Hnum. unfold list_getitem.
    rewrite (proj2 (Z.leb_gt _ _)) by lia.
    rewrite (proj2 (Z.leb_le _ _)) by (subst N; lia).
    f_equal. subst N. lia.
Qed.

Lemma delete_files_out_of_range_witness :
  Forall (fun num => Z.of_nat (length (duplicate_files listed)) < num \/
                     num <= - Z.of_nat (length (duplicate_files listed)))
         [5; -4; 100] /\
  delete_files [5; -4; 100] listed =
    (Ok tt, set_stdout (stdout listed ++ [TotalLine 0]) listed).
Proof.
  assert (Hskip : Forall (fun num =>
                    Z.of_nat (length (duplicate_files listed)) < num \/
                    num <= - Z.of_nat (length (duplicate_files listed)))
                  [5; -4; 100]).
  { apply Forall_cons. split; [left; by vm_compute|].
    apply Forall_cons. split; [right; vm_compute; discriminate|].
    apply Forall_cons. split; [left; by vm_compute|]. apply Forall_nil_2. }
  split; [exact Hskip|].
  by destruct (delete_files_out_of_range [5; -4; 100] listed Hskip) as [? _].
Defined.

Lemma delete_loop_only_listed (file_numbers : list Z) (total_size : Z)
    (s : State) :
  let s' := (for_fold file_numbers total_size delete_step s).2 in
  duplicate_files s' = duplicate_files s /\
  stdout s' = stdout s /\
  (forall path : string,
     path ∉ duplicate_files s -> fs s' !! path = fs s !! path) /\
  (forall path : string,
     fs s' !! path = fs s !! path \/ fs s' !! path = None).
Proof.
  apply (for_fold_invariant (fun s1 =>
    duplicate_files s1 = duplicate_files s /\
    stdout s1 = stdout s /\
    (forall path : string,
       path ∉ duplicate_files s -> fs s1 !! path = fs s !! path) /\
    (forall path : string,
       fs s1 !! path = fs s !! path \/ fs s1 !! path = None))); [|by auto].
  intros total num s1 _ (Hd & Hstdout & Hout & Hany).
  unfold delete_step. rewrite bind_run, get_run. cbv beta iota.
  destruct (list_getitem (duplicate_files s1) (num - 1)) as [file|] eqn:Hnum;
    [|by rewrite mret_run].
  rewrite bind_run, os_path_getsize_run.
  destruct (fs s1 !! file) as [content|] eqn:Hfile; [|done].
  cbv beta iota. rewrite bind_run, os_remove_run, Hfile. mstep.
  cbn [snd duplicate_files stdout fs set_fs]. split_and!; [done|done| |].
  - intros path Hpath. rewrite lookup_delete_ne; [by apply Hout|].
    intros <-. apply Hpath. rewrite <- Hd.
    by apply (list_getitem_elem_of _ (num - 1)).
  - intros path. destruct (decide (file = path)) as [->|Hne].
    + right. apply lookup_delete_eq.
    + rewrite lookup_delete_ne by done. apply Hany.
Qed.

(** X5.  Whatever the batch, and whether it returns or raises, [delete_files]
    leaves the flattened list as it was and only removes files whose paths
    are entries of that list: a path that is not in it is on disk afterwards
    exactly as before, and no file is created or changed. *)
Theorem delete_files_only_listed (file_numbers : list Z) (s : State) :
  let s' := (delete_files file_numbers s).2 in
  duplicate_files s' = duplicate_files s /\
  (forall path : string,
     path ∉ duplicate_files s -> fs s' !! path = fs s !! path) /\
  (forall path : string,
     fs s' !! path = fs s !! path \/ fs s' !! path = None).
Proof.
  intros s'. subst s'. rewrite delete_files_unfold, bind_run.
  destruct (delete_loop_only_listed file_numbers 0 s)
    as (Hd & _ & Hout & Hany).
  destruct (for_fold file_numbers 0 delete_step s) as [[total|e] s1];
    cbn [snd] in *; [|done].
  by rewrite print_emit, emit_out.
Qed.

(** ** More on indexing *)

Lemma for_each_app {A} (xs ys : list A) (body : A -> M unit) (s : State) :
  for_each (xs ++ ys) body s = (for_each xs body;; for_each ys body) s.
Proof.
  unfold for_each. rewrite for_fold_app, !bind_run.
  by destruct (for_fold xs () (fun _ x => body x) s) as [[[]|e] s1].
Qed.

Lemma for_each_filter {A} (P : A -> bool) (xs : list A) (body : A -> M unit)
    (s : State) :
  for_each xs (fun x => if P x then body x else mret tt) s =
  for_each (List.filter P xs) body s.
Proof.
  revert s. induction xs as [|x xs IH]; intros s; [done|].
  unfold for_each in *. cbn [for_fold List.filter]. destruct (P x).
  - cbn [for_fold]. rewrite !bind_run.
    destruct (body x s) as [[[]|e] s1]; [apply IH | done].
  - rewrite bind_run, mret_run. cbv beta iota. apply IH.
Qed.

Lemma for_each_map {A B} (h : A -> B) (xs : list A) (body : B -> M unit)
    (s : State) :
  for_each (map h xs) body s = for_each xs (fun x => body (h x)) s.
Proof.
  revert s. induction xs as [|x xs IH]; intros s; [done|].
  unfold for_each in *. cbn [map for_fold]. rewrite !bind_run.
  destruct (body (h x) s) as [[[]|e] s1]; [apply IH | done].
Qed.

Lemma add_files_names (file_format root : string) (fnames : list string)
    (s : State) :
  for_each fnames (fun file =>
    if Text.endswith file file_format then
      let file_path := Text.os_path_join root file in
      file_size ← os_path_getsize file_path;
      modify (fun s =>
        set_files (Dict.append_at file_size file_path (files s)) s)
    else mret tt) s
  = for_each (map (Text.os_path_join root)
                  (List.filter (fun file => Text.endswith file file_format)
                               fnames))
             index_step s.
Proof.
  rewrite for_each_map, <- for_each_filter. reflexivity.
Qed.

Lemma add_files_flat (file_format : string)
    (walked : list (string * list string * list string)) (s : State) :
  for_each walked (fun '(root, dirs, files') =>
    for_each files' (fun file =>
      if Text.endswith file file_format then
        let file_path := Text.os_path_join root file in
        file_size ← os_path_getsize file_path;
        modify (fun s =>
          set_files (Dict.append_at file_size file_path (files s)) s)
      else mret tt)) s
  = for_each (matching_paths walked file_format) index_step s.
Proof.
  revert s. induction walked as [|[[root dirs] fnames] walked IH]; intros s;
    [done|].
  cbn [matching_paths flat_map]. rewrite for_each_app, bind_run.
  rewrite <- add_files_names. unfold for_each at 1. cbn [for_fold].
  rewrite bind_run. fold (matching_paths walked file_format).
  match goal with
  | |- context [for_each fnames ?body s] =>
      destruct (for_each fnames body s) as [[[]|e] s1]
  end; [apply IH | done].
Qed.

Lemma index_paths_run (paths : list string) (s : State) :
  for_each paths index_step s =
  match first_missing (fs s) paths with
  | None => (Ok tt, set_files (index_paths (fs s) paths (files s)) s)
  | Some missing =>
      (Raise (FileNotFoundError missing),
       set_files (index_paths (fs s) (present_prefix (fs s) paths) (files s)) s)
  end.
Proof.
  revert s. induction paths as [|path paths IH]; intros s.
  - cbn. by destruct s.
  - unfold for_each in *. cbn [for_fold first_missing find present_prefix].
    rewrite bind_run. unfold index_step at 1.
    rewrite bind_run, os_path_getsize_run. unfold on_disk at 1 3.
    destruct (fs s !! path) as [content|] eqn:Hpath.
    + rewrite bool_decide_true by done. cbn [negb]. cbv beta iota.
      rewrite modify_run. cbv beta iota. rewrite IH.
      cbn [fs files set_files index_paths fold_left].
      unfold file_size at 2 4. rewrite Hpath. cbn [from_option].
      fold (first_missing (fs s) paths).
      by destruct (first_missing (fs s) paths).
    + rewrite bool_decide_false by (by intros [? ?]). cbn [negb].
      cbv beta iota. cbn [index_paths fold_left]. by destruct s.
Qed.

Lemma add_files_run os_walk (file_format : string) (s : State) :
  add_files os_walk file_format s =
  for_each (matching_paths (os_walk (fs s) (root_path s)) file_format)
           index_step s.
Proof.
  unfold add_files. rewrite bind_run, get_run. cbv beta iota.
  apply add_files_flat.
Qed.

Lemma first_missing_None (disk : gmap string string) (paths : list string) :
  first_missing disk paths = None <->
  Forall (fun path => is_Some (disk !! path)) paths.
Proof.
  unfold first_missing. induction paths as [|path paths IH]; cbn [find].
  - split; [constructor | done].
  - unfold on_disk at 1. destruct (decide (is_Some (disk !! path))) as [Hon|Hoff].
    + rewrite bool_decide_true by done. cbn [negb]. rewrite IH. split.
      * by constructor.
      * by intros [_ ?]%Forall_cons.
    + rewrite bool_decide_false by done. cbn [negb]. split; [done|].
      by intros [? _]%Forall_cons.
Qed.

Lemma first_missing_Some (disk : gmap string string) (paths : list string)
    (missing : string) :
  first_missing disk paths = Some missing ->
  disk !! missing = None /\
  exists rest, paths = present_prefix disk paths ++ missing :: rest.
Proof.
  unfold first_missing. induction paths as [|path paths IH];
    cbn [find present_prefix]; [done|].
  destruct (on_disk disk path) eqn:Hon; cbn [negb].
  - intros [Hmissing [rest Hrest]]%IH. split; [done|]. exists rest.
    cbn [app]. by f_equal.
  - intros [= <-]. split.
    + apply bool_decide_eq_false in Hon. by apply eq_None_not_Some.
    + by exists paths.
Qed.

(** X6.  [add_files] asks the size of the files whose names end with the
    filter, directory after directory in the order of the walk, and files
    each under its size.  It returns when all of them are on disk; otherwise
    it ends with an uncaught [FileNotFoundError] for the first that is not,
    the files before that one being indexed and none after it.  It never
    changes the disk. *)
Theorem add_files_outcome
    (os_walk : gmap string string -> string ->
               list (string * list string * list string))
    (file_format : string) (s : State) :
  let paths := matching_paths (os_walk (fs s) (root_path s)) file_format in
  add_files os_walk file_format s =
    match first_missing (fs s) paths with
    | None => (Ok tt, set_files (index_paths (fs s) paths (files s)) s)
    | Some missing =>
        (Raise (FileNotFoundError missing),
         set_files
           (index_paths (fs s) (present_prefix (fs s) paths) (files s)) s)
    end /\
  ((add_files os_walk file_format s).1 = Ok tt <->
   Forall (fun path => is_Some (fs s !! path)) paths) /\
  (forall missing : string,
     first_missing (fs s) paths = Some missing ->
     fs s !! missing = None /\
     exists rest, paths = present_prefix (fs s) paths ++ missing :: rest).
Proof.
  intros paths.
  assert (Hrun := add_files_run os_walk file_format s). fold paths in Hrun.
  rewrite index_paths_run in Hrun. rewrite Hrun. split_and!.
  - done.
  - rewrite <- first_missing_None.
    by destruct (first_missing (fs s) paths).
  - apply first_missing_Some.
Qed.

Lemma bucket_index_paths (disk : gmap string string) (paths : list string)
    (d : Dict.t Z (list string)) (size : Z) :
  bucket (index_paths disk paths d) size =
  bucket d size ++ List.filter (fun path => file_size disk path =? size) paths.
Proof.
  revert d. induction paths as [|path paths IH]; intros d.
  - cbn. by rewrite app_nil_r.
  - cbn [index_paths fold_left List.filter].
    fold (index_paths disk paths (Dict.append_at (file_size disk path) path d)).
    rewrite IH, bucket_append_at, <- app_assoc. f_equal.
    destruct (decide (file_size disk path = size)) as [->|Hne].
    + by rewrite Z.eqb_refl.
    + by rewrite (proj2 (Z.eqb_neq _ _)).
Qed.

Lemma wf_setitem {K V} `{EqDecision K} (k : K) (v : V) (d : Dict.t K V) :
  Dict.wf d -> Dict.wf (Dict.setitem k v d).
Proof.
  unfold Dict.wf. induction d as [|[k' v'] d IH]; intros Hwf.
  - cbn. apply NoDup_singleton.
  - cbn in Hwf. apply NoDup_cons in Hwf as [Hnotin Hwf]. cbn.
    destruct (decide (k = k')) as [->|Hne]; cbn.
    + by apply NoDup_cons.
    + apply NoDup_cons. split; [|by apply IH].
      intros [->|Hin]%keys_setitem; done.
Qed.

Lemma wf_index_paths (disk : gmap string string) (paths : list string)
    (d : Dict.t Z (list string)) :
  Dict.wf d -> Dict.wf (index_paths disk paths d).
Proof.
  revert d. induction paths as [|path paths IH]; intros d Hwf; [done|].
  cbn [index_paths fold_left]. apply IH. by apply wf_setitem.
Qed.

(** X7.  When all the files whose names end with the filter are on disk,
    [add_files] adds to the bucket of every size exactly the matching paths of
    that size, in the order of the walk, after what the bucket held; so every
    matching path is in the bucket of its size and in no other, and the keys
    of the dictionary stay pairwise different. *)
Theorem add_files_buckets
    (os_walk : gmap string string -> string ->
               list (string * list string * list string))
    (file_format : string) (s : State) :
  let paths := matching_paths (os_walk (fs s) (root_path s)) file_format in
  let s' := (add_files os_walk file_format s).2 in
  Forall (fun path => is_Some (fs s !! path)) paths ->
  (forall size : Z,
     bucket (files s') size =
     bucket (files s) size ++
     List.filter (fun path => file_size (fs s) path =? size) paths) /\
  (forall (path : string) (size : Z),
     path ∈ paths ->
     (path ∈ List.filter (fun path => file_size (fs s) path =? size) paths
      <-> size = file_size (fs s) path)) /\
  (Dict.wf (files s) -> Dict.wf (files s')).
Proof.
  intros paths s' Hon. subst s'.
  rewrite add_files_run. fold paths. rewrite index_paths_run.
  rewrite (proj2 (first_missing_None _ _) Hon). cbn [snd files set_files].
  split_and!.
  - intros size. apply bucket_index_paths.
  - intros path size Hpath. rewrite list_elem_of_In, filter_In, Z.eqb_eq.
    rewrite <- list_elem_of_In. split; [by intros [_ <-] | by intros ->].
  - apply wf_index_paths.
Qed.

Lemma add_files_buckets_witness :
  Forall (fun path => is_Some (fs (Example.fresh []) !! path))
    (matching_paths
       (Example.tree (fs (Example.fresh [])) (root_path (Example.fresh []))) "") /\
  bucket (files (add_files Example.tree "" (Example.fresh [])).2) 10 =
    ["r/A"; "r/B"; "r/C"].
Proof.
  assert (Hon : Forall (fun path => is_Some (fs (Example.fresh []) !! path))
    (matching_paths
       (Example.tree (fs (Example.fresh [])) (root_path (Example.fresh [])))
       "")) by compute_done.
  split; [exact Hon|].
  destruct (add_files_buckets Example.tree "" (Example.fresh []) Hon)
    as [Hbucket _].
  rewrite Hbucket. vm_compute. reflexivity.
Defined.

(** ** The filter of [add_files] is a plain suffix *)

Lemma elem_of_matching_paths
    (walked : list (string * list string * list string))
    (file_format root : string) (dirs fnames : list string) (file : string) :
  (root, dirs, fnames) ∈ walked -> file ∈ fnames ->
  Text.endswith file file_format = true ->
  Text.os_path_join root file ∈ matching_paths walked file_format.
Proof.
  intros Hwalked Hfile Hends. unfold matching_paths.
  apply list_elem_of_In, in_flat_map. exists (root, dirs, fnames).
  split; [by apply list_elem_of_In|]. apply in_map, filter_In.
  split; [by apply list_elem_of_In | done].
Qed.

(** When [add_files] returns, every file of the walk whose name ends with the
    filter is in the bucket of its size. *)
Lemma add_files_complete os_walk (file_format : string) (s : State)
    (root : string) (dirs fnames : list string) (file : string) :
  (add_files os_walk file_format s).1 = Ok tt ->
  (root, dirs, fnames) ∈ os_walk (fs s) (root_path s) ->
  file ∈ fnames ->
  Text.endswith file file_format = true ->
  exists content,
    fs s !! Text.os_path_join root file = Some content /\
    Text.os_path_join root file ∈
      bucket (files (add_files os_walk file_format s).2)
             (Z.of_nat (String.length content)).
Proof.
  intros Hok Hwalked Hfile Hends.
  pose proof (elem_of_matching_paths _ _ _ _ _ _ Hwalked Hfile Hends) as Hin.
  revert Hok. rewrite add_files_run, index_paths_run.
  destruct (first_missing (fs s) _) as [missing|] eqn:Hmissing; [done|].
  intros _. cbn [snd files set_files].
  apply first_missing_None in Hmissing. rewrite Forall_forall in Hmissing.
  destruct (Hmissing _ Hin) as [content Hcontent]. exists content.
  split; [done|]. rewrite bucket_index_paths. apply elem_of_app. right.
  apply list_elem_of_In, filter_In. split; [by apply list_elem_of_In|].
  unfold file_size. rewrite Hcontent. cbn. apply Z.eqb_refl.
Qed.

(** C5.  Whatever the root, the filter and the outcome of the walk, every
    path that [add_files] adds to the bucket of a size [size] is the join of a
    directory of the walk and one of its file names, that name ends with the
    filter, and the file has exactly [size] bytes on disk; the disk itself is
    left as it was.  The filter is a plain suffix, for [add_files] itself:
    a name ends with the filter exactly when it is some text followed by the
    filter, and when [add_files] returns, every file of the walk whose name
    is some text followed by the filter is in the bucket of its size.  So
    with the empty filter every file of the walk is indexed, and with the
    filter [xyz] so is a file named [abcxyz]. *)
Theorem add_files_bucket_sound
    (os_walk : gmap string string -> string ->
               list (string * list string * list string))
    (file_format : string) (s : State) :
  let walked := os_walk (fs s) (root_path s) in
  let s' := (add_files os_walk file_format s).2 in
  let indexed_by_size (path : string) :=
    exists content,
      fs s !! path = Some content /\
      path ∈ bucket (files s') (Z.of_nat (String.length content)) in
  fs s' = fs s /\
  (forall size : Z, exists added : list string,
     bucket (files s') size = bucket (files s) size ++ added /\
     Forall (fun path =>
       exists root dirs fnames file,
         (root, dirs, fnames) ∈ walked /\
         file ∈ fnames /\
         path = Text.os_path_join root file /\
         Text.endswith file file_format = true /\
         exists content,
           fs s' !! path = Some content /\
           Z.of_nat (String.length content) = size) added) /\
  (forall file : string,
     Text.endswith file file_format = true <->
     exists pre, file = String.append pre file_format) /\
  ((add_files os_walk file_format s).1 = Ok tt ->
   forall root dirs fnames file pre,
     (root, dirs, fnames) ∈ walked -> file ∈ fnames ->
     file = String.append pre file_format ->
     indexed_by_size (Text.os_path_join root file)) /\
  (file_format = "" ->
   (add_files os_walk file_format s).1 = Ok tt ->
   forall root dirs fnames file,
     (root, dirs, fnames) ∈ walked -> file ∈ fnames ->
     indexed_by_size (Text.os_path_join root file)) /\
  (file_format = "xyz" ->
   (add_files os_walk file_format s).1 = Ok tt ->
   forall root dirs fnames,
     (root, dirs, fnames) ∈ walked -> "abcxyz" ∈ fnames ->
     indexed_by_size (Text.os_path_join root "abcxyz")).
Proof.
  intros walked s' indexed_by_size.
  destruct (add_files_indexed os_walk file_format s) as [Hfs Hbuckets].
  fold s' in Hfs, Hbuckets. split_and!.
  - done.
  - intros size. destruct (Hbuckets size) as (added & Hadded & Hplaced).
    exists added. split; [done|]. rewrite Hfs. exact Hplaced.
  - intros file. apply endswith_suffix.
  - intros Hok root dirs fnames file pre Hwalked Hfile Hpre.
    apply (add_files_complete _ _ _ root dirs fnames); try done.
    apply endswith_suffix. by exists pre.
  - intros -> Hok root dirs fnames file Hwalked Hfile.
    apply (add_files_complete _ _ _ root dirs fnames); try done.
    apply endswith_empty.
  - intros -> Hok root dirs fnames Hwalked Hfile.
    by apply (add_files_complete _ _ _ root dirs fnames).
Qed.

(** The example directory with the filter [xt]: [r/notes.txt] is indexed under
    its five bytes, [xt] being the end of its name and no extension. *)
Lemma add_files_bucket_sound_witness :
  (add_files Example.tree "xt" (Example.fresh [])).1 = Ok tt /\
  ("r", ["sub"], ["A"; "B"; "C"; "notes.txt"]) ∈
    Example.tree (fs (Example.fresh [])) (root_path (Example.fresh [])) /\
  "r/notes.txt" ∈
    bucket (files (add_files Example.tree "xt" (Example.fresh [])).2) 5.
Proof.
  assert (Hok : (add_files Example.tree "xt" (Example.fresh [])).1 = Ok tt)
    by (vm_compute; reflexivity).
  assert (Hwalked : ("r", ["sub"], ["A"; "B"; "C"; "notes.txt"]) ∈
    Example.tree (fs (Example.fresh [])) (root_path (Example.fresh [])))
    by compute_done.
  split; [exact Hok|]. split; [exact Hwalked|].
  destruct (add_files_bucket_sound Example.tree "xt" (Example.fresh []))
    as (_ & _ & _ & Hcomplete & _).
  destruct (Hcomplete Hok "r" ["sub"] ["A"; "B"; "C"; "notes.txt"]
              "notes.txt" "notes.t" Hwalked ltac:(compute_done) eq_refl)
    as (content & Hcontent & Hin).
  assert (content = "hello") as ->
    by (vm_compute in Hcontent; congruence).
  exact Hin.
Defined.

(** ** More on hashing *)

Lemma first_missing_app (disk : gmap string string) (l1 l2 : list string) :
  first_missing disk (l1 ++ l2) =
  match first_missing disk l1 with
  | Some missing => Some missing
  | None => first_missing disk l2
  end.
Proof.
  unfold first_missing. induction l1 as [|path l1 IH]; [done|].
  cbn [app find]. by destruct (negb (on_disk disk path)).
Qed.

Lemma present_prefix_app (disk : gmap string string) (l1 l2 : list string) :
  present_prefix disk (l1 ++ l2) =
  match first_missing disk l1 with
  | Some _ => present_prefix disk l1
  | None => l1 ++ present_prefix disk l2
  end.
Proof.
  unfold first_missing. induction l1 as [|path l1 IH]; [done|].
  cbn [app find present_prefix]. destruct (on_disk disk path); cbn [negb];
    [|done].
  rewrite IH. by destruct (find _ l1).
Qed.

Lemma forallb_on_disk (disk : gmap string string) (fl : list string) :
  forallb (on_disk disk) fl =
  match first_missing disk fl with Some _ => false | None => true end.
Proof.
  unfold first_missing. induction fl as [|path fl IH]; [done|].
  cbn [forallb find]. by destruct (on_disk disk path).
Qed.

Lemma hash_groups_outcome (md5 : string -> string) (fl : list string)
    (hash_dict : Dict.t string (list string)) (s : State) :
  for_fold fl hash_dict (fun hash_dict file =>
    content ← read_bytes file;
    let hash_value := md5 content in
    mret (Dict.append_at hash_value file hash_dict)) s
  = match first_missing (fs s) fl with
    | None =>
        (Ok (hash_groups md5 (fs s) fl hash_dict),
         set_opened (opened s ++ fl) s)
    | Some missing =>
        (Raise (FileNotFoundError missing),
         set_opened (opened s ++ present_prefix (fs s) fl) s)
    end.
Proof.
  revert hash_dict s. induction fl as [|file fl IH]; intros hash_dict s.
  - cbn. rewrite mret_run. destruct s. cbn. by rewrite app_nil_r.
  - cbn [for_fold first_missing find present_prefix].
    rewrite bind_run, bind_run, read_bytes_run. unfold on_disk at 1 3.
    destruct (fs s !! file) as [content|] eqn:Hfile.
    + rewrite bool_decide_true by done. cbn [negb]. cbv beta iota zeta.
      rewrite mret_run. cbv beta iota. rewrite IH.
      cbn [fs set_opened hash_groups fold_left]. rewrite Hfile.
      cbn [default from_option]. fold (first_missing (fs s) fl).
      destruct (first_missing (fs s) fl); f_equal;
        destruct s; cbn; by rewrite <- app_assoc.
    + rewrite bool_decide_false by (by intros [? ?]). cbn [negb].
      cbv beta iota. f_equal. destruct s. cbn. by rewrite app_nil_r.
Qed.

Lemma add_files_by_hash_value_outcome_loop (md5 : string -> string)
    (its : list (Z * list string)) (s : State) :
  for_each its (fun '(size, files') =>
    hash_dict ← for_fold files' [] (fun hash_dict file =>
      content ← read_bytes file;
      let hash_value := md5 content in
      mret (Dict.append_at hash_value file hash_dict));
    modify (fun s =>
      set_files_by_hash_value
        (Dict.setitem size hash_dict (files_by_hash_value s)) s)) s
  = (match first_missing (fs s) (concat (map snd its)) with
     | None => Ok tt
     | Some missing => Raise (FileNotFoundError missing)
     end,
     hashed (fold_left (hash_bucket md5 (fs s)) (hashed_buckets (fs s) its)
                       (files_by_hash_value s))
            (present_prefix (fs s) (concat (map snd its))) s).
Proof.
  revert s. induction its as [|[size fl] its IH]; intros s.
  - cbn. destruct s. unfold hashed. cbn. by rewrite app_nil_r.
  - unfold for_each in *. cbn [for_fold map concat snd hashed_buckets].
    rewrite bind_run, bind_run, hash_groups_outcome.
    rewrite first_missing_app, present_prefix_app, forallb_on_disk.
    destruct (first_missing (fs s) fl) as [missing|] eqn:Hfl.
    + cbn [fold_left]. by destruct s.
    + cbv beta iota. rewrite modify_run. cbv beta iota. rewrite IH.
      cbn [fs files_by_hash_value set_files_by_hash_value set_opened
           fold_left].
      f_equal. destruct s. unfold hashed. cbn. by rewrite <- app_assoc.
Qed.

(** X8.  [add_files_by_hash_value] reads the indexed files bucket after bucket
    and returns when all of them are on disk; otherwise it ends with an
    uncaught [FileNotFoundError] for the first that is gone.  Either way the
    files read are those before that one, a hash bucket is stored for the
    sizes whose files were all read and for no other, and neither the disk
    nor the size buckets change. *)
Theorem add_files_by_hash_value_outcome (md5 : string -> string) (s : State) :
  let paths := concat (Dict.values (files s)) in
  let s' := (add_files_by_hash_value md5 s).2 in
  (add_files_by_hash_value md5 s).1 =
    match first_missing (fs s) paths with
    | None => Ok tt
    | Some missing => Raise (FileNotFoundError missing)
    end /\
  ((add_files_by_hash_value md5 s).1 = Ok tt <->
   Forall (fun path => is_Some (fs s !! path)) paths) /\
  opened s' = opened s ++ present_prefix (fs s) paths /\
  files_by_hash_value s' =
    fold_left (hash_bucket md5 (fs s))
              (hashed_buckets (fs s) (Dict.items (files s)))
              (files_by_hash_value s) /\
  fs s' = fs s /\ files s' = files s.
Proof.
  intros paths s'. subst s'. unfold add_files_by_hash_value.
  rewrite bind_run, get_run. cbv beta iota.
  rewrite add_files_by_hash_value_outcome_loop.
  unfold Dict.items, Dict.values in *. fold paths. cbn [fst snd].
  split_and!; try done.
  rewrite <- first_missing_None. by destruct (first_missing (fs s) paths).
Qed.

Lemma getitem_append_at {K} `{EqDecision K} (k k' : K) (x : string)
    (d : Dict.t K (list string)) :
  default [] (Dict.getitem k' (Dict.append_at k x d)) =
  default [] (Dict.getitem k' d) ++ (if decide (k = k') then [x] else []).
Proof.
  unfold Dict.append_at. destruct (decide (k = k')) as [->|Hne].
  - by rewrite getitem_setitem_eq.
  - by rewrite getitem_setitem_ne, app_nil_r.
Qed.

Lemma hash_groups_lookup md5 disk (fl : list string)
    (hash_dict : Dict.t string (list string)) (hash_value : string) :
  default [] (Dict.getitem hash_value (hash_groups md5 disk fl hash_dict)) =
  default [] (Dict.getitem hash_value hash_dict) ++
  same_digest md5 disk hash_value fl.
Proof.
  revert hash_dict. induction fl as [|file fl IH]; intros hash_dict.
  - cbn. by rewrite app_nil_r.
  - cbn [hash_groups fold_left same_digest List.filter].
    fold (hash_groups md5 disk fl
            (Dict.append_at (md5 (default "" (disk !! file))) file hash_dict)).
    rewrite IH, getitem_append_at, <- app_assoc. f_equal.
    unfold digest_of, same_digest.
    destruct (decide (md5 (default "" (disk !! file)) = hash_value))
      as [->|Hne].
    + by rewrite String.eqb_refl.
    + by rewrite (proj2 (String.eqb_neq _ _)).
Qed.

Lemma hash_groups_nonempty md5 disk (fl : list string)
    (hash_dict : Dict.t string (list string)) :
  Forall (fun it => it.2 <> []) hash_dict ->
  Forall (fun it => it.2 <> []) (hash_groups md5 disk fl hash_dict).
Proof.
  revert hash_dict. induction fl as [|file fl IH]; intros hash_dict Hne; [done|].
  cbn [hash_groups fold_left]. apply IH. apply Forall_forall.
  intros [k g] Hin. unfold Dict.append_at in Hin.
  apply elem_of_setitem in Hin as [[= -> ->]|Hin].
  - cbn. by destruct (default [] _).
  - rewrite Forall_forall in Hne. by apply (Hne (k, g)).
Qed.

Lemma wf_hash_groups md5 disk (fl : list string)
    (hash_dict : Dict.t string (list string)) :
  Dict.wf hash_dict -> Dict.wf (hash_groups md5 disk fl hash_dict).
Proof.
  revert hash_dict. induction fl as [|file fl IH]; intros hash_dict Hwf; [done|].
  cbn [hash_groups fold_left]. apply IH. by apply wf_setitem.
Qed.

Lemma hash_groups_getitem md5 disk (fl : list string) (hash_value : string) :
  Dict.getitem hash_value (hash_groups md5 disk fl []) =
  match same_digest md5 disk hash_value fl with
  | [] => None
  | group => Some group
  end.
Proof.
  pose proof (hash_groups_lookup md5 disk fl [] hash_value) as Hlookup.
  cbn [Dict.getitem default from_option app] in Hlookup.
  destruct (Dict.getitem hash_value (hash_groups md5 disk fl [])) as [group|]
    eqn:Hget; cbn in Hlookup; rewrite <- Hlookup; [|done].
  apply getitem_Some_elem_of in Hget.
  pose proof (hash_groups_nonempty md5 disk fl [] (Forall_nil_2 _)) as Hne.
  rewrite Forall_forall in Hne. specialize (Hne _ Hget). cbn in Hne.
  by destruct group.
Qed.

(** X9.  After [add_files_by_hash_value] has run with all indexed files on
    disk, the hash bucket of every size groups the files of that size by the
    digest of their content: under a digest it holds exactly the files of the
    size bucket that have this digest, in their order there, and it has no key
    for a digest that no file has.  So two files of one size are in the same
    group exactly when their digests are equal. *)
Theorem hash_buckets_group_by_digest (md5 : string -> string) (s : State)
    (size : Z) (fl : list string) :
  Dict.wf (files s) ->
  Forall (fun it => Forall (fun file => is_Some (fs s !! file)) it.2)
         (Dict.items (files s)) ->
  (size, fl) ∈ Dict.items (files s) ->
  let s' := (add_files_by_hash_value md5 s).2 in
  exists hash_dict : Dict.t string (list string),
    Dict.getitem size (files_by_hash_value s') = Some hash_dict /\
    Dict.wf hash_dict /\
    (forall hash_value : string,
       Dict.getitem hash_value hash_dict =
       match same_digest md5 (fs s) hash_value fl with
       | [] => None
       | group => Some group
       end) /\
    (forall file1 file2 : string,
       file1 ∈ fl -> file2 ∈ fl ->
       (exists hash_value group,
          Dict.getitem hash_value hash_dict = Some group /\
          file1 ∈ group /\ file2 ∈ group) <->
       digest_of md5 (fs s) file1 = digest_of md5 (fs s) file2).
Proof.
  intros Hwf Hon Hbucket s'. subst s'.
  rewrite add_files_by_hash_value_run by done. unfold hashed.
  cbn [snd files_by_hash_value set_files_by_hash_value].
  exists (hash_groups md5 (fs s) fl []).
  assert (Hin : forall hash_value file,
            file ∈ same_digest md5 (fs s) hash_value fl <->
            file ∈ fl /\ digest_of md5 (fs s) file = hash_value).
  { intros hash_value file. unfold same_digest.
    by rewrite list_elem_of_In, filter_In, String.eqb_eq, <- list_elem_of_In. }
  split_and!.
  - by apply hash_bucket_lookup.
  - apply wf_hash_groups. unfold Dict.wf. cbn. apply NoDup_nil_2.
  - apply hash_groups_getitem.
  - intros file1 file2 Hfile1 Hfile2. split.
    + intros (hash_value & group & Hget & Hin1 & Hin2).
      rewrite hash_groups_getitem in Hget.
      assert (group = same_digest md5 (fs s) hash_value fl) as ->.
      { destruct (same_digest md5 (fs s) hash_value fl); congruence. }
      apply Hin in Hin1 as [_ ->]. by apply Hin in Hin2 as [_ ->].
    + intros Hsame.
      exists (digest_of md5 (fs s) file1),
             (same_digest md5 (fs s) (digest_of md5 (fs s) file1) fl).
      assert (Hin1 : file1 ∈ same_digest md5 (fs s)
                                 (digest_of md5 (fs s) file1) fl)
        by (by apply Hin).
      split_and!; [|done|by apply Hin].
      rewrite hash_groups_getitem.
      destruct (same_digest md5 (fs s) (digest_of md5 (fs s) file1) fl);
        [by apply not_elem_of_nil in Hin1 | done].
Qed.

Lemma hash_buckets_group_by_digest_witness :
  Dict.wf (files (add_files Example.tree "" (Example.fresh [])).2) /\
  Forall (fun it =>
            Forall (fun file =>
                      is_Some (fs (add_files Example.tree ""
                                     (Example.fresh [])).2 !! file)) it.2)
         (Dict.items (files (add_files Example.tree "" (Example.fresh [])).2)) /\
  (10, ["r/A"; "r/B"; "r/C"]) ∈
    Dict.items (files (add_files Example.tree "" (Example.fresh [])).2) /\
  Dict.getitem 10
    (files_by_hash_value
       (add_files_by_hash_value Example.digest
          (add_files Example.tree "" (Example.fresh [])).2).2) =
  Some [("xxxxxxxxxx", ["r/A"; "r/B"]); ("yyyyyyyyyy", ["r/C"])].
Proof.
  assert (Hwf : Dict.wf (files (add_files Example.tree "" (Example.fresh [])).2)).
  { unfold Dict.wf. compute_done. }
  assert (Hon : Forall (fun it =>
            Forall (fun file =>
                      is_Some (fs (add_files Example.tree ""
                                     (Example.fresh [])).2 !! file)) it.2)
         (Dict.items (files (add_files Example.tree "" (Example.fresh [])).2)))
    by compute_done.
  assert (Hbucket : (10, ["r/A"; "r/B"; "r/C"]) ∈
    Dict.items (files (add_files Example.tree "" (Example.fresh [])).2)).
  { vm_compute. right. left. }
  split; [exact Hwf|]. split; [exact Hon|]. split; [exact Hbucket|].
  destruct (hash_buckets_group_by_digest Example.digest _ 10
              ["r/A"; "r/B"; "r/C"] Hwf Hon Hbucket)
    as (hash_dict & Hget & _).
  rewrite Hget. f_equal. vm_compute in Hget. congruence.
Defined.

(** ** More on the duplicate sets *)

Lemma setitem_new {K V} `{EqDecision K} (k : K) (v : V) (d : Dict.t K V) :
  k ∉ Dict.keys d -> Dict.setitem k v d = d ++ [(k, v)].
Proof.
  induction d as [|[k' v'] d IH]; [done|]. unfold Dict.keys. cbn.
  intros [Hne Hnotin]%not_elem_of_cons.
  rewrite decide_False by done. f_equal. by apply IH.
Qed.

Lemma setitem_same {K V} `{EqDecision K} (k : K) (v : V) (d : Dict.t K V) :
  Dict.getitem k d = Some v -> Dict.setitem k v d = d.
Proof.
  induction d as [|[k' v'] d IH]; [done|]. cbn.
  destruct (decide (k = k')) as [->|Hne].
  - by intros [= ->].
  - intros Hget. f_equal. by apply IH.
Qed.

Lemma duplicate_groups_from (hash_dict acc : Dict.t string (list string)) :
  NoDup (Dict.keys acc ++ Dict.keys hash_dict) ->
  fold_left (fun d '(hash_value, files') =>
               if (1 <? length files')%nat
               then Dict.setitem hash_value files' d else d)
            hash_dict acc
  = acc ++ large_groups hash_dict.
Proof.
  revert acc. induction hash_dict as [|[k g] hd IH]; intros acc Hnd.
  - cbn. by rewrite app_nil_r.
  - cbn [fold_left large_groups List.filter snd].
    unfold Dict.keys in Hnd. cbn [map fst] in Hnd.
    apply NoDup_app in Hnd as (Hacc & Hdisj & Hhd).
    apply NoDup_cons in Hhd as [Hk Hhd].
    destruct (1 <? length g)%nat.
    + rewrite setitem_new by (intros Hin; apply (Hdisj k Hin); by left).
      rewrite IH.
      * by rewrite <- app_assoc.
      * unfold Dict.keys. rewrite map_app. cbn [map fst].
        apply NoDup_app. split_and!; [|intros k' Hin|done].
        -- apply NoDup_app. split_and!; [done| |apply NoDup_singleton].
           intros k' Hin ->%list_elem_of_singleton.
           apply (Hdisj k Hin). by left.
        -- apply elem_of_app in Hin as [Hin| ->%list_elem_of_singleton];
             [|done].
           intros Hin'. apply (Hdisj k' Hin). by right.
    + apply IH. apply NoDup_app. split_and!; [done| |done].
      intros k' Hin Hin'. apply (Hdisj k' Hin). by right.
Qed.

Lemma duplicate_groups_large (hash_dict : Dict.t string (list string)) :
  Dict.wf hash_dict -> duplicate_groups hash_dict = large_groups hash_dict.
Proof.
  intros Hwf. unfold duplicate_groups, Dict.items.
  by rewrite duplicate_groups_from.
Qed.

Lemma keep_duplicates_other its found (size : Z) :
  size ∉ map fst its ->
  Dict.getitem size (fold_left keep_duplicates its found)
  = Dict.getitem size found.
Proof.
  revert found. induction its as [|[size0 hd0] its IH]; intros found Hnotin;
    [done|].
  cbn in Hnotin. apply not_elem_of_cons in Hnotin as [Hne Hnotin].
  cbn [fold_left]. rewrite IH by done. unfold keep_duplicates. cbn [fst snd].
  destruct (duplicate_groups hd0); [done|]. by apply getitem_setitem_ne.
Qed.

Lemma keep_duplicates_lookup its found (size : Z)
    (hash_dict : Dict.t string (list string)) :
  NoDup (map fst its) -> (size, hash_dict) ∈ its ->
  duplicate_groups hash_dict <> [] ->
  Dict.getitem size (fold_left keep_duplicates its found)
  = Some (duplicate_groups hash_dict).
Proof.
  revert found. induction its as [|[size0 hd0] its IH];
    intros found Hnd Hin Hne.
  - by apply not_elem_of_nil in Hin.
  - cbn in Hnd. apply NoDup_cons in Hnd as [Hnotin Hnd]. cbn [fold_left].
    apply elem_of_cons in Hin as [[= -> ->]|Hin]; [|by apply IH].
    rewrite keep_duplicates_other by done. unfold keep_duplicates.
    cbn [fst snd]. destruct (duplicate_groups hd0) eqn:Hg; [done|].
    apply getitem_setitem_eq.
Qed.

Lemma keep_duplicates_fixed its found :
  (forall size hash_dict,
     (size, hash_dict) ∈ its -> duplicate_groups hash_dict <> [] ->
     Dict.getitem size found = Some (duplicate_groups hash_dict)) ->
  fold_left keep_duplicates its found = found.
Proof.
  induction its as [|[size hd] its IH]; intros Hfound; [done|].
  cbn [fold_left].
  assert (keep_duplicates found (size, hd) = found) as ->.
  { unfold keep_duplicates. cbn [fst snd].
    destruct (duplicate_groups hd) eqn:Hg; [done|].
    apply setitem_same. rewrite <- Hg. apply Hfound; [by left|].
    by rewrite Hg. }
  apply IH. intros size' hd' Hin. apply Hfound. by right.
Qed.

Lemma keep_duplicates_from its found :
  NoDup (Dict.keys found ++ map fst its) ->
  Forall (fun it => Dict.wf it.2) its ->
  fold_left keep_duplicates its found = found ++ duplicate_sets its.
Proof.
  revert found. induction its as [|[size hd] its IH]; intros found Hnd Hwf.
  - cbn. by rewrite app_nil_r.
  - apply Forall_cons in Hwf as [Hhd Hwf]. cbn [snd] in Hhd.
    cbn [map fst] in Hnd. apply NoDup_app in Hnd as (Hfound & Hdisj & Hits).
    apply NoDup_cons in Hits as [Hsize Hits].
    cbn [fold_left duplicate_sets omap list_omap]. unfold keep_duplicates at 2.
    cbn [fst snd]. rewrite duplicate_groups_large by done.
    fold (duplicate_sets its).
    destruct (large_groups hd) as [|g gs] eqn:Hg.
    + apply IH; [|done]. apply NoDup_app. split_and!; [done| |done].
      intros k Hin Hin'. apply (Hdisj k Hin). by right.
    + rewrite setitem_new by (intros Hin; apply (Hdisj size Hin); by left).
      rewrite IH; [by rewrite <- app_assoc| |done].
      unfold Dict.keys. rewrite map_app. cbn [map fst].
      apply NoDup_app. split_and!; [|intros k Hin|done].
      * apply NoDup_app. split_and!; [done| |apply NoDup_singleton].
        intros k Hin ->%list_elem_of_singleton. apply (Hdisj size Hin). by left.
      * apply elem_of_app in Hin as [Hin| ->%list_elem_of_singleton]; [|done].
        intros Hin'. apply (Hdisj k Hin). by right.
Qed.

(** X10.  On a handler whose duplicate-set collection is still empty,
    [add_duplicate_files] builds exactly the duplicate sets of the hash
    buckets: for every size, in the order of the hash buckets, the digest
    groups of two files or more, in their order, and nothing for a size that
    has none.  No group of two files or more is left out. *)
Theorem add_duplicate_files_exact (s : State) :
  Dict.wf (files_by_hash_value s) ->
  Forall (fun it => Dict.wf it.2) (Dict.items (files_by_hash_value s)) ->
  duplicate_files_dict s = [] ->
  let s' := (add_duplicate_files s).2 in
  duplicate_files_dict s' = duplicate_sets (files_by_hash_value s) /\
  (forall (size : Z) (hash_dict : Dict.t string (list string))
          (hash_value : string) (fl : list string),
     (size, hash_dict) ∈ Dict.items (files_by_hash_value s) ->
     (hash_value, fl) ∈ Dict.items hash_dict ->
     (2 <= length fl)%nat ->
     exists inner,
       (size, inner) ∈ Dict.items (duplicate_files_dict s') /\
       (hash_value, fl) ∈ Dict.items inner).
Proof.
  intros Hwf Hinner Hfresh s'. subst s'. rewrite add_duplicate_files_run, Hfresh.
  cbn [snd duplicate_files_dict set_duplicate_files_dict]. unfold Dict.items in *.
  rewrite keep_duplicates_from by (by cbn).
  cbn [app]. split; [done|].
  intros size hd hash_value fl Hsize Hgroup Hlen.
  assert (Hlarge : (hash_value, fl) ∈ large_groups hd).
  { unfold large_groups. apply list_elem_of_In, filter_In.
    split; [by apply list_elem_of_In|]. cbn [snd]. apply Nat.ltb_lt. lia. }
  exists (large_groups hd). split; [|done].
  unfold duplicate_sets. apply list_elem_of_omap. exists (size, hd).
  split; [done|]. cbn [fst snd].
  destruct (large_groups hd) as [|g gs];
    [by apply not_elem_of_nil in Hlarge | done].
Qed.

Lemma add_duplicate_files_exact_witness :
  let hashed_state :=
    (add_files_by_hash_value Example.digest
       (add_files Example.tree "" (Example.fresh [])).2).2 in
  Dict.wf (files_by_hash_value hashed_state) /\
  Forall (fun it => Dict.wf it.2) (Dict.items (files_by_hash_value hashed_state)) /\
  duplicate_files_dict hashed_state = [] /\
  duplicate_files_dict Example.scanned =
    [(20, [("zzzzzzzzzzzzzzzzzzzz", ["r/sub/D"; "r/sub/E"])]);
     (10, [("xxxxxxxxxx", ["r/A"; "r/B"])])].
Proof.
  intros hashed_state.
  assert (Hwf : Dict.wf (files_by_hash_value hashed_state)).
  { unfold Dict.wf. compute_done. }
  assert (Hinner : Forall (fun it => Dict.wf it.2)
                     (Dict.items (files_by_hash_value hashed_state))).
  { unfold Dict.wf. compute_done. }
  assert (Hfresh : duplicate_files_dict hashed_state = [])
    by (vm_compute; reflexivity).
  split; [exact Hwf|]. split; [exact Hinner|]. split; [exact Hfresh|].
  destruct (add_duplicate_files_exact hashed_state Hwf Hinner Hfresh)
    as [Hexact _].
  unfold Example.scanned. fold hashed_state. rewrite Hexact.
  vm_compute. reflexivity.
Defined.

(** X11.  [add_duplicate_files] can be run again without harm: on the same
    hash buckets a second run leaves the duplicate-set collection as the first
    run made it, whatever the collection held before. *)
Theorem add_duplicate_files_idempotent (s : State) :
  Dict.wf (files_by_hash_value s) ->
  add_duplicate_files (add_duplicate_files s).2 = add_duplicate_files s.
Proof.
  intros Hwf. rewrite !add_duplicate_files_run.
  cbn [snd files_by_hash_value duplicate_files_dict set_duplicate_files_dict].
  f_equal. unfold Dict.items.
  rewrite keep_duplicates_fixed; [by destruct s|].
  intros size hd Hin Hne. by apply keep_duplicates_lookup.
Qed.

Lemma add_duplicate_files_idempotent_witness :
  Dict.wf (files_by_hash_value Example.scanned) /\
  add_duplicate_files Example.scanned = (Ok tt, Example.scanned).
Proof.
  assert (Hwf : Dict.wf (files_by_hash_value Example.scanned)).
  { unfold Dict.wf. compute_done. }
  split; [exact Hwf|].
  assert (Hwf' : Dict.wf (files_by_hash_value
            (add_files_by_hash_value Example.digest
               (add_files Example.tree "" (Example.fresh [])).2).2)).
  { unfold Dict.wf. compute_done. }
  unfold Example.scanned at 1.
  rewrite (add_duplicate_files_idempotent _ Hwf').
  vm_compute. reflexivity.
Defined.

(** ** What the session does to the disk *)

Lemma numbered_lines_plain (d : Dict.t Z (list string)) (sizes : list Z) :
  numbered_lines (plain_listing d sizes) = [].
Proof.
  induction sizes as [|size sizes IH]; [done|].
  unfold plain_listing in *. cbn [map concat].
  by rewrite numbered_lines_app, IH.
Qed.

(** A relation between the state before and the state after that holds
    across every piece of code that neither removes a file nor takes anything
    out of the flattened list. *)
Section Harmless.

Variable R : State -> State -> Prop.
Hypothesis R_refl : forall s, R s s.
Hypothesis R_trans : forall s1 s2 s3, R s1 s2 -> R s2 s3 -> R s1 s3.
Hypothesis R_files : forall v s, R s (set_files v s).
Hypothesis R_files_by_hash_value : forall v s, R s (set_files_by_hash_value v s).
Hypothesis R_duplicate_files_dict :
  forall v s, R s (set_duplicate_files_dict v s).
Hypothesis R_stdin : forall v s, R s (set_stdin v s).
Hypothesis R_opened : forall v s, R s (set_opened v s).
Hypothesis R_quiet :
  forall out s, numbered_lines out = [] -> R s (emit out [] s).
Hypothesis R_listing :
  forall index its s, R s (emit (listing index its) (listed_files its) s).

Lemma harmless_for_fold {A B} (xs : list A) (acc : B) (body : B -> A -> M B)
    (s : State) :
  (forall acc x s, R s (body acc x s).2) -> R s (for_fold xs acc body s).2.
Proof.
  intros Hbody. apply (for_fold_invariant (R s)); [|apply R_refl].
  intros acc' x s1 _ Hs1. by apply (R_trans _ s1).
Qed.

Lemma harmless_bind {A B} (m : M A) (f : A -> M B) (s : State) :
  R s (m s).2 -> (forall a s1, R s1 (f a s1).2) -> R s ((m ≫= f) s).2.
Proof.
  intros Hm Hf. rewrite bind_run. destruct (m s) as [[a|e] s1]; cbn [snd] in *.
  - by apply (R_trans _ s1).
  - done.
Qed.

Lemma harmless_print (o : output) (s : State) :
  numbered_lines [o] = [] -> R s (print o s).2.
Proof. intros Ho. rewrite print_emit. by apply R_quiet. Qed.

Lemma harmless_input (message : string) (s : State) : R s (input message s).2.
Proof.
  rewrite input_run. destruct (stdin s); cbn [snd]; [by apply R_quiet|].
  apply (R_trans _ (emit [Prompt message] [] s));
    [by apply R_quiet | apply R_stdin].
Qed.

Lemma harmless_prompt_user_rec (calls : nat)
    (message option_1 option_2 : string) (s : State) :
  R s (prompt_user_rec calls message option_1 option_2 s).2.
Proof.
  revert s. induction calls as [|calls IH]; intros s; cbn [prompt_user_rec];
    (apply harmless_bind; [apply harmless_input|]); intros answer s1;
    (destruct (Dict.getitem answer _); [apply R_refl|]);
    (apply harmless_bind; [by apply harmless_print|]); intros [] s2.
  - apply R_refl.
  - apply IH.
Qed.

Lemma harmless_prompt_user py (message option_1 option_2 : string)
    (s : State) :
  R s (prompt_user py message option_1 option_2 s).2.
Proof. apply harmless_prompt_user_rec. Qed.

Lemma harmless_read_file_numbers py (rounds : nat) (s : State) :
  R s (read_file_numbers py rounds s).2.
Proof.
  revert s. induction rounds as [|rounds IH]; intros s;
    cbn [read_file_numbers];
    (apply harmless_bind; [apply harmless_input|]); intros line s1;
    (destruct (Py.fullmatch_space_digit py line); [apply R_refl|]);
    (apply harmless_bind; [by apply harmless_print|]); intros [] s2.
  - apply R_refl.
  - apply IH.
Qed.

Lemma harmless_add_files os_walk (file_format : string) (s : State) :
  R s (add_files os_walk file_format s).2.
Proof.
  rewrite add_files_run. unfold for_each. apply harmless_for_fold.
  intros [] path s1. unfold index_step. apply harmless_bind.
  - rewrite os_path_getsize_run. destruct (fs s1 !! path); apply R_refl.
  - intros size s2. apply R_files.
Qed.

Lemma harmless_add_files_by_hash_value md5 (s : State) :
  R s (add_files_by_hash_value md5 s).2.
Proof.
  unfold add_files_by_hash_value. rewrite bind_run, get_run. cbv beta iota.
  unfold for_each. apply harmless_for_fold. intros [] [size fl] s1.
  apply harmless_bind.
  - apply harmless_for_fold. intros hd file s2. apply harmless_bind.
    + rewrite read_bytes_run. destruct (fs s2 !! file); [apply R_opened|apply R_refl].
    + intros content s3. apply R_refl.
  - intros hd s2. apply R_files_by_hash_value.
Qed.

Lemma harmless_add_duplicate_files (s : State) :
  R s (add_duplicate_files s).2.
Proof. rewrite add_duplicate_files_run. apply R_duplicate_files_dict. Qed.

Lemma harmless_output_files (reverse : bool) (s : State) :
  R s (output_files reverse s).2.
Proof. rewrite output_files_run. apply R_quiet, numbered_lines_plain. Qed.

Lemma harmless_output_duplicates (reverse : bool) (s : State) :
  R s (output_duplicates reverse s).2.
Proof. rewrite output_duplicates_run. apply R_listing. Qed.

Lemma harmless_scan_and_list md5 os_walk py (s : State) :
  R s (scan_and_list md5 os_walk py s).2.
Proof.
  unfold scan_and_list.
  apply harmless_bind; [apply harmless_input|]. intros file_format s1.
  apply harmless_bind; [apply harmless_add_files|]. intros [] s2.
  apply harmless_bind; [apply harmless_add_files_by_hash_value|]. intros [] s3.
  apply harmless_bind; [apply harmless_add_duplicate_files|]. intros [] s4.
  apply harmless_bind; [apply harmless_prompt_user|]. intros sorting s5.
  apply harmless_bind; [apply harmless_output_files|]. intros [] s6.
  apply R_refl.
Qed.

(** The whole session, given that [delete_files] is harmless too. *)
Lemma harmless_start_file_handler md5 os_walk py (s : State) :
  (forall file_numbers s, R s (delete_files file_numbers s).2) ->
  R s (start_file_handler md5 os_walk py s).2.
Proof.
  intros Hdelete. rewrite start_file_handler_split.
  apply harmless_bind; [apply harmless_scan_and_list|]. intros sorting s1.
  apply harmless_bind; [apply harmless_prompt_user|]. intros delete s2.
  apply harmless_bind; [apply harmless_output_duplicates|]. intros [] s3.
  destruct delete; [|apply R_refl].
  unfold deletion_phase. rewrite bind_run, get_run. cbv beta iota.
  apply harmless_bind; [apply harmless_read_file_numbers|]. intros line s4.
  destruct (mapM (Py.int py) (Py.split py line)); [apply Hdelete|apply R_refl].
Qed.

End Harmless.

Lemma same_disk_refl (s : State) : same_disk s s.
Proof. done. Qed.

Lemma same_disk_trans (s1 s2 s3 : State) :
  same_disk s1 s2 -> same_disk s2 s3 -> same_disk s1 s3.
Proof. unfold same_disk. congruence. Qed.

Lemma prompt_user_rec_true (calls : nat) (message option_1 option_2 : string)
    (s s' : State) :
  prompt_user_rec calls message option_1 option_2 s = (Ok true, s') ->
  option_1 ∈ stdin s.
Proof.
  revert s. induction calls as [|calls IH]; intros s; cbn [prompt_user_rec];
    rewrite bind_run, input_run;
    (destruct (stdin s) as [|line rest] eqn:Hstdin; [done|]);
    cbv beta iota; rewrite option_dict_lookup;
    (destruct (decide (line = option_1 \/ line = option_2)) as [Hvalid|Hwrong];
     [rewrite mret_run; intros [= Htrue _];
      apply bool_decide_eq_true in Htrue as [-> _]; by left|]);
    rewrite bind_run, print_emit; cbv beta iota.
  - done.
  - intros Hrec%IH. right. by destruct s.
Qed.

(** X12.  Nothing that [start_file_handler] does before the deletion phase
    touches the disk, so a session changes the disk only when it got as far as
    the question [Check for duplicates?] and [yes] was among the answers
    still to be read at that point. *)
Theorem disk_changes_only_after_yes (md5 : string -> string)
    (os_walk : gmap string string -> string ->
               list (string * list string * list string))
    (py : Py.t) (s : State) :
  fs (scan_and_list md5 os_walk py s).2 = fs s /\
  (fs (start_file_handler md5 os_walk py s).2 <> fs s ->
   exists (sorting : bool) (s1 s2 : State),
     scan_and_list md5 os_walk py s = (Ok sorting, s1) /\
     prompt_user py check_message "yes" "no" s1 = (Ok true, s2) /\
     "yes" ∈ stdin s1).
Proof.
  assert (Hscan : forall s, same_disk s (scan_and_list md5 os_walk py s).2).
  { intros s0.
    apply harmless_scan_and_list;
      [apply same_disk_refl | apply same_disk_trans | done ..]. }
  assert (Hprompt : forall m o1 o2 s,
            same_disk s (prompt_user py m o1 o2 s).2).
  { intros m o1 o2 s0.
    apply harmless_prompt_user;
      [apply same_disk_refl | apply same_disk_trans | done ..]. }
  assert (Hlist : forall r s, same_disk s (output_duplicates r s).2).
  { intros r s0. apply harmless_output_duplicates. done. }
  split; [apply Hscan|].
  rewrite start_file_handler_split, bind_run.
  pose proof (Hscan s) as Hs1.
  destruct (scan_and_list md5 os_walk py s) as [[sorting|e] s1] eqn:Hscan1;
    cbn [snd] in *; [|done].
  rewrite bind_run. pose proof (Hprompt check_message "yes" "no" s1) as Hs2.
  destruct (prompt_user py check_message "yes" "no" s1) as [[delete|e] s2]
    eqn:Hanswer; cbn [snd] in *; [|intros Hne; by destruct Hne; congruence].
  rewrite bind_run. pose proof (Hlist sorting s2) as Hs3.
  destruct (output_duplicates sorting s2) as [[[]|e] s3]; cbn [snd] in *;
    [|intros Hne; destruct Hne; unfold same_disk in *; congruence].
  destruct delete.
  - intros _. exists sorting, s1, s2. split_and!; [done|done|].
    unfold prompt_user in Hanswer.
    by apply prompt_user_rec_true in Hanswer.
  - rewrite mret_run. cbn [snd]. intros Hne. destruct Hne.
    unfold same_disk in *. congruence.
Qed.

Lemma deleted_only_listed_refl (s : State) : deleted_only_listed s s.
Proof.
  split; [|by left]. exists []. cbn. by rewrite !app_nil_r.
Qed.

Lemma deleted_only_listed_trans (s1 s2 s3 : State) :
  deleted_only_listed s1 s2 -> deleted_only_listed s2 s3 ->
  deleted_only_listed s1 s3.
Proof.
  intros [(out1 & Hout1 & Hdup1) Hfs1] [(out2 & Hout2 & Hdup2) Hfs2]. split.
  - exists (out1 ++ out2).
    rewrite Hout2, Hout1, Hdup2, Hdup1, numbered_lines_app, map_app.
    by rewrite !app_assoc.
  - intros path. destruct (Hfs2 path) as [Hsame|[Hgone Hin]]; [|by right].
    destruct (Hfs1 path) as [Hsame1|[Hgone1 Hin1]].
    + left. congruence.
    + right. split; [congruence|]. rewrite Hdup2. apply elem_of_app. by left.
Qed.

Lemma deleted_only_listed_quiet (out : list output) (s : State) :
  numbered_lines out = [] -> deleted_only_listed s (emit out [] s).
Proof.
  intros Hout. split; [|by left]. exists out. rewrite Hout.
  destruct s. cbn. by rewrite !app_nil_r.
Qed.

Lemma deleted_only_listed_listing (index : Z)
    (its : list (Z * Dict.t string (list string))) (s : State) :
  deleted_only_listed s (emit (listing index its) (listed_files its) s).
Proof.
  split; [|by left]. exists (listing index its).
  rewrite numbered_lines_listing, snd_zip by (rewrite length_seqZ; lia).
  by destruct s.
Qed.

Lemma deleted_only_listed_frame (s s' : State) :
  stdout s' = stdout s -> duplicate_files s' = duplicate_files s ->
  fs s' = fs s -> deleted_only_listed s s'.
Proof.
  intros Hout Hdup Hfs. split; [|left; by rewrite Hfs].
  exists []. cbn. by rewrite !app_nil_r.
Qed.

Lemma delete_files_deleted_only_listed (file_numbers : list Z) (s : State) :
  deleted_only_listed s (delete_files file_numbers s).2.
Proof.
  rewrite delete_files_unfold, bind_run.
  destruct (delete_loop_only_listed file_numbers 0 s)
    as (Hd & Hstdout & Hout & Hany).
  assert (Hloop : deleted_only_listed s
                    (for_fold file_numbers 0 delete_step s).2).
  { split.
    - exists []. cbn. by rewrite !app_nil_r.
    - intros path. destruct (decide (path ∈ duplicate_files s)) as [Hin|Hnotin].
      + destruct (Hany path) as [?|?]; [by left|]. right. by rewrite Hd.
      + left. by apply Hout. }
  destruct (for_fold file_numbers 0 delete_step s) as [[total|e] s1];
    cbn [snd] in *; [|done].
  rewrite print_emit. cbn [snd].
  apply (deleted_only_listed_trans _ s1); [done|].
  by apply deleted_only_listed_quiet.
Qed.

(** X13.  Whatever the arguments, the answers and the directory, [main] never
    creates or changes a file, and it removes a file only if, in this very
    session, it printed the path of the file with an ordinal in the duplicate
    listing. *)
Theorem main_deletes_only_listed (md5 : string -> string)
    (os_walk : gmap string string -> string ->
               list (string * list string * list string))
    (py : Py.t) (argv : list string) (s : State) :
  let s' := (main md5 os_walk py argv s).2 in
  exists out : list output,
    stdout s' = stdout s ++ out /\
    forall path : string,
      fs s' !! path = fs s !! path \/
      (fs s' !! path = None /\ path ∈ map snd (numbered_lines out)).
Proof.
  intros s'. subst s'. unfold main.
  destruct (list_getitem argv 1) as [directory|].
  - rewrite bind_run, modify_run. cbv beta iota.
    assert (Hsession : deleted_only_listed (init directory s)
              (start_file_handler md5 os_walk py (init directory s)).2).
    { apply harmless_start_file_handler;
        [apply deleted_only_listed_refl | apply deleted_only_listed_trans
        | intros; by apply deleted_only_listed_frame ..
        | apply deleted_only_listed_quiet | apply deleted_only_listed_listing
        | apply delete_files_deleted_only_listed]. }
    destruct Hsession as [(out & Hout & Hdup) Hfs]. exists out.
    split; [exact Hout|]. intros path.
    destruct (Hfs path) as [Hsame|[Hgone Hin]]; [by left|]. right.
    split; [done|]. by rewrite Hdup in Hin.
  - rewrite print_emit, emit_out. exists [NoDirectory]. split; [done|].
    intros path. by left.
Qed.

(** ** The scan from end to end *)

Lemma getitem_elem_of_wf {K V} `{EqDecision K} (k : K) (v : V)
    (d : Dict.t K V) :
  Dict.wf d -> (k, v) ∈ d -> Dict.getitem k d = Some v.
Proof.
  unfold Dict.wf. induction d as [|[k' v'] d IH]; intros Hwf Hin.
  - by apply not_elem_of_nil in Hin.
  - cbn in Hwf. apply NoDup_cons in Hwf as [Hnotin Hwf]. cbn.
    apply elem_of_cons in Hin as [[= -> ->]|Hin]; [by rewrite decide_True|].
    rewrite decide_False; [by apply IH|]. intros ->. apply Hnotin.
    apply list_elem_of_fmap. by exists (k', v).
Qed.

Lemma hash_bucket_from md5 disk (its : list (Z * list string))
    (found : Dict.t Z (Dict.t string (list string))) :
  NoDup (Dict.keys found ++ map fst its) ->
  fold_left (hash_bucket md5 disk) its found =
  found ++ map (fun it => (it.1, hash_groups md5 disk it.2 [])) its.
Proof.
  revert found. induction its as [|[size fl] its IH]; intros found Hnd.
  - cbn. by rewrite app_nil_r.
  - cbn [map fst] in Hnd. apply NoDup_app in Hnd as (Hfound & Hdisj & Hits).
    apply NoDup_cons in Hits as [Hsize Hits].
    cbn [fold_left map]. unfold hash_bucket at 2. cbn [fst snd].
    rewrite setitem_new by (intros Hin; apply (Hdisj size Hin); by left).
    rewrite IH; [by rewrite <- app_assoc|].
    unfold Dict.keys. rewrite map_app. cbn [map fst].
    apply NoDup_app. split_and!; [|intros k Hin|done].
    + apply NoDup_app. split_and!; [done| |apply NoDup_singleton].
      intros k Hin ->%list_elem_of_singleton. apply (Hdisj size Hin). by left.
    + apply elem_of_app in Hin as [Hin| ->%list_elem_of_singleton]; [|done].
      intros Hin'. apply (Hdisj k Hin). by right.
Qed.

Lemma elem_of_listed_files (D : Dict.t Z (Dict.t string (list string)))
    (path : string) :
  path ∈ listed_files D <->
  exists size inner hash_value group,
    (size, inner) ∈ D /\ (hash_value, group) ∈ inner /\ path ∈ group.
Proof.
  unfold listed_files, group_files, Dict.values. split.
  - intros Hin%list_elem_of_In%in_concat. destruct Hin as (l & Hl & Hin).
    apply in_map_iff in Hl as ([size inner] & <- & Hsize). cbn [snd] in Hin.
    apply in_concat in Hin as (group & Hg & Hin).
    apply in_map_iff in Hg as ([hash_value group'] & <- & Hgroup).
    exists size, inner, hash_value, group'.
    by rewrite !list_elem_of_In.
  - intros (size & inner & hash_value & group & Hsize & Hgroup & Hin).
    apply list_elem_of_In, in_concat.
    exists (concat (map snd inner)). split.
    + apply in_map_iff. exists (size, inner). split; [done|].
      by apply list_elem_of_In.
    + apply in_concat. exists group. split; [|by apply list_elem_of_In].
      apply in_map_iff. exists (hash_value, group). split; [done|].
      by apply list_elem_of_In.
Qed.

Lemma elem_of_duplicate_sets (H : Dict.t Z (Dict.t string (list string)))
    (size : Z) (inner : Dict.t string (list string)) :
  (size, inner) ∈ duplicate_sets H <->
  exists hash_dict,
    (size, hash_dict) ∈ H /\ inner = large_groups hash_dict /\ inner <> [].
Proof.
  unfold duplicate_sets. rewrite list_elem_of_omap. split.
  - intros ([size' hd] & Hin & Hsome). cbn [fst snd] in Hsome.
    destruct (large_groups hd) as [|g gs] eqn:Hg; [done|].
    injection Hsome as <- <-. exists hd. by rewrite Hg.
  - intros (hd & Hin & -> & Hne). exists (size, hd). split; [done|].
    cbn [fst snd]. by destruct (large_groups hd).
Qed.

Lemma elem_of_large_groups (hash_dict : Dict.t string (list string))
    (hash_value : string) (group : list string) :
  (hash_value, group) ∈ large_groups hash_dict <->
  (hash_value, group) ∈ hash_dict /\ (2 <= length group)%nat.
Proof.
  unfold large_groups.
  rewrite list_elem_of_In, filter_In, <- list_elem_of_In. cbn [snd].
  rewrite Nat.ltb_lt. split; intros [? ?]; split; (done || lia).
Qed.

Lemma elem_of_same_digest md5 disk (hash_value : string) (fl : list string)
    (file : string) :
  file ∈ same_digest md5 disk hash_value fl <->
  file ∈ fl /\ digest_of md5 disk file = hash_value.
Proof.
  unfold same_digest.
  by rewrite list_elem_of_In, filter_In, String.eqb_eq, <- list_elem_of_In.
Qed.

Lemma elem_of_hash_groups md5 disk (fl : list string) (hash_value : string)
    (group : list string) :
  (hash_value, group) ∈ hash_groups md5 disk fl [] <->
  group = same_digest md5 disk hash_value fl /\ group <> [].
Proof.
  assert (Hwf : Dict.wf (hash_groups md5 disk fl [])).
  { apply wf_hash_groups. unfold Dict.wf. cbn. apply NoDup_nil_2. }
  split.
  - intros Hin%(getitem_elem_of_wf _ _ _ Hwf).
    rewrite hash_groups_getitem in Hin.
    destruct (same_digest md5 disk hash_value fl); [done|].
    by injection Hin as <-.
  - intros [-> Hne]. apply getitem_Some_elem_of.
    rewrite hash_groups_getitem.
    by destruct (same_digest md5 disk hash_value fl).
Qed.

(** The files of [paths] that have [size] bytes on [disk]. *)
Lemma elem_of_index_paths (disk : gmap string string) (paths : list string)
    (size : Z) (fl : list string) :
  (size, fl) ∈ index_paths disk paths [] <->
  fl = List.filter (fun path => file_size disk path =? size) paths /\ fl <> [].
Proof.
  assert (Hwf : Dict.wf (index_paths disk paths [])).
  { apply wf_index_paths. unfold Dict.wf. cbn. apply NoDup_nil_2. }
  pose proof (bucket_index_paths disk paths [] size) as Hbucket.
  unfold bucket in Hbucket. cbn [Dict.getitem default from_option app] in Hbucket.
  assert (Hne : Forall (fun it : Z * list string => it.2 <> [])
                       (index_paths disk paths [])).
  { assert (Hgen : forall d : Dict.t Z (list string),
              Forall (fun it => it.2 <> []) d ->
              Forall (fun it => it.2 <> []) (index_paths disk paths d)).
    { clear. induction paths as [|path paths IH]; intros d Hd; [done|].
      cbn [index_paths fold_left]. apply IH. apply Forall_forall.
      intros [k g] Hin. unfold Dict.append_at in Hin.
      apply elem_of_setitem in Hin as [[= -> ->]|Hin].
      - cbn. by destruct (default [] _).
      - rewrite Forall_forall in Hd. by apply (Hd (k, g)). }
    by apply Hgen. }
  split.
  - intros Hin. pose proof (getitem_elem_of_wf _ _ _ Hwf Hin) as Hget.
    rewrite Hget in Hbucket. cbn in Hbucket. split; [done|].
    rewrite Forall_forall in Hne. by apply (Hne _ Hin).
  - intros [-> Hnonempty]. apply getitem_Some_elem_of.
    destruct (Dict.getitem size (index_paths disk paths [])) as [fl|];
      cbn in Hbucket; [by rewrite Hbucket|].
    by rewrite <- Hbucket in Hnonempty.
Qed.

Lemma scan_run md5 os_walk (file_format : string) (s : State) :
  let paths := matching_paths (os_walk (fs s) (root_path s)) file_format in
  let found := index_paths (fs s) paths [] in
  let hashes := map (fun it => (it.1, hash_groups md5 (fs s) it.2 [])) found in
  files s = [] -> files_by_hash_value s = [] -> duplicate_files_dict s = [] ->
  Forall (fun path => is_Some (fs s !! path)) paths ->
  scan md5 os_walk file_format s =
  (Ok tt,
   set_duplicate_files_dict (duplicate_sets hashes)
     (hashed hashes (concat (Dict.values found)) (set_files found s))).
Proof.
  intros paths F hashes Hfiles Hfbh Hdfd Hon. unfold scan.
  rewrite bind_run, add_files_run. fold paths.
  rewrite index_paths_run, (proj2 (first_missing_None _ _) Hon), Hfiles.
  cbv beta iota. fold F.
  assert (HwfF : Dict.wf F).
  { apply wf_index_paths. unfold Dict.wf. cbn. apply NoDup_nil_2. }
  assert (HonF : Forall (fun it : Z * list string =>
                   Forall (fun file => is_Some (fs s !! file)) it.2) F).
  { apply Forall_forall. intros [size fl] [-> _]%elem_of_index_paths.
    cbn [snd]. apply Forall_forall. intros file Hin.
    apply list_elem_of_In, filter_In in Hin as [Hin%list_elem_of_In _].
    rewrite Forall_forall in Hon. by apply Hon. }
  rewrite bind_run, add_files_by_hash_value_run by done.
  cbv beta iota. cbn [fs files files_by_hash_value set_files]. rewrite Hfbh.
  unfold Dict.items. rewrite hash_bucket_from by (by cbn).
  cbn [app]. fold hashes. rewrite add_duplicate_files_run. unfold hashed.
  cbn [fst snd files_by_hash_value duplicate_files_dict
       set_files_by_hash_value set_duplicate_files_dict set_opened set_files].
  rewrite Hdfd. unfold Dict.items.
  rewrite keep_duplicates_from; [done| |].
  - cbn [Dict.keys map app]. unfold hashes. rewrite map_map. cbn [fst].
    exact HwfF.
  - apply Forall_map. apply Forall_forall. intros it _. cbn [snd].
    apply wf_hash_groups. unfold Dict.wf. cbn. apply NoDup_nil_2.
Qed.

(** X14.  On a handler just built, when the files whose names end with the
    filter are all on disk, the three scanning steps return, and the paths
    that end up in the duplicate sets are exactly the matching paths that
    have at least one twin: the walk holds two entries or more with the same
    size and the same digest as theirs. *)
Theorem scan_finds_exactly_the_duplicates (md5 : string -> string)
    (os_walk : gmap string string -> string ->
               list (string * list string * list string))
    (file_format : string) (s : State) :
  let paths := matching_paths (os_walk (fs s) (root_path s)) file_format in
  let s' := (scan md5 os_walk file_format s).2 in
  files s = [] -> files_by_hash_value s = [] -> duplicate_files_dict s = [] ->
  Forall (fun path => is_Some (fs s !! path)) paths ->
  (scan md5 os_walk file_format s).1 = Ok tt /\
  (forall path : string,
     path ∈ listed_files (Dict.items (duplicate_files_dict s')) <->
     path ∈ paths /\ (2 <= length (twins md5 (fs s) paths path))%nat).
Proof.
  intros paths s' Hfiles Hfbh Hdfd Hon. subst s'.
  rewrite scan_run by done. fold paths. cbn [fst snd]. split; [done|].
  cbn [duplicate_files_dict set_duplicate_files_dict]. intros path.
  unfold Dict.items. rewrite elem_of_listed_files. split.
  - intros (size & inner & hash_value & group & Hsize & Hgroup & Hin).
    apply elem_of_duplicate_sets in Hsize as (hd & Hhd & -> & _).
    apply list_elem_of_fmap in Hhd as ([size' fl] & [= -> ->] & Hfl).
    cbn [fst snd] in *. apply elem_of_index_paths in Hfl as [-> _].
    apply elem_of_large_groups in Hgroup as [Hgroup Hlen].
    apply elem_of_hash_groups in Hgroup as [-> _].
    apply elem_of_same_digest in Hin as Hin'. destruct Hin' as [Hpath <-].
    apply list_elem_of_In, filter_In in Hpath as [Hpath Hsize].
    apply Z.eqb_eq in Hsize. subst size'.
    split; [by apply list_elem_of_In | exact Hlen].
  - intros [Hpath Hlen]. unfold twins in Hlen.
    set (size := file_size (fs s) path) in *.
    set (fl := List.filter (fun other => file_size (fs s) other =? size) paths)
      in *.
    set (group := same_digest md5 (fs s) (digest_of md5 (fs s) path) fl) in *.
    assert (Hfl : path ∈ fl).
    { apply list_elem_of_In, filter_In. split; [by apply list_elem_of_In|].
      apply Z.eqb_refl. }
    assert (Hin : path ∈ group) by (by apply elem_of_same_digest).
    assert (Hlarge : (digest_of md5 (fs s) path, group) ∈
                     large_groups (hash_groups md5 (fs s) fl [])).
    { apply elem_of_large_groups. split; [|done].
      apply elem_of_hash_groups. split; [done|].
      intros Hnil. rewrite Hnil in Hin. by apply not_elem_of_nil in Hin. }
    exists size, (large_groups (hash_groups md5 (fs s) fl [])),
           (digest_of md5 (fs s) path), group.
    split_and!; [|done|done].
    apply elem_of_duplicate_sets. exists (hash_groups md5 (fs s) fl []).
    split_and!; [|done|].
    + apply list_elem_of_fmap. exists (size, fl). split; [done|].
      apply elem_of_index_paths. split; [done|].
      intros Hnil. rewrite Hnil in Hfl. by apply not_elem_of_nil in Hfl.
    + intros Hnil. rewrite Hnil in Hlarge. by apply not_elem_of_nil in Hlarge.
Qed.

Lemma scan_finds_exactly_the_duplicates_witness :
  files (Example.fresh []) = [] /\
  files_by_hash_value (Example.fresh []) = [] /\
  duplicate_files_dict (Example.fresh []) = [] /\
  Forall (fun path => is_Some (fs (Example.fresh []) !! path))
    (matching_paths
       (Example.tree (fs (Example.fresh [])) (root_path (Example.fresh []))) "") /\
  (scan Example.digest Example.tree "" (Example.fresh [])).1 = Ok tt /\
  "r/C" ∉ listed_files
            (Dict.items (duplicate_files_dict
               (scan Example.digest Example.tree "" (Example.fresh [])).2)).
Proof.
  assert (Hon : Forall (fun path => is_Some (fs (Example.fresh []) !! path))
    (matching_paths
       (Example.tree (fs (Example.fresh [])) (root_path (Example.fresh [])))
       "")) by compute_done.
  split; [reflexivity|]. split; [reflexivity|]. split; [reflexivity|].
  split; [exact Hon|].
  destruct (scan_finds_exactly_the_duplicates Example.digest Example.tree ""
              (Example.fresh []) eq_refl eq_refl eq_refl Hon) as [Hok Hiff].
  split; [exact Hok|]. intros [_ Hlen]%Hiff. vm_compute in Hlen. lia.
Defined.

Lemma concat_values_append_at {K} `{EqDecision K} (k : K) (x : string)
    (d : Dict.t K (list string)) :
  concat (Dict.values (Dict.append_at k x d)) ≡ₚ concat (Dict.values d) ++ [x].
Proof.
  unfold Dict.append_at. induction d as [|[k' v] d IH].
  - done.
  - cbn [Dict.getitem Dict.setitem]. destruct (decide (k = k')) as [->|Hne].
    + cbn. rewrite <- !app_assoc. f_equiv. apply Permutation_app_comm.
    + cbn [Dict.values map concat snd] in *. rewrite IH.
      by rewrite app_assoc.
Qed.

Lemma index_paths_Permutation (disk : gmap string string)
    (paths : list string) (d : Dict.t Z (list string)) :
  concat (Dict.values (index_paths disk paths d)) ≡ₚ
  concat (Dict.values d) ++ paths.
Proof.
  unfold index_paths. revert d.
  induction paths as [|path paths IH]; intros d.
  - by rewrite app_nil_r.
  - cbn [fold_left]. rewrite IH, concat_values_append_at.
    by rewrite <- app_assoc.
Qed.

Lemma hash_groups_Permutation md5 (disk : gmap string string)
    (fl : list string) (hash_dict : Dict.t string (list string)) :
  group_files (hash_groups md5 disk fl hash_dict) ≡ₚ
  group_files hash_dict ++ fl.
Proof.
  unfold hash_groups, group_files. revert hash_dict.
  induction fl as [|file fl IH]; intros hash_dict.
  - by rewrite app_nil_r.
  - cbn [fold_left]. rewrite IH, concat_values_append_at.
    by rewrite <- app_assoc.
Qed.

Lemma listed_files_hashes md5 (disk : gmap string string)
    (found : Dict.t Z (list string)) :
  listed_files (map (fun it => (it.1, hash_groups md5 disk it.2 [])) found) ≡ₚ
  concat (Dict.values found).
Proof.
  unfold listed_files. induction found as [|[size fl] found IH]; [done|].
  cbn [map concat fst snd Dict.values] in *.
  by rewrite IH, hash_groups_Permutation.
Qed.

Lemma group_files_large_groups (hash_dict : Dict.t string (list string)) :
  group_files (large_groups hash_dict) `sublist_of` group_files hash_dict.
Proof.
  unfold group_files, large_groups, Dict.values.
  induction hash_dict as [|[hash_value fl] hash_dict IH]; [done|].
  cbn [List.filter snd]. destruct (1 <? length fl)%nat; cbn [map concat snd].
  - by apply sublist_app.
  - by apply sublist_inserts_l.
Qed.

Lemma listed_files_duplicate_sets
    (found : Dict.t Z (Dict.t string (list string))) :
  listed_files (duplicate_sets found) `sublist_of` listed_files found.
Proof.
  unfold listed_files, duplicate_sets.
  induction found as [|[size hash_dict] found IH]; [done|].
  cbn [omap list_omap map concat fst snd].
  pose proof (group_files_large_groups hash_dict) as Hsub.
  destruct (large_groups hash_dict) as [|group groups] eqn:Hlarge.
  - by apply sublist_inserts_l.
  - cbn [map concat fst snd]. by apply sublist_app.
Qed.

(** X15.  On a handler just built, when the files whose names end with the
    filter are all on disk, the scan loses no file and invents none: the size
    buckets together hold the matching paths, each as often as the walk
    lists it, and so do the digest groups; every indexed file is read once,
    bucket after bucket; and the duplicate sets hold files of the digest
    groups, in their order.  So, when the walk lists no path twice, the
    duplicate listing that follows gives no file two ordinals. *)
Theorem scan_keeps_every_file_once (md5 : string -> string)
    (os_walk : gmap string string -> string ->
               list (string * list string * list string))
    (file_format : string) (reverse : bool) (s : State) :
  let paths := matching_paths (os_walk (fs s) (root_path s)) file_format in
  let s' := (scan md5 os_walk file_format s).2 in
  files s = [] -> files_by_hash_value s = [] -> duplicate_files_dict s = [] ->
  Forall (fun path => is_Some (fs s !! path)) paths ->
  concat (Dict.values (files s')) ≡ₚ paths /\
  opened s' = opened s ++ concat (Dict.values (files s')) /\
  listed_files (Dict.items (files_by_hash_value s')) ≡ₚ paths /\
  listed_files (Dict.items (duplicate_files_dict s')) `sublist_of`
    listed_files (Dict.items (files_by_hash_value s')) /\
  (NoDup paths -> duplicate_files s = [] ->
   NoDup (duplicate_files (output_duplicates reverse s').2)).
Proof.
  intros paths s' Hfiles Hfbh Hdfd Hon. subst s'.
  rewrite scan_run by done. fold paths. cbn [snd].
  set (found := index_paths (fs s) paths []).
  set (hashes := map (fun it => (it.1, hash_groups md5 (fs s) it.2 [])) found).
  unfold hashed.
  cbn [files files_by_hash_value duplicate_files_dict opened
       set_duplicate_files_dict set_files_by_hash_value set_opened set_files].
  unfold Dict.items.
  assert (Hfound : concat (Dict.values found) ≡ₚ paths)
    by apply (index_paths_Permutation _ _ []).
  assert (Hhashes : listed_files hashes ≡ₚ paths).
  { unfold hashes. by rewrite listed_files_hashes. }
  split_and!; [done|done|done|apply listed_files_duplicate_sets|].
  intros Hnd Hflat. rewrite output_duplicates_run. cbn [snd].
  unfold emit.
  cbn [duplicate_files duplicate_files_dict set_stdout set_duplicate_files
       set_duplicate_files_dict set_files_by_hash_value set_opened set_files].
  rewrite Hflat. cbn [app]. unfold Dict.items.
  rewrite (listed_files_Permutation _ _ (sorted_Permutation _ _ _)).
  apply (sublist_NoDup _ (listed_files hashes));
    [by rewrite Hhashes | apply listed_files_duplicate_sets].
Qed.

Lemma scan_keeps_every_file_once_witness :
  files (Example.fresh []) = [] /\
  files_by_hash_value (Example.fresh []) = [] /\
  duplicate_files_dict (Example.fresh []) = [] /\
  Forall (fun path => is_Some (fs (Example.fresh []) !! path))
    (matching_paths
       (Example.tree (fs (Example.fresh [])) (root_path (Example.fresh [])))
       "") /\
  NoDup (duplicate_files
           (output_duplicates true
              (scan Example.digest Example.tree "" (Example.fresh [])).2).2).
Proof.
  assert (Hon : Forall (fun path => is_Some (fs (Example.fresh []) !! path))
    (matching_paths
       (Example.tree (fs (Example.fresh [])) (root_path (Example.fresh [])))
       "")) by compute_done.
  split; [reflexivity|]. split; [reflexivity|]. split; [reflexivity|].
  split; [exact Hon|].
  destruct (scan_keeps_every_file_once Example.digest Example.tree "" true
              (Example.fresh []) eq_refl eq_refl eq_refl Hon)
    as (_ & _ & _ & _ & Hnd).
  apply Hnd; [compute_done | reflexivity].
Defined.

(** ** More on the plain listing *)

Lemma file_lines_plain (d : Dict.t Z (list string)) (sizes : list Z) :
  file_lines (plain_listing d sizes) = concat (map (bucket d) sizes).
Proof.
  unfold file_lines, plain_listing.
  induction sizes as [|size sizes IH]; [done|].
  cbn [map concat app omap list_omap]. by rewrite IH.
Qed.

Lemma concat_map_Permutation {A B} (f : A -> list B) (l l' : list A) :
  l ≡ₚ l' -> concat (map f l) ≡ₚ concat (map f l').
Proof.
  induction 1 as [|x l l' _ IH|x y l|l1 l2 l3 _ IH1 _ IH2]; simpl.
  - done.
  - by rewrite IH.
  - rewrite !app_assoc. f_equiv. apply Permutation_app_comm.
  - by rewrite IH1.
Qed.

Lemma buckets_of_keys (d : Dict.t Z (list string)) :
  Dict.wf d -> map (bucket d) (Dict.keys d) = Dict.values d.
Proof.
  unfold Dict.wf, Dict.keys, Dict.values, bucket.
  induction d as [|[size fl] d IH]; [done|].
  cbn [map fst snd]. intros [Hnotin Hnd]%NoDup_cons.
  cbn [Dict.getitem]. rewrite decide_True by done. cbn [default]. f_equal.
  rewrite <- IH by done. apply map_ext_in. intros size' Hin%list_elem_of_In.
  rewrite decide_False; [done|]. by intros ->.
Qed.

(** X16.  [output_files] returns and changes nothing but the output; when the
    keys of the size buckets are pairwise different, as those of a Python
    dictionary are, its file lines show every indexed file, each as often as
    it is indexed, and it prints no ordinal. *)
Theorem output_files_shows_every_file (reverse : bool) (s : State) :
  Dict.wf (files s) ->
  exists printed : list output,
    output_files reverse s = (Ok tt, set_stdout (stdout s ++ printed) s) /\
    file_lines printed ≡ₚ concat (Dict.values (files s)) /\
    numbered_lines printed = [].
Proof.
  intros Hwf.
  exists (plain_listing (files s) (sorted id reverse (Dict.keys (files s)))).
  rewrite output_files_run, emit_out. split_and!.
  - done.
  - rewrite file_lines_plain.
    rewrite (concat_map_Permutation _ _ _ (sorted_Permutation _ _ _)).
    by rewrite buckets_of_keys.
  - apply numbered_lines_plain.
Qed.

Lemma output_files_shows_every_file_witness :
  Dict.wf (files Example.scanned) /\
  exists printed : list output,
    output_files true Example.scanned =
      (Ok tt, set_stdout (stdout Example.scanned ++ printed) Example.scanned) /\
    file_lines printed ≡ₚ concat (Dict.values (files Example.scanned)) /\
    numbered_lines printed = [].
Proof.
  assert (Hwf : Dict.wf (files Example.scanned)) by compute_done.
  split; [exact Hwf|].
  exact (output_files_shows_every_file true Example.scanned Hwf).
Defined.

(** ** Listing, then deleting *)

(** X17.  Listing, then deleting.  After a duplicate listing on a handler
    whose flattened list was empty, deleting the ordinal printed next to a
    file that is on disk removes that very file and no other, and reports
    its size as the space freed. *)
Theorem listed_ordinal_deletes_its_file (reverse : bool) (s : State)
    (k : Z) (file : string) :
  let s1 := (output_duplicates reverse s).2 in
  duplicate_files s = [] ->
  (k, file) ∈ numbered_lines (drop (length (stdout s)) (stdout s1)) ->
  is_Some (fs s !! file) ->
  delete_files [k] s1 =
    (Ok tt,
     set_stdout (stdout s1 ++ [TotalLine (file_size (fs s) file)])
                (set_fs (delete file (fs s)) s1)).
Proof.
  intros s1 Hnil Hk Hon. subst s1. revert Hk.
  rewrite output_duplicates_run. cbn [snd].
  set (its := sorted fst reverse (Dict.items (duplicate_files_dict s))).
  set (s1 := emit (listing 1 its) (listed_files its) s).
  assert (Hout : stdout s1 = stdout s ++ listing 1 its) by (by destruct s).
  assert (Hdup : duplicate_files s1 = listed_files its).
  { subst s1. destruct s. cbn in *. by subst. }
  assert (Hfs : fs s1 = fs s) by (by destruct s).
  rewrite Hout, drop_app_length, numbered_lines_listing.
  intros [i Hi]%list_elem_of_lookup.
  apply lookup_zip_with_Some in Hi as (k' & file' & [= <- <-] & Hk & Hf).
  apply lookup_seqZ in Hk as [-> _].
  assert (Hget : list_getitem (duplicate_files s1) (1 + Z.of_nat i - 1)
                 = Some file).
  { rewrite Hdup. unfold list_getitem.
    rewrite (proj2 (Z.leb_le _ _)) by lia.
    by replace (Z.to_nat (1 + Z.of_nat i - 1)) with i by lia. }
  assert (Htargets : targets (duplicate_files s1) [1 + Z.of_nat i] = [file]).
  { unfold targets. cbn [omap list_omap]. by rewrite Hget. }
  rewrite delete_files_unfold, bind_run, delete_loop_ok; rewrite Htargets.
  - cbv beta iota. rewrite print_emit, emit_out.
    cbn [freed_bytes remove_all fold_left]. rewrite Hfs.
    replace (0 + (file_size (fs s) file + 0)) with (file_size (fs s) file)
      by lia.
    by rewrite <- Hout.
  - apply NoDup_singleton.
  - apply Forall_singleton. by rewrite Hfs.
Qed.

Lemma listed_ordinal_deletes_its_file_witness :
  duplicate_files Example.scanned = [] /\
  (3, "r/sub/D") ∈
    numbered_lines (drop (length (stdout Example.scanned)) (stdout listed)) /\
  is_Some (fs Example.scanned !! "r/sub/D") /\
  (delete_files [3] listed).1 = Ok tt /\
  fs (delete_files [3] listed).2 !! "r/sub/D" = None /\
  fs (delete_files [3] listed).2 !! "r/sub/E" = Some "zzzzzzzzzzzzzzzzzzzz".
Proof.
  assert (Hprinted : (3, "r/sub/D") ∈
    numbered_lines (drop (length (stdout Example.scanned)) (stdout listed)))
    by compute_done.
  assert (Hon : is_Some (fs Example.scanned !! "r/sub/D")) by compute_done.
  split; [reflexivity|]. split; [exact Hprinted|]. split; [exact Hon|].
  unfold listed.
  rewrite (listed_ordinal_deletes_its_file false Example.scanned 3 "r/sub/D"
             eq_refl Hprinted Hon).
  split; [reflexivity|]. split; vm_compute; reflexivity.
Defined.

(** ** Whole sessions *)

Lemma State_eq (s1 s2 : State) :
  root_path s1 = root_path s2 ->
  files s1 = files s2 ->
  files_by_hash_value s1 = files_by_hash_value s2 ->
  duplicate_files_dict s1 = duplicate_files_dict s2 ->
  duplicate_files s1 = duplicate_files s2 ->
  fs s1 = fs s2 ->
  stdin s1 = stdin s2 ->
  stdout s1 = stdout s2 ->
  opened s1 = opened s2 ->
  s1 = s2.
Proof. destruct s1, s2. cbn. by intros -> -> -> -> -> -> -> -> ->. Qed.

Lemma scan_then {A} md5 os_walk (file_format : string) (k : M A) (s : State) :
  (add_files os_walk file_format;;
   add_files_by_hash_value md5;;
   add_duplicate_files;;
   k) s =
  (scan md5 os_walk file_format;; k) s.
Proof.
  unfold scan. rewrite !bind_run.
  destruct (add_files os_walk file_format s) as [[[]|e] s1]; [|done].
  rewrite !bind_run.
  destruct (add_files_by_hash_value md5 s1) as [[[]|e] s2]; [|done].
  reflexivity.
Qed.

Lemma main_listed md5 os_walk py (argv : list string)
    (directory file_format answer1 answer2 : string)
    (wrong1 wrong2 rest : list string) (s : State) :
  let paths := matching_paths (os_walk (fs s) directory) file_format in
  let reverse := bool_decide (answer1 = "1") in
  list_getitem argv 1 = Some directory ->
  stdin s = file_format :: wrong1 ++ answer1 :: wrong2 ++ answer2 :: rest ->
  Forall (fun w => w <> "1" /\ w <> "2") wrong1 ->
  answer1 = "1" \/ answer1 = "2" ->
  Forall (fun w => w <> "yes" /\ w <> "no") wrong2 ->
  answer2 = "yes" \/ answer2 = "no" ->
  (length wrong1 <= Py.recursion_depth py)%nat ->
  (length wrong2 <= Py.recursion_depth py)%nat ->
  Forall (fun path => is_Some (fs s !! path)) paths ->
  main md5 os_walk py argv s =
  (if bool_decide (answer2 = "yes") then deletion_phase py else mret tt)
    (session_listed md5 directory paths reverse rest
       (session_output md5 (fs s) paths reverse wrong1 wrong2) s).
Proof.
  intros paths reverse Hargv Hstdin Hwrong1 Hanswer1 Hwrong2 Hanswer2
    Hdepth1 Hdepth2 Hon.
  unfold main. rewrite Hargv, bind_run, modify_run. cbv beta iota.
  unfold start_file_handler.
  rewrite bind_run, input_run.
  replace (stdin (init directory s)) with (stdin s) by (by destruct s).
  rewrite Hstdin. cbv beta iota.
  set (s1 := set_stdin _ _).
  assert (Hfs1 : fs s1 = fs s) by (by destruct s).
  assert (Hroot1 : root_path s1 = directory) by (by destruct s).
  rewrite scan_then, bind_run, scan_run;
    rewrite ?Hfs1, ?Hroot1; try done.
  cbv beta iota. fold paths.
  set (found := index_paths (fs s) paths []).
  set (hashes := map (fun it => (it.1, hash_groups md5 (fs s) it.2 [])) found).
  set (s2 := set_duplicate_files_dict _ _).
  rewrite bind_run.
  rewrite (prompt_user_run py _ _ _ answer1 wrong1
             (wrong2 ++ answer2 :: rest));
    [|by destruct s|done|done|done].
  cbv beta iota.
  replace (bool_decide (answer1 = "1" /\ "1" <> "2")) with reverse
    by (apply bool_decide_ext; split; [done|by intros []]).
  rewrite bind_run, output_files_run. cbv beta iota.
  rewrite bind_run.
  rewrite (prompt_user_run py _ _ _ answer2 wrong2 rest);
    [|by destruct s|done|done|done].
  cbv beta iota.
  replace (bool_decide (answer2 = "yes" /\ "yes" <> "no"))
    with (bool_decide (answer2 = "yes"))
    by (apply bool_decide_ext; split; [done|by intros []]).
  rewrite bind_run, output_duplicates_run. cbv beta iota.
  match goal with
  | |- _ ?final = _ =>
      replace final with
        (session_listed md5 directory paths reverse rest
           (session_output md5 (fs s) paths reverse wrong1 wrong2) s)
  end; [reflexivity|].
  subst s2 s1. apply State_eq; try reflexivity.
  unfold session_listed, session_output, hashed, emit.
  cbn [stdout set_stdout set_stdin set_duplicate_files set_files
       set_duplicate_files_dict set_files_by_hash_value set_opened init].
  rewrite !app_nil_r, <- !app_assoc. reflexivity.
Qed.

Lemma elem_of_targets (flat : list string) (file_numbers : list Z)
    (file : string) :
  file ∈ targets flat file_numbers -> file ∈ flat.
Proof.
  unfold targets. intros (num & _ & Hnum)%list_elem_of_omap.
  by apply list_getitem_elem_of in Hnum.
Qed.

(** The paths of a duplicate listing are paths of the walk. *)
Lemma listed_sets_paths md5 (disk : gmap string string) (paths : list string)
    (reverse : bool) (file : string) :
  file ∈ listed_files
           (sorted fst reverse
              (duplicate_sets
                 (map (fun it => (it.1, hash_groups md5 disk it.2 []))
                      (index_paths disk paths [])))) ->
  file ∈ paths.
Proof.
  rewrite (listed_files_Permutation _ _ (sorted_Permutation _ _ _)).
  intros Hin.
  pose proof (listed_files_duplicate_sets
                (map (fun it => (it.1, hash_groups md5 disk it.2 []))
                     (index_paths disk paths []))) as Hsub.
  apply (elem_of_sublist _ _ _ Hin) in Hsub.
  rewrite listed_files_hashes in Hsub.
  by rewrite (index_paths_Permutation disk paths []) in Hsub.
Qed.

(** X18.  A whole session without deletion.  [main] is given a directory, the
    files whose names end with the filter entered are on disk, the user
    answers the question for the sorting after some wrong answers, and then,
    after some more, answers [no]; before neither answer are the wrong ones
    more than the calls of itself that the interpreter allows [prompt_user].
    The session returns; it has read the lines up to that [no], printed the
    prompts, the complaints, the plain listing and the duplicate listing, in
    this order, built the buckets and the duplicate sets from the matching
    paths, and left the disk as it was. *)
Theorem session_without_deletion (md5 : string -> string)
    (os_walk : gmap string string -> string ->
               list (string * list string * list string))
    (py : Py.t) (argv : list string) (directory file_format answer : string)
    (wrong1 wrong2 rest : list string) (s : State) :
  let paths := matching_paths (os_walk (fs s) directory) file_format in
  let reverse := bool_decide (answer = "1") in
  list_getitem argv 1 = Some directory ->
  stdin s = file_format :: wrong1 ++ answer :: wrong2 ++ "no" :: rest ->
  Forall (fun w => w <> "1" /\ w <> "2") wrong1 ->
  answer = "1" \/ answer = "2" ->
  Forall (fun w => w <> "yes" /\ w <> "no") wrong2 ->
  (length wrong1 <= Py.recursion_depth py)%nat ->
  (length wrong2 <= Py.recursion_depth py)%nat ->
  Forall (fun path => is_Some (fs s !! path)) paths ->
  main md5 os_walk py argv s =
  (Ok tt,
   session_listed md5 directory paths reverse rest
     (session_output md5 (fs s) paths reverse wrong1 wrong2) s).
Proof.
  intros paths reverse Hargv Hstdin Hwrong1 Hanswer Hwrong2 Hdepth1 Hdepth2
    Hon.
  by rewrite (main_listed md5 os_walk py argv directory file_format answer
                "no" wrong1 wrong2 rest s Hargv Hstdin Hwrong1 Hanswer
                Hwrong2 (or_intror eq_refl) Hdepth1 Hdepth2 Hon).
Qed.

Lemma session_without_deletion_witness :
  list_getitem ["handler.py"; "r"] 1 = Some "r" /\
  stdin before_no = "" :: ["3"] ++ "2" :: ["maybe"] ++ "no" :: ["x"] /\
  Forall (fun w => w <> "1" /\ w <> "2") ["3"] /\
  Forall (fun w => w <> "yes" /\ w <> "no") ["maybe"] /\
  (length ["3"] <= Py.recursion_depth Example.python)%nat /\
  (length ["maybe"] <= Py.recursion_depth Example.python)%nat /\
  Forall (fun path => is_Some (fs before_no !! path))
    (matching_paths (Example.tree (fs before_no) "r") "") /\
  (main Example.digest Example.tree Example.python ["handler.py"; "r"]
        before_no).1 = Ok tt /\
  stdin (main Example.digest Example.tree Example.python ["handler.py"; "r"]
              before_no).2 = ["x"] /\
  duplicate_files
    (main Example.digest Example.tree Example.python ["handler.py"; "r"]
          before_no).2
    = ["r/A"; "r/B"; "r/sub/D"; "r/sub/E"].
Proof.
  assert (Hwrong1 : Forall (fun w => w <> "1" /\ w <> "2") ["3"])
    by (repeat constructor; discriminate).
  assert (Hwrong2 : Forall (fun w => w <> "yes" /\ w <> "no") ["maybe"])
    by (repeat constructor; discriminate).
  assert (Hon : Forall (fun path => is_Some (fs before_no !! path))
            (matching_paths (Example.tree (fs before_no) "r") ""))
    by compute_done.
  assert (Hdepth1 : (length ["3"] <= Py.recursion_depth Example.python)%nat)
    by (cbn; lia).
  assert (Hdepth2 : (length ["maybe"] <=
                     Py.recursion_depth Example.python)%nat) by (cbn; lia).
  split; [reflexivity|]. split; [reflexivity|]. split; [exact Hwrong1|].
  split; [exact Hwrong2|]. split; [exact Hdepth1|]. split; [exact Hdepth2|].
  split; [exact Hon|].
  rewrite (session_without_deletion Example.digest Example.tree Example.python
             ["handler.py"; "r"] "r" "" "2" ["3"] ["maybe"] ["x"] before_no
             eq_refl eq_refl Hwrong1 (or_intror eq_refl) Hwrong2
             Hdepth1 Hdepth2 Hon).
  split; [reflexivity|]. split; [reflexivity|]. vm_compute. reflexivity.
Defined.

(** X19.  A whole session with deletion.  As before, but the user answers
    [yes] and, after any number of lines turned down, enters a line that
    matches the pattern of white space and digits and whose tokens [int]
    converts.  The session returns exactly when the numbers refer to pairwise
    different files of the flattened list; it has then removed these files
    and no other, and its last line reports the bytes freed. *)
Theorem session_with_deletion (md5 : string -> string)
    (os_walk : gmap string string -> string ->
               list (string * list string * list string))
    (py : Py.t) (argv : list string)
    (directory file_format answer numbers : string)
    (wrong1 wrong2 wrong3 rest : list string) (file_numbers : list Z)
    (s : State) :
  let paths := matching_paths (os_walk (fs s) directory) file_format in
  let reverse := bool_decide (answer = "1") in
  let listed :=
    session_listed md5 directory paths reverse rest
      (session_output md5 (fs s) paths reverse wrong1 wrong2 ++
       reprompts numbers_message WrongFormat wrong3) s in
  let fl := targets (duplicate_files listed) file_numbers in
  list_getitem argv 1 = Some directory ->
  stdin s = file_format :: wrong1 ++ answer :: wrong2 ++
            "yes" :: wrong3 ++ numbers :: rest ->
  Forall (fun w => w <> "1" /\ w <> "2") wrong1 ->
  answer = "1" \/ answer = "2" ->
  Forall (fun w => w <> "yes" /\ w <> "no") wrong2 ->
  (length wrong1 <= Py.recursion_depth py)%nat ->
  (length wrong2 <= Py.recursion_depth py)%nat ->
  Forall (fun w => Py.fullmatch_space_digit py w = false) wrong3 ->
  Py.fullmatch_space_digit py numbers = true ->
  Forall2 (fun tok num => Py.int py tok = Some num)
          (Py.split py numbers) file_numbers ->
  Forall (fun path => is_Some (fs s !! path)) paths ->
  ((main md5 os_walk py argv s).1 = Ok tt <-> NoDup fl) /\
  (NoDup fl ->
   main md5 os_walk py argv s =
   (Ok tt,
    set_stdout (stdout listed ++ [TotalLine (freed_bytes (fs s) fl)])
      (set_fs (remove_all fl (fs s)) listed))).
Proof.
  intros paths reverse listed fl Hargv Hstdin Hwrong1 Hanswer Hwrong2
    Hdepth1 Hdepth2 Hwrong3 Hnumbers Hnums Hon.
  rewrite (main_listed md5 os_walk py argv directory file_format answer "yes"
             wrong1 wrong2 (wrong3 ++ numbers :: rest) s Hargv Hstdin Hwrong1
             Hanswer Hwrong2 (or_introl eq_refl) Hdepth1 Hdepth2 Hon).
  fold paths reverse. rewrite bool_decide_true by done.
  rewrite (deletion_phase_run py wrong3 rest numbers) by done.
  rewrite (proj2 (mapM_Some _ _ _) Hnums).
  match goal with
  | |- context [delete_files _ ?before] =>
      replace before with listed
  end.
  2: { apply State_eq; try reflexivity; subst listed;
         unfold session_listed, emit;
         cbn [stdout duplicate_files set_stdout set_stdin set_duplicate_files];
         by rewrite ?app_nil_r, <- ?app_assoc. }
  fold fl.
  assert (Hfs : fs listed = fs s) by reflexivity.
  assert (Hdisk : Forall (fun file => is_Some (fs listed !! file)) fl).
  { apply Forall_forall. intros file Hin%elem_of_targets.
    rewrite Forall_forall in Hon. apply Hon.
    by apply (listed_sets_paths md5 (fs s) paths reverse). }
  rewrite delete_files_unfold, bind_run. split.
  - split.
    + intros Hok.
      destruct (for_fold file_numbers 0 delete_step listed)
        as [[total|e] s1] eqn:Hloop; [|done].
      eapply proj1, (delete_loop_ok_inv _ 0 listed total). by rewrite Hloop.
    + intros Hnd. by rewrite delete_loop_ok.
  - intros Hnd. rewrite delete_loop_ok by done. cbv beta iota.
    rewrite print_emit, emit_out. fold fl. rewrite Hfs.
    by replace (0 + freed_bytes (fs s) fl) with (freed_bytes (fs s) fl) by lia.
Qed.

Lemma session_with_deletion_witness :
  list_getitem ["handler.py"; "r"] 1 = Some "r" /\
  stdin before_yes =
    "" :: [] ++ "2" :: [] ++ "yes" :: ["1, 2"] ++ "1 3" :: ["x"] /\
  Forall (fun w => Py.fullmatch_space_digit Example.python w = false)
         ["1, 2"] /\
  Py.fullmatch_space_digit Example.python "1 3" = true /\
  Forall2 (fun tok num => Py.int Example.python tok = Some num)
          (Py.split Example.python "1 3") [1; 3] /\
  Forall (fun path => is_Some (fs before_yes !! path))
    (matching_paths (Example.tree (fs before_yes) "r") "") /\
  (main Example.digest Example.tree Example.python ["handler.py"; "r"]
        before_yes).1 = Ok tt /\
  last (stdout (main Example.digest Example.tree Example.python
                     ["handler.py"; "r"] before_yes).2)
    = Some (TotalLine 30) /\
  fs (main Example.digest Example.tree Example.python ["handler.py"; "r"]
           before_yes).2 !! "r/A" = None /\
  fs (main Example.digest Example.tree Example.python ["handler.py"; "r"]
           before_yes).2 !! "r/B" = Some "xxxxxxxxxx".
Proof.
  assert (Hwrong3 : Forall
            (fun w => Py.fullmatch_space_digit Example.python w = false)
            ["1, 2"]) by (by repeat constructor).
  assert (Hnums : Forall2 (fun tok num => Py.int Example.python tok = Some num)
                    (Py.split Example.python "1 3") [1; 3])
    by (by repeat constructor).
  assert (Hon : Forall (fun path => is_Some (fs before_yes !! path))
            (matching_paths (Example.tree (fs before_yes) "r") ""))
    by compute_done.
  assert (Hdepth : (length (@nil string) <=
                    Py.recursion_depth Example.python)%nat) by (cbn; lia).
  split; [reflexivity|]. split; [reflexivity|]. split; [exact Hwrong3|].
  split; [reflexivity|]. split; [exact Hnums|]. split; [exact Hon|].
  destruct (session_with_deletion Example.digest Example.tree Example.python
              ["handler.py"; "r"] "r" "" "2" "1 3" [] [] ["1, 2"] ["x"]
              [1; 3] before_yes eq_refl eq_refl (Forall_nil_2 _)
              (or_intror eq_refl) (Forall_nil_2 _) Hdepth Hdepth Hwrong3
              eq_refl Hnums Hon) as [_ Hrun].
  rewrite Hrun by compute_done.
  split; [reflexivity|]. split; [vm_compute; reflexivity|].
  split; vm_compute; reflexivity.
Defined.

(** ** The exceptions that leave the program *)

Lemma explained_bind {A B} (m : M A) (k : A -> M B) (s : State) :
  explained (m s) ->
  (forall a s', m s = (Ok a, s') -> explained (k a s')) ->
  explained ((m ≫= k) s).
Proof.
  intros Hm Hk. rewrite bind_run.
  destruct (m s) as [[a|e] s'] eqn:Hrun; [by apply Hk | exact Hm].
Qed.

Lemma honest_bind {A B} (m : M A) (k : A -> M B) :
  honest m -> (forall a, honest (k a)) -> honest (m ≫= k).
Proof.
  intros Hm Hk s. apply explained_bind; [apply Hm|]. intros a s' _. apply Hk.
Qed.

Lemma honest_ret {A} (a : A) : honest (mret a : M A).
Proof. by intros s. Qed.

Lemma honest_modify (f : State -> State) : honest (modify f).
Proof. by intros s. Qed.

Lemma honest_print (o : output) : honest (print o).
Proof. apply honest_modify. Qed.

Lemma honest_for_fold {A B} (xs : list A) (acc : B) (body : B -> A -> M B) :
  (forall acc x, honest (body acc x)) -> honest (for_fold xs acc body).
Proof.
  intros Hbody. revert acc. induction xs as [|x xs IH]; intros acc.
  - apply honest_ret.
  - cbn [for_fold]. apply honest_bind; [apply Hbody | intros acc'; apply IH].
Qed.

Lemma honest_for_each {A} (xs : list A) (body : A -> M unit) :
  (forall x, honest (body x)) -> honest (for_each xs body).
Proof. intros Hbody. apply honest_for_fold. intros _ x. apply Hbody. Qed.

Lemma honest_input (message : string) : honest (input message).
Proof.
  intros s. rewrite input_run. unfold explained.
  destruct (stdin s) as [|line rest] eqn:Hin; cbn [fst snd]; [|done].
  destruct s. exact Hin.
Qed.

Lemma honest_os_path_getsize (path : string) : honest (os_path_getsize path).
Proof.
  intros s. rewrite os_path_getsize_run. unfold explained.
  by destruct (fs s !! path) eqn:Hpath.
Qed.

Lemma honest_os_remove (path : string) : honest (os_remove path).
Proof.
  intros s. rewrite os_remove_run. unfold explained.
  by destruct (fs s !! path) eqn:Hpath.
Qed.

Lemma honest_read_bytes (file : string) : honest (read_bytes file).
Proof.
  intros s. rewrite read_bytes_run. unfold explained.
  by destruct (fs s !! file) eqn:Hfile.
Qed.

Lemma honest_prompt_user_rec (depth : nat)
    (message option_1 option_2 : string) :
  honest (prompt_user_rec depth message option_1 option_2).
Proof.
  induction depth as [|depth IH]; cbn [prompt_user_rec];
    (apply honest_bind; [apply honest_input|]); intros answer;
    (destruct (Dict.getitem answer _); [apply honest_ret|]);
    (apply honest_bind; [apply honest_print|]); intros _.
  - by intros s.
  - apply IH.
Qed.

Lemma honest_prompt_user py (message option_1 option_2 : string) :
  honest (prompt_user py message option_1 option_2).
Proof. apply honest_prompt_user_rec. Qed.

(** The bound on the rounds is never what ends the loop: with as many rounds
    allowed as lines are waiting, the lines run out first. *)
Lemma explained_read_file_numbers py (rounds : nat) (s : State) :
  (length (stdin s) <= rounds)%nat ->
  explained (read_file_numbers py rounds s).
Proof.
  revert s. induction rounds as [|rounds IH]; intros s Hlen.
  - destruct (stdin s) as [|line rest] eqn:Hin; [|simpl in Hlen; lia].
    cbn [read_file_numbers]. rewrite bind_run, input_run, Hin.
    unfold explained. cbn [fst snd]. by destruct s.
  - cbn [read_file_numbers]. apply explained_bind; [apply honest_input|].
    intros answer s1 Hrun. rewrite input_run in Hrun.
    destruct (stdin s) as [|line rest] eqn:Hin; [done|].
    injection Hrun as <- <-.
    destruct (Py.fullmatch_space_digit py line); [done|].
    apply explained_bind; [apply honest_print|].
    intros [] s2 [= <-]. apply IH.
    destruct s. cbn in *. subst. cbn in Hlen. lia.
Qed.

Lemma honest_add_files os_walk (file_format : string) :
  honest (add_files os_walk file_format).
Proof.
  intros s. unfold add_files. rewrite bind_run, get_run. cbv beta iota.
  apply honest_for_each. intros [[root dirs] fnames].
  apply honest_for_each. intros file.
  destruct (Text.endswith file file_format); [|apply honest_ret].
  apply honest_bind; [apply honest_os_path_getsize|].
  intros size. apply honest_modify.
Qed.

Lemma honest_add_files_by_hash_value (md5 : string -> string) :
  honest (add_files_by_hash_value md5).
Proof.
  intros s. unfold add_files_by_hash_value. rewrite bind_run, get_run.
  cbv beta iota. apply honest_for_each. intros [size fl].
  apply honest_bind; [|intros hash_dict; apply honest_modify].
  apply honest_for_fold. intros hash_dict file.
  apply honest_bind; [apply honest_read_bytes|]. intros content.
  apply honest_ret.
Qed.

Lemma honest_add_duplicate_files : honest add_duplicate_files.
Proof. intros s. by rewrite add_duplicate_files_run. Qed.

Lemma honest_output_files (reverse : bool) : honest (output_files reverse).
Proof. intros s. by rewrite output_files_run. Qed.

Lemma honest_output_duplicates (reverse : bool) :
  honest (output_duplicates reverse).
Proof. intros s. by rewrite output_duplicates_run. Qed.

Lemma honest_delete_files (file_numbers : list Z) :
  honest (delete_files file_numbers).
Proof.
  apply honest_bind; [|intros total; apply honest_print].
  apply honest_for_fold. intros total_size num s.
  rewrite bind_run, get_run. cbv beta iota.
  destruct (list_getitem (duplicate_files s) (num - 1)) as [file|];
    [|apply honest_ret].
  apply honest_bind; [apply honest_os_path_getsize|]. intros size.
  apply honest_bind; [apply honest_os_remove|]. intros _. apply honest_ret.
Qed.

Lemma honest_start_file_handler md5 os_walk py :
  honest (start_file_handler md5 os_walk py).
Proof.
  unfold start_file_handler.
  apply honest_bind; [apply honest_input|]. intros file_format.
  apply honest_bind; [apply honest_add_files|]. intros _.
  apply honest_bind; [apply honest_add_files_by_hash_value|]. intros _.
  apply honest_bind; [apply honest_add_duplicate_files|]. intros _.
  apply honest_bind; [apply honest_prompt_user|]. intros sorting.
  apply honest_bind; [apply honest_output_files|]. intros _.
  apply honest_bind; [apply honest_prompt_user|]. intros delete.
  apply honest_bind; [apply honest_output_duplicates|]. intros _.
  destruct delete; [|apply honest_ret].
  intros s. rewrite bind_run, get_run. cbv beta iota.
  apply explained_bind; [by apply explained_read_file_numbers|].
  intros line s' _.
  destruct (mapM (Py.int py) (Py.split py line));
    [apply honest_delete_files | done].
Qed.

Lemma honest_main md5 os_walk py (argv : list string) :
  honest (main md5 os_walk py argv).
Proof.
  unfold main. destruct (list_getitem argv 1) as [directory|];
    [|apply honest_print].
  apply honest_bind; [apply honest_modify|]. intros _.
  apply honest_start_file_handler.
Qed.

(** An exception that leaves [delete_files] is a [FileNotFoundError]. *)
Lemma delete_files_raises (file_numbers : list Z) (s : State) (e : exn) :
  (delete_files file_numbers s).1 = Raise e ->
  exists path, e = FileNotFoundError path.
Proof.
  rewrite delete_files_unfold, bind_run.
  destruct (delete_loop_effect file_numbers 0 s) as [_ Hexn].
  destruct (for_fold file_numbers 0 delete_step s) as [[total|e'] s1];
    cbn [fst] in *.
  - by rewrite print_emit.
  - intros [= <-]. by apply Hexn.
Qed.

(** A session that ends with another exception than [FileNotFoundError] has
    not got as far as deleting a file. *)
Lemma start_file_handler_raise_same_disk md5 os_walk py (s : State) (e : exn) :
  (start_file_handler md5 os_walk py s).1 = Raise e ->
  (forall path, e <> FileNotFoundError path) ->
  fs (start_file_handler md5 os_walk py s).2 = fs s.
Proof.
  assert (Hscan : forall s, same_disk s (scan_and_list md5 os_walk py s).2).
  { intros s0.
    apply harmless_scan_and_list;
      [apply same_disk_refl | apply same_disk_trans | done ..]. }
  assert (Hprompt : forall m o1 o2 s,
            same_disk s (prompt_user py m o1 o2 s).2).
  { intros m o1 o2 s0.
    apply harmless_prompt_user;
      [apply same_disk_refl | apply same_disk_trans | done ..]. }
  assert (Hlist : forall r s, same_disk s (output_duplicates r s).2).
  { intros r s0. apply harmless_output_duplicates. done. }
  assert (Hread : forall rounds s,
            same_disk s (read_file_numbers py rounds s).2).
  { intros rounds s0.
    apply harmless_read_file_numbers;
      [apply same_disk_refl | apply same_disk_trans | done ..]. }
  unfold same_disk in *.
  rewrite start_file_handler_split, bind_run.
  pose proof (Hscan s) as Hs1.
  destruct (scan_and_list md5 os_walk py s) as [[sorting|e1] s1];
    cbn [fst snd] in *; [|done].
  rewrite bind_run. pose proof (Hprompt check_message "yes" "no" s1) as Hs2.
  destruct (prompt_user py check_message "yes" "no" s1) as [[delete|e2] s2];
    cbn [fst snd] in *; [|intros _ _; congruence].
  rewrite bind_run. pose proof (Hlist sorting s2) as Hs3.
  destruct (output_duplicates sorting s2) as [[[]|e3] s3];
    cbn [fst snd] in *; [|intros _ _; congruence].
  destruct delete; [|by rewrite mret_run].
  unfold deletion_phase. rewrite bind_run, get_run. cbv beta iota.
  rewrite bind_run. pose proof (Hread (length (stdin s3)) s3) as Hs4.
  destruct (read_file_numbers py (length (stdin s3)) s3) as [[line|e4] s4];
    cbn [fst snd] in *; [|intros _ _; congruence].
  destruct (mapM (Py.int py) (Py.split py line)) as [file_numbers|].
  - intros Hraise Hother.
    destruct (delete_files_raises _ _ _ Hraise) as [path ->].
    by destruct (Hother path).
  - rewrite raise_run. cbn [snd]. intros _ _. congruence.
Qed.

(** X20.  What the exceptions that leave [main] say of the run.  After an
    [EOFError] standard input has been read to its end; after a
    [FileNotFoundError] the path it names is not on disk; and after an
    [EOFError], a [RecursionError] of the prompts or a [ValueError] of [int]
    every file is on disk as it was: of these exceptions only a
    [FileNotFoundError] can end a run that has deleted a file. *)
Theorem main_uncaught_errors (md5 : string -> string)
    (os_walk : gmap string string -> string ->
               list (string * list string * list string))
    (py : Py.t) (argv : list string) (s : State) :
  let outcome := main md5 os_walk py argv s in
  (outcome.1 = Raise EOFError -> stdin outcome.2 = [] /\ fs outcome.2 = fs s) /\
  (forall path : string,
     outcome.1 = Raise (FileNotFoundError path) ->
     fs outcome.2 !! path = None) /\
  (outcome.1 = Raise RecursionError -> fs outcome.2 = fs s) /\
  (outcome.1 = Raise ValueError -> fs outcome.2 = fs s).
Proof.
  intros outcome.
  pose proof (honest_main md5 os_walk py argv s) as Hexp.
  fold outcome in Hexp. unfold explained in Hexp.
  assert (Hdisk : forall e, outcome.1 = Raise e ->
            (forall path, e <> FileNotFoundError path) ->
            fs outcome.2 = fs s).
  { subst outcome. unfold main.
    destruct (list_getitem argv 1) as [directory|];
      [|by rewrite print_emit].
    rewrite bind_run, modify_run. cbv beta iota. intros e Hraise Hother.
    by rewrite (start_file_handler_raise_same_disk _ _ _ _ e). }
  split_and!.
  - intros Hraise. rewrite Hraise in Hexp. split; [done|].
    by apply (Hdisk EOFError).
  - intros path Hraise. by rewrite Hraise in Hexp.
  - intros Hraise. by apply (Hdisk RecursionError).
  - intros Hraise. by apply (Hdisk ValueError).
Qed.

Lemma main_uncaught_errors_witness :
  session_twice.1 = Raise (FileNotFoundError "r/A") /\
  fs session_twice.2 !! "r/A" = None.
Proof.
  assert (Hraise : session_twice.1 = Raise (FileNotFoundError "r/A"))
    by (vm_compute; reflexivity).
  split; [exact Hraise|].
  destruct (main_uncaught_errors Example.digest Example.tree Example.python
              ["handler.py"; "r"]
              (mkState "" [] [] [] [] Example.disk [""; "2"; "yes"; "1 1"]
                       [] []))
    as (_ & Hmissing & _).
  exact (Hmissing "r/A" Hraise).
Defined.
